(** * Recommendation blending and performance tracking

    A shallow embedding of the recommendation core of the trading backend:

    - [ai_models/rule_based_model.py]   (module [RuleBased])
    - [ai_models/hybrid_model.py]       (module [Hybrid])
    - [trading_strategies.py], [strategy_integration.py] (module [Strategies])
    - [ai_recommendations.py]           (module [Recommender])
    - [enhanced_ai_recommendations.py]  (module [Enhanced])
    - [performance_tracking.py]         (module [Tracker])

    Conventions of the embedding.  Python [int] is [Z]; Python [float] is a
    rational [Q] (numeric equality of floats is [Qeq]).  Prices, targets and
    costs are carried as the exact values of their formulas; where a result
    of the code depends on the binary rounding of float arithmetic (the
    split of the hybrid model, the running total of the automated trader,
    the shares of the feed analysis) the operation goes through
    [Float.round64].  [str] is [string]; a list is a
    [list]; a dict read with [.get(key, default)] has an [option] field where
    the defaults differ between readers and a plain field holding the default
    where they agree; [None] is [None].  A Python exception is the [Raise]
    branch of [Exc].  Calls that leave the process (broker client, language
    model, social feed, random phrase choice, [time.time()]) are Section
    variables or explicit arguments. *)

From Stdlib Require Import ZArith QArith Qround String Ascii List Lia.
From stdpp Require Import base option list strings gmap.

Local Open Scope string_scope.
Local Open Scope Z_scope.
Local Open Scope list_scope.

(** ** Python primitives used by the modelled code *)
Module Py.

(** [a < b] on floats. *)
Definition Qltb (a b : Q) : bool := negb (Qle_bool b a).

(** [min(a, b)] and [max(a, b)] on floats: the first argument wins a tie. *)
Definition min (a b : Q) : Q := if Qltb b a then b else a.
Definition max (a b : Q) : Q := if Qltb a b then b else a.

(** [int(x)]: truncation toward zero. *)
Definition int (x : Q) : Z := Z.quot (Qnum x) (Zpos (Qden x)).

(** Nearest integer, ties to the even one. *)
Definition round_half_even (q : Q) : Z :=
  let f := Qfloor q in
  match Qcompare (q - inject_Z f) (1 # 2) with
  | Lt => f
  | Gt => f + 1
  | Eq => if Z.even f then f else f + 1
  end.

(** [round(q, ndigits)]. *)
Definition round (q : Q) (ndigits : nat) : Q :=
  let scale := inject_Z (10 ^ Z.of_nat ndigits) in
  Qred (inject_Z (round_half_even (q * scale)) / scale).

(** [l[:n]]: a negative bound counts from the end of the list. *)
Definition slice_to {A} (l : list A) (n : Z) : list A :=
  if 0 <=? n then take (Z.to_nat n) l
  else take (Z.to_nat (Z.of_nat (length l) + n)) l.

(** One step of a stable sort: [x] moves right past every [y] that must come
    strictly before it and stops in front of the first one that need not. *)
Fixpoint insert_by {A} (before : A → A → bool) (x : A) (l : list A) : list A :=
  match l with
  | [] => [x]
  | y :: l' => if before y x then y :: insert_by before x l' else x :: l
  end.

(** [sorted(l, key=...)] for a strict order [lt] on the keys: stable, and with
    [reverse=True] descending while elements with equal keys still keep their
    original order. *)
Definition sorted {A} (lt : A → A → bool) (reverse : bool) (l : list A) : list A :=
  foldr (insert_by (fun y x => if reverse then lt x y else lt y x)) [] l.

(** [len(l)] as a Python int. *)
Definition len {A} (l : list A) : Z := Z.of_nat (length l).

(** [c.lower()] on ASCII letters. *)
Definition lower_ascii (c : ascii) : ascii :=
  let n := nat_of_ascii c in
  if ((65 <=? n) && (n <=? 90))%nat then ascii_of_nat (n + 32) else c.

(** [s.lower()]. *)
Fixpoint lower (s : string) : string :=
  match s with
  | EmptyString => EmptyString
  | String c s' => String (lower_ascii c) (lower s')
  end.

(** [needle in haystack] on strings. *)
Definition contains (needle haystack : string) : bool :=
  match index 0 needle haystack with Some _ => true | None => false end.

(** [s.split(sep)] for a one-character separator. *)
Fixpoint split (sep : ascii) (s : string) : list string :=
  match s with
  | EmptyString => [EmptyString]
  | String c s' =>
      if Ascii.eqb c sep then EmptyString :: split sep s'
      else match split sep s' with
           | [] => [String c EmptyString]
           | w :: ws => String c w :: ws
           end
  end.

(** A computation that returns a value or raises an exception. *)
Inductive Exc (A : Type) : Type :=
| Ok (a : A)
| Raise (e : string).
Arguments Ok {A} a.
Arguments Raise {A} e.

End Py.

(** ** Binary floating point *)
Module Float.
Import Py.

(** The exponent of a positive rational [a] as a binary64 number: the [e]
    with [a / 2^e] in [[2^52, 2^53)]. *)
Definition exponent (a : Q) : Z :=
  let k := Z.log2 (Qnum a) - Z.log2 (Zpos (Qden a)) in
  if Qltb a (2 ^ k)%Q then k - 53 else k - 52.

(** The binary64 number nearest to [q], ties to the even significand. The
    exponent is not bounded: magnitudes from [2^1024] on, where Python
    raises or overflows, and below [2^-1022], where precision is lost, lie
    outside the data handled here (counts, cents, dollar amounts). *)
Definition round64 (q : Q) : Q :=
  match Qnum q with
  | 0 => 0%Q
  | _ =>
      let a := Z.abs (Qnum q) # Qden q in
      let e := exponent a in
      let significand := round_half_even (a / 2 ^ e)%Q in
      let r := Qred (inject_Z significand * 2 ^ e)%Q in
      if Qltb q 0%Q then Qopp r else r
  end.

(** A decimal literal such as [0.7], and [float(n)] for an [int]. *)
Definition literal (decimal : Q) : Q := round64 decimal.
Definition of_int (n : Z) : Q := round64 (inject_Z n).

(** [a * b], [a + b] and [a / b] on floats: the exact result, rounded. *)
Definition mul (a b : Q) : Q := round64 (a * b).
Definition add (a b : Q) : Q := round64 (a + b).
Definition div (a b : Q) : Q := round64 (a / b).

End Float.

(** ** Data model *)

(** A market dictionary as the scorers read it. [yes_ask] is read with
    default 0 by the scoring rules and with default 50 by the mean-reversion
    sort key, so its absence is kept; the other fields hold the default that
    the scorers embedded here read them with. *)
Record Market := {
  id : string;
  title : string;
  yes_bid : Z;
  yes_ask : option Z;
  no_ask : Z;
  volume_24h : Z
}.

(** A recommendation dictionary. The ["strategy"] key is absent until a
    blender or scorer tags the entry. *)
Record Rec := {
  market : string;
  market_id : string;
  action : string;
  probability : Q;
  contracts : Z;
  cost : Q;
  target_exit : Q;
  stop_loss : Q;
  confidence : string;
  rationale : string;
  strategy : option string
}.

(** [rec["strategy"] = tag]. *)
Definition set_strategy (tag : string) (r : Rec) : Rec :=
  {| market := market r; market_id := market_id r; action := action r;
     probability := probability r; contracts := contracts r; cost := cost r;
     target_exit := target_exit r; stop_loss := stop_loss r;
     confidence := confidence r; rationale := rationale r;
     strategy := Some tag |}.

(** [{"High": 3, "Medium": 2, "Low": 1}.get(confidence, 0)]. *)
Definition confidence_order (c : string) : Z :=
  if String.eqb c "High" then 3
  else if String.eqb c "Medium" then 2
  else if String.eqb c "Low" then 1
  else 0.

(** ** rule_based_model.py *)
Module RuleBased.
Import Py.

Section model.
(** The rationale text is assembled from randomly chosen phrases. *)
Variable momentum_rationale : Market → string → string → string.
Variable mean_reversion_rationale : Market → string → string → string.

(** [market.get("yes_ask", 0) / 100.0]. *)
Definition yes_price_of (m : Market) : Q := inject_Z (default 0 (yes_ask m)) / 100.

(** Body of the momentum loop for one market: [None] is [continue]. *)
Definition momentum_candidate (risk_level : string) (m : Market) : option Rec :=
  (let yes_price := yes_price_of m in
  let decision :=
    if Qltb (65 # 100) yes_price then
      Some ("YES", yes_price * 100, if Qltb (8 # 10) yes_price then "High" else "Medium")
    else if Qltb yes_price (35 # 100) then
      Some ("NO", (1 - yes_price) * 100, if Qltb yes_price (2 # 10) then "High" else "Medium")
    else None in
  match decision with
  | None => None
  | Some (act, prob, conf) =>
      let n := if String.eqb risk_level "low" then 1%Z
               else if String.eqb risk_level "medium" then 3%Z else 5%Z in
      let '(cst, target, stop) :=
        if String.eqb act "YES" then
          (inject_Z n * yes_price,
           min (yes_price + (15 # 100)) (99 # 100),
           max (yes_price - (10 # 100)) (1 # 100))
        else
          (inject_Z n * (1 - yes_price),
           max (yes_price - (15 # 100)) (1 # 100),
           min (yes_price + (10 # 100)) (99 # 100)) in
      Some {| market := title m; market_id := id m; action := act;
              probability := round prob 1; contracts := n;
              cost := round cst 2;
              target_exit := round (target * 100) 1;
              stop_loss := round (stop * 100) 1;
              confidence := conf;
              rationale := momentum_rationale m act conf;
              strategy := None |}
  end)%Q.

(** Body of the mean-reversion loop for one market. *)
Definition mean_reversion_candidate (risk_level : string) (m : Market) : option Rec :=
  (let yes_price := yes_price_of m in
  let decision :=
    if Qltb (8 # 10) yes_price then
      Some ("NO", (1 - yes_price) * 100, if Qltb (9 # 10) yes_price then "Medium" else "Low")
    else if Qltb yes_price (2 # 10) then
      Some ("YES", yes_price * 100, if Qltb yes_price (1 # 10) then "Medium" else "Low")
    else None in
  match decision with
  | None => None
  | Some (act, prob, conf) =>
      let n := if String.eqb risk_level "low" then 1%Z
               else if String.eqb risk_level "medium" then 2%Z else 4%Z in
      let '(cst, target, stop) :=
        if String.eqb act "YES" then
          (inject_Z n * yes_price,
           min (yes_price + (20 # 100)) (99 # 100),
           max (yes_price - (5 # 100)) (1 # 100))
        else
          (inject_Z n * (1 - yes_price),
           max (yes_price - (20 # 100)) (1 # 100),
           min (yes_price + (5 # 100)) (99 # 100)) in
      Some {| market := title m; market_id := id m; action := act;
              probability := round prob 1; contracts := n;
              cost := round cst 2;
              target_exit := round (target * 100) 1;
              stop_loss := round (stop * 100) 1;
              confidence := conf;
              rationale := mean_reversion_rationale m act conf;
              strategy := None |}
  end)%Q.

(** The [for market in sorted_markets[...]] loop shared by both scorers:
    append the candidate, and [break] once [max_recommendations] entries are
    collected (the test comes after the append). *)
Fixpoint scoring_loop (candidate : Market → option Rec) (max_recommendations : Z)
    (markets : list Market) (recommendations : list Rec) : list Rec :=
  match markets with
  | [] => recommendations
  | m :: rest =>
      match candidate m with
      | None => scoring_loop candidate max_recommendations rest recommendations
      | Some r =>
          let recommendations' := recommendations ++ [r] in
          if max_recommendations <=? len recommendations' then recommendations'
          else scoring_loop candidate max_recommendations rest recommendations'
      end
  end.

Definition _generate_momentum_recommendations
    (markets : list Market) (max_recommendations : Z) (risk_level : string) : list Rec :=
  let sorted_markets :=
    sorted (fun a b => volume_24h a <? volume_24h b) true markets in
  scoring_loop (momentum_candidate risk_level) max_recommendations
    (slice_to sorted_markets (max_recommendations * 2)) [].

Definition _generate_mean_reversion_recommendations
    (markets : list Market) (max_recommendations : Z) (risk_level : string) : list Rec :=
  let key m := Z.abs (default 50 (yes_ask m) - 50) in
  let sorted_markets := sorted (fun a b => key a <? key b) true markets in
  scoring_loop (mean_reversion_candidate risk_level) max_recommendations
    (slice_to sorted_markets (max_recommendations * 2)) [].

Definition generate_recommendations (markets_data : list Market) (strategy : string)
    (max_recommendations : Z) (risk_level : string) : list Rec :=
  if String.eqb strategy "momentum" then
    _generate_momentum_recommendations markets_data max_recommendations risk_level
  else if String.eqb strategy "mean-reversion" then
    _generate_mean_reversion_recommendations markets_data max_recommendations risk_level
  else [].

End model.
End RuleBased.

(** A market whose only set fields are its identifier, ask price and volume. *)
Definition simple_market (i : string) (ask vol : Z) : Market :=
  {| id := i; title := i; yes_bid := ask; yes_ask := Some ask;
     no_ask := 100 - ask; volume_24h := vol |}.

Definition no_rationale (m : Market) (a c : string) : string := "".

Example momentum_at_90 :
  map (fun r => (action r, confidence r, probability r, cost r, target_exit r, stop_loss r))
    (RuleBased.generate_recommendations no_rationale no_rationale
       [simple_market "M" 90 1000] "momentum" 5 "medium")
  = [("YES", "High", 90 # 1, 27 # 10, 99 # 1, 80 # 1)]%Q.
Proof. vm_compute. reflexivity. Qed.

(** ** hybrid_model.py *)
Module Hybrid.
Import Py.

Section model.
Variable momentum_rationale : Market → string → string → string.
Variable mean_reversion_rationale : Market → string → string → string.
(** [bool(config.get("ai", "api_key"))]. *)
Variable openai_enabled : bool.
(** [OpenAIRecommendationModel.generate_recommendations], a remote call. *)
Variable openai_model : list Market → string → Z → string → Exc (list Rec).

Definition rule_based_model : list Market → string → Z → string → list Rec :=
  RuleBased.generate_recommendations momentum_rationale mean_reversion_rationale.

(** The split of [max_recommendations] between the two sub-strategies:
    [(momentum_count, mean_reversion_count)]. The product with the share is
    a float product, rounded before [int] truncates it: [int(90 * 0.7)] is
    62, not 63. *)
Definition split_counts (max_recommendations : Z) (risk_level : string) : Z * Z :=
  let share := if String.eqb risk_level "low" then Float.literal (4 # 10)
               else if String.eqb risk_level "high" then Float.literal (7 # 10)
               else Float.literal (5 # 10) in
  let momentum_count :=
    Z.max 1 (int (Float.mul (Float.of_int max_recommendations) share)) in
  (momentum_count, max_recommendations - momentum_count).

(** The [try] block that asks the remote model for both lists: an exception
    leaves whatever was not yet assigned empty. *)
Definition openai_attempt (markets_data : list Market)
    (momentum_count mean_reversion_count : Z) (risk_level : string)
    : list Rec * list Rec :=
  if openai_enabled then
    match openai_model markets_data "momentum" momentum_count risk_level with
    | Raise _ => ([], [])
    | Ok momentum =>
        match openai_model markets_data "mean-reversion" mean_reversion_count risk_level with
        | Raise _ => (momentum, [])
        | Ok mean_reversion => (momentum, mean_reversion)
        end
    end
  else ([], []).

(** [not recs or len(recs) < count]. *)
Definition needs_fallback (recs : list Rec) (count : Z) : bool :=
  match recs with
  | [] => true
  | _ => len recs <? count
  end.

(** The loop that keeps the first entry of every market, with its [break]
    after the append. *)
Fixpoint dedup_loop (max_recommendations : Z) (combined unique : list Rec)
    (seen_market_ids : gset string) : list Rec * gset string :=
  match combined with
  | [] => (unique, seen_market_ids)
  | rec :: rest =>
      if decide (market_id rec ∈ seen_market_ids)
      then dedup_loop max_recommendations rest unique seen_market_ids
      else
        let unique' := unique ++ [rec] in
        let seen' := seen_market_ids ∪ {[market_id rec]} in
        if max_recommendations <=? len unique' then (unique', seen')
        else dedup_loop max_recommendations rest unique' seen'
  end.

(** The loop that tops the result up from the remaining entries, with its
    [break] before the append. *)
Fixpoint fill_loop (max_recommendations : Z) (remaining unique : list Rec)
    (seen_market_ids : gset string) : list Rec * gset string :=
  match remaining with
  | [] => (unique, seen_market_ids)
  | rec :: rest =>
      if max_recommendations <=? len unique then (unique, seen_market_ids)
      else fill_loop max_recommendations rest (unique ++ [rec])
             (seen_market_ids ∪ {[market_id rec]})
  end.

(** Everything after the two candidate lists are known: tagging,
    concatenation, deduplication and top-up. *)
Definition blend (momentum mean_reversion : list Rec) (max_recommendations : Z) : list Rec :=
  let momentum := map (set_strategy "momentum") momentum in
  let mean_reversion := map (set_strategy "mean-reversion") mean_reversion in
  let combined := momentum ++ mean_reversion in
  let '(unique, seen) := dedup_loop max_recommendations combined [] ∅ in
  if len unique <? max_recommendations then
    let remaining := filter (fun rec => market_id rec ∉ seen) combined in
    let remaining :=
      sorted (fun a b => confidence_order (confidence a) <? confidence_order (confidence b))
        true remaining in
    fst (fill_loop max_recommendations remaining unique seen)
  else unique.

Definition _generate_hybrid_strategy_recommendations (markets_data : list Market)
    (max_recommendations : Z) (risk_level : string) : list Rec :=
  let '(momentum_count, mean_reversion_count) :=
    split_counts max_recommendations risk_level in
  let '(momentum, mean_reversion) :=
    openai_attempt markets_data momentum_count mean_reversion_count risk_level in
  let momentum :=
    if needs_fallback momentum momentum_count
    then rule_based_model markets_data "momentum" momentum_count risk_level
    else momentum in
  let mean_reversion :=
    if needs_fallback mean_reversion mean_reversion_count
    then rule_based_model markets_data "mean-reversion" mean_reversion_count risk_level
    else mean_reversion in
  blend momentum mean_reversion max_recommendations.

Definition generate_recommendations (markets_data : list Market) (strategy : string)
    (max_recommendations : Z) (risk_level : string) : list Rec :=
  if String.eqb strategy "hybrid" then
    _generate_hybrid_strategy_recommendations markets_data max_recommendations risk_level
  else
    let rule_based :=
      rule_based_model markets_data strategy max_recommendations risk_level in
    if openai_enabled then
      match openai_model markets_data strategy max_recommendations risk_level with
      | Ok (r :: rs) => r :: rs
      | _ => rule_based
      end
    else rule_based.

End model.
End Hybrid.

(** The remote model switched off. *)
Definition no_openai (ms : list Market) (s : string) (n : Z) (r : string) : Py.Exc (list Rec) :=
  Py.Ok [].

Example hybrid_three_markets :
  map (fun r => (market_id r, action r, confidence r, strategy r))
    (Hybrid.generate_recommendations no_rationale no_rationale false no_openai
       [simple_market "A" 90 10; simple_market "B" 5 20; simple_market "C" 50 30]
       "hybrid" 5 "medium")
  = [("B", "NO", "High", Some "momentum"); ("A", "YES", "High", Some "momentum")].
Proof. vm_compute. reflexivity. Qed.

(** ** trading_strategies.py and strategy_integration.py *)
Module Strategies.
Import Py.

(** [HourlyMarketFilter.TARGET_SERIES]. *)
Definition TARGET_SERIES : list string :=
  ["KXNASDAQ100U"; "KXINXU"; "KXETHD"; "KXETH"; "KXBTCD"; "KXBTC"].

(** [d.setdefault(key, []).append(x)] on a dict kept in insertion order. *)
Fixpoint group_append {A} (key : string) (x : A) (d : list (string * list A))
    : list (string * list A) :=
  match d with
  | [] => [(key, [x])]
  | (k, xs) :: d' =>
      if String.eqb k key then (k, xs ++ [x]) :: d'
      else (k, xs) :: group_append key x d'
  end.

(** The pairs [(l[i], l[i+1])] for [i in range(len(l) - 1)]. *)
Fixpoint adjacent_pairs {A} (l : list A) : list (A * A) :=
  match l with
  | a :: (b :: _) as rest => (a, b) :: adjacent_pairs rest
  | _ => []
  end.

Section model.
(** [float(s)]: [None] when it raises [ValueError]. *)
Variable py_float : string → option Q.
(** Message texts of the arbitrage scorer (formatted from the two prices). *)
Variable range_rationale : Z → Z → string.
Variable index_rationale_low index_rationale_high : Z → Z → string.
(** [VolatilityStrategy.analyze] (standard deviation in floating point) and
    [SentimentStrategy.analyze] (reads the social feed). *)
Variable volatility_analyze : list Market → list Rec.
Variable sentiment_analyze : list Market → list Rec.

Definition _extract_strike_price (market_id : string) : Q :=
  let parts := split "-" market_id in
  if len parts <? 3 then 0%Q
  else match last parts with
       | Some (String c rest) =>
           if Ascii.eqb c "T" || Ascii.eqb c "B"
           then match py_float rest with Some q => q | None => 0%Q end
           else 0%Q
       | _ => 0%Q
       end.

Definition sort_by_strike (markets : list Market) : list Market :=
  sorted (fun a b => Qltb (_extract_strike_price (id a)) (_extract_strike_price (id b)))
    false markets.

Definition _analyze_price_range_arbitrage (markets : list Market) : list Rec :=
  flat_map (fun '(market1, market2) =>
    let market1_yes_price := default 0 (yes_ask market1) in
    let market2_no_price := no_ask market2 in
    if (0 <? market1_yes_price) && (0 <? market2_no_price)
       && (market1_yes_price + market2_no_price <? 95) then
      let arb_profit := 100 - (market1_yes_price + market2_no_price) in
      let conf := if 10 <? arb_profit then "High" else "Medium" in
      let text := range_rationale market1_yes_price market2_no_price in
      [ {| market_id := id market1; market := title market1; action := "YES";
           contracts := 1; probability := inject_Z market1_yes_price;
           cost := inject_Z market1_yes_price / 100; confidence := conf;
           rationale := text; strategy := Some "arbitrage";
           target_exit := inject_Z (market1_yes_price + 5);
           stop_loss := inject_Z (market1_yes_price - 5) |};
        {| market_id := id market2; market := title market2; action := "NO";
           contracts := 1; probability := inject_Z (100 - market2_no_price);
           cost := inject_Z market2_no_price / 100; confidence := conf;
           rationale := text; strategy := Some "arbitrage";
           target_exit := inject_Z (market2_no_price - 5);
           stop_loss := inject_Z (market2_no_price + 5) |} ]
    else [])
  (adjacent_pairs (sort_by_strike markets)).

Definition _analyze_index_arbitrage (markets : list Market) : list Rec :=
  flat_map (fun '(market1, market2) =>
    let market1_yes_price := default 0 (yes_ask market1) in
    let market2_yes_price := default 0 (yes_ask market2) in
    if (0 <? market1_yes_price) && (0 <? market2_yes_price)
       && (market1_yes_price <? market2_yes_price - 5) then
      [ {| market_id := id market1; market := title market1; action := "YES";
           contracts := 1; probability := inject_Z market1_yes_price;
           cost := inject_Z market1_yes_price / 100; confidence := "Medium";
           rationale := index_rationale_low market1_yes_price market2_yes_price;
           strategy := Some "arbitrage";
           target_exit := inject_Z (market1_yes_price + 10);
           stop_loss := inject_Z (market1_yes_price - 5) |};
        {| market_id := id market2; market := title market2; action := "NO";
           contracts := 1; probability := inject_Z (100 - market2_yes_price);
           cost := inject_Z (100 - market2_yes_price) / 100; confidence := "Medium";
           rationale := index_rationale_high market2_yes_price market1_yes_price;
           strategy := Some "arbitrage";
           target_exit := inject_Z (market2_yes_price - 10);
           stop_loss := inject_Z (market2_yes_price + 5) |} ]
    else [])
  (adjacent_pairs (sort_by_strike markets)).

(** The first target series whose name occurs in the market id. *)
Definition series_of (m : Market) : option string :=
  List.find (fun series => contains series (id m)) TARGET_SERIES.

Definition group_by_series (markets : list Market) : list (string * list Market) :=
  fold_left (fun d m => match series_of m with
                        | Some series => group_append series m d
                        | None => d
                        end) markets [].

(** [ArbitrageStrategy.analyze]. *)
Definition arbitrage_analyze (markets : list Market) : list Rec :=
  flat_map (fun '(series, markets_list) =>
    if len markets_list <? 2 then []
    else if String.eqb series "KXETH" || String.eqb series "KXBTC"
    then _analyze_price_range_arbitrage markets_list
    else if String.eqb series "KXNASDAQ100U" || String.eqb series "KXINXU"
    then _analyze_index_arbitrage markets_list
    else [])
  (group_by_series markets).

(** [StrategyManager._filter_by_risk_level]. *)
Definition _filter_by_risk_level (recommendations : list Rec) (risk_level : string)
    : list Rec :=
  if String.eqb risk_level "high" then recommendations
  else if String.eqb risk_level "medium" then
    List.filter (fun rec => negb (String.eqb (confidence rec) "Low")) recommendations
  else if String.eqb risk_level "low" then
    List.filter (fun rec => String.eqb (confidence rec) "High") recommendations
  else List.filter (fun rec => negb (String.eqb (confidence rec) "Low")) recommendations.

(** The sort key [(confidence_order[confidence], cost * -1)] and the order
    Python puts on such tuples. *)
Definition sort_key (x : Rec) : Z * Q := (confidence_order (confidence x), (cost x * -1)%Q).

Definition key_lt (a b : Z * Q) : bool :=
  (fst a <? fst b) || ((fst a =? fst b) && Qltb (snd a) (snd b)).

(** [StrategyManager._sort_by_confidence]: [sorted(..., reverse=True)]. *)
Definition _sort_by_confidence (recommendations : list Rec) : list Rec :=
  sorted (fun a b => key_lt (sort_key a) (sort_key b)) true recommendations.

(** [StrategyManager.get_recommendations]. *)
Definition get_recommendations (strategy : string) (markets : list Market)
    (max_recommendations : Z) (risk_level : string) : list Rec :=
  match markets with
  | [] => []
  | _ =>
      let generated :=
        if String.eqb strategy "arbitrage" then Some (arbitrage_analyze markets)
        else if String.eqb strategy "volatility" then Some (volatility_analyze markets)
        else if String.eqb strategy "sentiment" then Some (sentiment_analyze markets)
        else if String.eqb strategy "combined" then
          Some (arbitrage_analyze markets ++ volatility_analyze markets
                ++ sentiment_analyze markets)
        else None in
      match generated with
      | None => []
      | Some recommendations =>
          let filtered_recommendations := _filter_by_risk_level recommendations risk_level in
          let sorted_recommendations := _sort_by_confidence filtered_recommendations in
          slice_to sorted_recommendations max_recommendations
      end
  end.

End model.
End Strategies.

(** [float] on a string of decimal digits. *)
Fixpoint digits_value (s : string) (acc : Z) : option Z :=
  match s with
  | EmptyString => Some acc
  | String c s' =>
      let n := nat_of_ascii c in
      if ((48 <=? n) && (n <=? 57))%nat
      then digits_value s' (10 * acc + Z.of_nat (n - 48))
      else None
  end.

Definition float_of_digits (s : string) : option Q :=
  match s with
  | EmptyString => None
  | _ => option_map inject_Z (digits_value s 0)
  end.

Definition no_text (a b : Z) : string := "".
Definition no_scorer (ms : list Market) : list Rec := [].

(** Three adjacent strikes of one range series, each pair priced below 95. *)
Definition range_market (i : string) (yes no : Z) : Market :=
  {| id := i; title := i; yes_bid := yes; yes_ask := Some yes;
     no_ask := no; volume_24h := 0 |}.

Definition three_strikes : list Market :=
  [ range_market "KXBTC-25APR0212-B84000" 30 60;
    range_market "KXBTC-25APR0212-B84500" 30 60;
    range_market "KXBTC-25APR0212-B85000" 30 60 ].

Example arbitrage_three_strikes :
  map (fun r => (market_id r, action r, confidence r, cost r))
    (Strategies.get_recommendations float_of_digits no_text no_text no_text
       no_scorer no_scorer "arbitrage" three_strikes 5 "medium")
  = [ ("KXBTC-25APR0212-B84000", "YES", "Medium", 30 # 100);
      ("KXBTC-25APR0212-B84500", "YES", "Medium", 30 # 100);
      ("KXBTC-25APR0212-B84500", "NO", "Medium", 60 # 100);
      ("KXBTC-25APR0212-B85000", "NO", "Medium", 60 # 100) ]%Q.
Proof. vm_compute. reflexivity. Qed.

(** ** ai_recommendations.py *)
Module Recommender.
Import Py.

(** The JSON object of one cache file. *)
Record CacheData := {
  timestamp : Q;
  cached_strategy : string;
  cached_risk_level : string;
  recommendations : list Rec
}.

(** The cache directory: file name to file content. *)
Abbreviation Files := (gmap string CacheData).

Definition valid_strategies : list string := ["momentum"; "mean-reversion"; "hybrid"].
Definition valid_risk_levels : list string := ["low"; "medium"; "high"].

(** [x in xs] on a list of strings. *)
Definition member (x : string) (xs : list string) : bool := existsb (String.eqb x) xs.

(** [str(names)] for a list of plain words, as an f-string prints it. *)
Definition repr_list (names : list string) : string :=
  ("[" ++ String.concat ", " (map (fun name => "'" ++ name ++ "'") names) ++ "]")%string.

(** [f"{strategy}_{risk_level}.json"]. *)
Definition cache_file (strategy risk_level : string) : string :=
  (strategy ++ "_" ++ risk_level ++ ".json")%string.

Section model.
Variable momentum_rationale : Market → string → string → string.
Variable mean_reversion_rationale : Market → string → string → string.
Variable openai_enabled : bool.
Variable openai_model : list Market → string → Z → string → Exc (list Rec).
(** [config.get("ai", "cache_recommendations")] and the TTL in seconds. *)
Variable cache_enabled : bool.
Variable cache_ttl : Q.

Definition recommendation_model : list Market → string → Z → string → list Rec :=
  Hybrid.generate_recommendations momentum_rationale mean_reversion_rationale
    openai_enabled openai_model.

Definition _get_cached_recommendations (files : Files) (now : Q)
    (strategy risk_level : string) : option (list Rec) :=
  match files !! cache_file strategy risk_level with
  | None => None
  | Some cache_data =>
      if Qltb cache_ttl (now - timestamp cache_data) then None
      else Some (recommendations cache_data)
  end.

Definition _cache_recommendations (files : Files) (now : Q)
    (strategy risk_level : string) (recs : list Rec) : Files :=
  <[cache_file strategy risk_level :=
      {| timestamp := now; cached_strategy := strategy;
         cached_risk_level := risk_level; recommendations := recs |}]> files.

(** [AIRecommendationSystem.get_recommendations]. [now] is the clock reading
    of the call and [market_data] what [_get_market_data()] does when it is
    called: return the enriched markets or raise. The result pairs the
    outcome with the cache directory after the call. *)
Definition get_recommendations (files : Files) (now : Q)
    (market_data : Exc (list Market)) (strategy : string) (max_recommendations : Z)
    (risk_level : string) (force_refresh : bool) : Exc (list Rec) * Files :=
  if negb (member (lower strategy) valid_strategies) then
    (Raise ("Invalid strategy: " ++ strategy ++ ". Must be one of "
            ++ repr_list valid_strategies)%string, files)
  else if negb (member (lower risk_level) valid_risk_levels) then
    (Raise ("Invalid risk level: " ++ risk_level ++ ". Must be one of "
            ++ repr_list valid_risk_levels)%string, files)
  else
    let cached_recommendations :=
      if cache_enabled && negb force_refresh
      then _get_cached_recommendations files now strategy risk_level
      else None in
    match cached_recommendations with
    | Some (r :: rs) => (Ok (slice_to (r :: rs) max_recommendations), files)
    | _ =>
        match market_data with
        | Raise e => (Raise e, files)
        | Ok markets_data =>
            let recs := recommendation_model markets_data (lower strategy)
                          max_recommendations (lower risk_level) in
            (Ok recs,
             if cache_enabled
             then _cache_recommendations files now strategy risk_level recs
             else files)
        end
    end.

End model.
End Recommender.

(** ** enhanced_ai_recommendations.py *)
Module Enhanced.
Import Py.

(** The dictionary returned to the caller and written to the cache file. *)
Record Result := {
  recommendations : list Rec;
  timestamp : Q;
  source : string;
  result_strategy : string;
  result_risk_level : string;
  cached : bool;
  message : option string
}.

(** The JSON object of a cache file, with the keys the request reads. The
    directory and the file names are shared with [AIRecommendationSystem],
    whose files hold no ["source"], so each key may be absent;
    [file_other_keys] tells whether the object holds keys the request does
    not read (["strategy"], ["risk_level"], ["cached"]). *)
Record CacheFile := {
  file_recommendations : option (list Rec);
  file_timestamp : option Q;
  file_source : option string;
  file_other_keys : bool
}.

Abbreviation Files := (gmap string CacheFile).

(** What [json.dump] writes for a result of this system, and what it wrote
    for a cache entry of [AIRecommendationSystem]. *)
Definition file_of (result : Result) : CacheFile :=
  {| file_recommendations := Some (recommendations result);
     file_timestamp := Some (timestamp result);
     file_source := Some (source result);
     file_other_keys := true |}.

Definition sibling_file (entry : Recommender.CacheData) : CacheFile :=
  {| file_recommendations := Some (Recommender.recommendations entry);
     file_timestamp := Some (Recommender.timestamp entry);
     file_source := None;
     file_other_keys := true |}.

(** [not cached_data] on a dictionary: it has no key. *)
Definition is_empty_object (c : CacheFile) : bool :=
  match file_recommendations c, file_timestamp c, file_source c with
  | None, None, None => negb (file_other_keys c)
  | _, _, _ => false
  end.

Definition valid_strategies : list string :=
  ["momentum"; "mean-reversion"; "hybrid"; "arbitrage"; "volatility"; "sentiment"; "combined"].
Definition valid_risk_levels : list string := ["low"; "medium"; "high"].
Definition manager_strategies : list string :=
  ["arbitrage"; "volatility"; "sentiment"; "combined"].

(** The message of the [KeyError] raised by [cached_data[key]]. *)
Definition key_error (key : string) : string := ("KeyError: '" ++ key ++ "'")%string.


Section model.
Variable openai_enabled use_enhanced_model cache_enabled : bool.
Variable cache_ttl : Q.
(** The collaborators, each of which returns a list or raises. *)
Variable enhanced_openai_model : list Market → string → Z → string → Exc (list Rec).
Variable hybrid_model : list Market → string → Z → string → Exc (list Rec).
Variable rule_based_model : list Market → string → Z → string → Exc (list Rec).
Variable strategy_manager : string → list Market → Z → string → Exc (list Rec).

(** [_get_cached_recommendations]: the age is taken from
    [cache_data.get("timestamp", 0)]. *)
Definition _get_cached_recommendations (files : Files) (now : Q)
    (strategy risk_level : string) : option CacheFile :=
  match files !! Recommender.cache_file strategy risk_level with
  | None => None
  | Some cache_data =>
      if Qltb cache_ttl (now - default 0%Q (file_timestamp cache_data)) then None
      else Some cache_data
  end.

(** The first stage of the traditional strategies: the enhanced remote model
    when it is switched on; an exception is logged and leaves the list
    empty. *)
Definition enhanced_attempt (markets_data : list Market) (strategy : string)
    (max_recommendations : Z) (risk_level : string) : list Rec * string :=
  if openai_enabled && use_enhanced_model then
    match enhanced_openai_model markets_data strategy max_recommendations risk_level with
    | Ok recs => (recs, "enhanced_openai")
    | Raise _ => ([], "rule_based")
    end
  else ([], "rule_based").

(** The model chain of the traditional strategies: the enhanced model, then
    the hybrid model when that gave nothing, then, from the hybrid model's
    exception handler, the rule-based model, whose exception nothing
    catches. *)
Definition traditional_chain (markets_data : list Market) (strategy : string)
    (max_recommendations : Z) (risk_level : string) : Exc (list Rec * string) :=
  match enhanced_attempt markets_data strategy max_recommendations risk_level with
  | (r :: rs, source) => Ok (r :: rs, source)
  | ([], _) =>
      match hybrid_model markets_data strategy max_recommendations risk_level with
      | Ok recs => Ok (recs, "hybrid")
      | Raise _ =>
          match rule_based_model markets_data strategy max_recommendations risk_level with
          | Ok recs => Ok (recs, "rule_based")
          | Raise e => Raise e
          end
      end
  end.

(** The strategy-manager branch: an exception is logged and leaves the list
    empty. *)
Definition manager_branch (markets_data : list Market) (strategy : string)
    (max_recommendations : Z) (risk_level : string) : list Rec * string :=
  match strategy_manager strategy markets_data max_recommendations risk_level with
  | Ok recs => (recs, strategy)
  | Raise _ => ([], "rule_based")
  end.

(** The cache lookup at the head of the request, and the entry it goes on
    with: [if cached_data:] passes over a missing entry and over an empty
    object. *)
Definition cache_read (files : Files) (now : Q) (strategy risk_level : string)
    (force_refresh : bool) : option CacheFile :=
  if cache_enabled && negb force_refresh
  then _get_cached_recommendations files now strategy risk_level
  else None.

Definition cache_hit (files : Files) (now : Q) (strategy risk_level : string)
    (force_refresh : bool) : option CacheFile :=
  match cache_read files now strategy risk_level force_refresh with
  | Some cached_data => if is_empty_object cached_data then None else Some cached_data
  | None => None
  end.

(** The dictionary built from a cache entry. Its items are evaluated in
    order, outside the [try] block, and [cached_data[key]] raises [KeyError]
    on the first key that is absent. *)
Definition serve (cached_data : CacheFile) (strategy : string) (max_recommendations : Z)
    (risk_level : string) : Exc Result :=
  match file_recommendations cached_data with
  | None => Raise (key_error "recommendations")
  | Some recs =>
      match file_timestamp cached_data with
      | None => Raise (key_error "timestamp")
      | Some written =>
          match file_source cached_data with
          | None => Raise (key_error "source")
          | Some src =>
              Ok {| recommendations := slice_to recs max_recommendations;
                    timestamp := written; source := src;
                    result_strategy := strategy; result_risk_level := risk_level;
                    cached := true; message := None |}
          end
      end
  end.

(** The [try] block: market data, generation, and the cache write. *)
Definition generate (files : Files) (now : Q) (market_data : Exc (list Market))
    (strategy : string) (max_recommendations : Z) (risk_level : string)
    : Exc Result * Files :=
  match market_data with
  | Raise e => (Raise e, files)
  | Ok [] =>
      (Ok {| recommendations := []; timestamp := now; source := "none";
             result_strategy := strategy; result_risk_level := risk_level;
             cached := false;
             message := Some "No target hourly markets found" |}, files)
  | Ok markets_data =>
      let generated :=
        if Recommender.member (lower strategy) manager_strategies then
          Ok (manager_branch markets_data (lower strategy) max_recommendations
                (lower risk_level))
        else traditional_chain markets_data (lower strategy) max_recommendations
               (lower risk_level) in
      match generated with
      | Raise e => (Raise e, files)
      | Ok (recs, src) =>
          let result :=
            {| recommendations := recs; timestamp := now; source := src;
               result_strategy := strategy; result_risk_level := risk_level;
               cached := false; message := None |} in
          (Ok result,
           if cache_enabled
           then <[Recommender.cache_file strategy risk_level := file_of result]> files
           else files)
      end
  end.

(** [EnhancedAIRecommendationSystem.get_recommendations]. [market_data] is
    what [_get_filtered_market_data()] does when it is called. *)
Definition get_recommendations (files : Files) (now : Q)
    (market_data : Exc (list Market)) (strategy : string) (max_recommendations : Z)
    (risk_level : string) (force_refresh : bool) : Exc Result * Files :=
  if negb (Recommender.member (lower strategy) valid_strategies) then
    (Raise ("Invalid strategy: " ++ strategy ++ ". Must be one of "
            ++ Recommender.repr_list valid_strategies)%string, files)
  else if negb (Recommender.member (lower risk_level) valid_risk_levels) then
    (Raise ("Invalid risk level: " ++ risk_level ++ ". Must be one of "
            ++ Recommender.repr_list valid_risk_levels)%string, files)
  else
    match cache_hit files now strategy risk_level force_refresh with
    | Some cached_data =>
        (serve cached_data strategy max_recommendations risk_level, files)
    | None => generate files now market_data strategy max_recommendations risk_level
    end.

End model.
End Enhanced.

(** ** performance_tracking.py

    The tracker keeps its data in memory and rewrites the JSON file from it
    after every change; a failed write is logged and changes nothing in
    memory. The embedding is of the data in memory. *)
Module Tracker.
Import Py.

(** The recommendation dictionary handed to [record_recommendation]: every
    key is read with [.get], so each may be absent. [other_keys] tells
    whether the dictionary holds keys the tracker never reads. *)
Record Recommendation := {
  rec_id : option string;
  rec_market_id : option string;
  rec_strategy : option string;
  rec_action : option string;
  rec_probability : option Q;
  rec_target_exit : option Q;
  rec_stop_loss : option Q;
  rec_confidence : option string;
  other_keys : bool
}.

(** A performance record of the ledger. *)
Record PerformanceRecord := {
  id : string;
  market_id : string;
  strategy : string;
  action : string;
  entry_price : Q;
  target_exit : Q;
  stop_loss : Q;
  confidence : string;
  timestamp : Z;
  status : string;
  exit_price : option Q;
  exit_timestamp : option Z;
  result : option string;
  profit_loss : option Q;
  notes : string
}.

(** The per-strategy aggregate stored under ["performance"]. *)
Record Aggregate := {
  agg_strategy : string;
  win_count : Z;
  loss_count : Z;
  open_count : Z;
  win_rate : Q;
  avg_profit : Q;
  avg_loss : Q;
  total_profit_loss : Q;
  accuracy : Q;
  last_updated : Z
}.

(** [self.performance_data]: the ledger is a dict from strategy to its list
    of records, kept in insertion order because the update scans it in that
    order; the aggregates are a dict from strategy to aggregate. *)
Record PerformanceData := {
  recommendations : list (string * list PerformanceRecord);
  performance : gmap string Aggregate
}.

(** A tracker method: it reads and may change [self.performance_data]. *)
Definition Method (A : Type) : Type := PerformanceData → A * PerformanceData.

(** [not recommendation]: the dictionary has no key at all. *)
Definition is_empty (r : Recommendation) : bool :=
  match rec_id r, rec_market_id r, rec_strategy r, rec_action r, rec_probability r,
        rec_target_exit r, rec_stop_loss r, rec_confidence r with
  | None, None, None, None, None, None, None, None => negb (other_keys r)
  | _, _, _, _, _, _, _, _ => false
  end.

(** [d[key]] on the ledger. *)
Fixpoint ledger_lookup (key : string) (d : list (string * list PerformanceRecord))
    : option (list PerformanceRecord) :=
  match d with
  | [] => None
  | (k, recs) :: d' => if String.eqb k key then Some recs else ledger_lookup key d'
  end.

Definition set_status (s : string) (r : PerformanceRecord) : PerformanceRecord :=
  {| id := id r; market_id := market_id r; strategy := strategy r; action := action r;
     entry_price := entry_price r; target_exit := target_exit r;
     stop_loss := stop_loss r; confidence := confidence r; timestamp := timestamp r;
     status := s; exit_price := exit_price r; exit_timestamp := exit_timestamp r;
     result := result r; profit_loss := profit_loss r; notes := notes r |}.

Definition set_exit (x : Q) (at_time : Z) (res : string) (pl : Q) (r : PerformanceRecord) : PerformanceRecord :=
  {| id := id r; market_id := market_id r; strategy := strategy r; action := action r;
     entry_price := entry_price r; target_exit := target_exit r;
     stop_loss := stop_loss r; confidence := confidence r; timestamp := timestamp r;
     status := status r; exit_price := Some x; exit_timestamp := Some at_time;
     result := Some res; profit_loss := Some pl; notes := notes r |}.

Definition set_notes (n : string) (r : PerformanceRecord) : PerformanceRecord :=
  {| id := id r; market_id := market_id r; strategy := strategy r; action := action r;
     entry_price := entry_price r; target_exit := target_exit r;
     stop_loss := stop_loss r; confidence := confidence r; timestamp := timestamp r;
     status := status r; exit_price := exit_price r; exit_timestamp := exit_timestamp r;
     result := result r; profit_loss := profit_loss r; notes := n |}.

(** The result and profit/loss computed from an exit price. *)
Definition outcome (act : string) (entry_price exit_price : Q) : string * Q :=
  if String.eqb act "YES" then
    (if Qltb entry_price exit_price then "win" else "loss", (exit_price - entry_price)%Q)
  else
    (if Qltb exit_price entry_price then "win" else "loss", (entry_price - exit_price)%Q).

(** What the body of the update does to the record it found. *)
Definition apply_update (now : Z) (new_status : string) (exit : option Q)
    (note : option string) (rec : PerformanceRecord) : PerformanceRecord :=
  let r1 := set_status new_status rec in
  let r2 := match exit with
            | None => r1
            | Some x =>
                let '(res, pl) := outcome (action rec) (entry_price rec) x in
                set_exit x now res pl r1
            end in
  match note with
  | Some (String c n) => set_notes (String c n) r2
  | _ => r2
  end.

(** The inner loop: change the first record with the given id. *)
Fixpoint update_first (recommendation_id : string) (f : PerformanceRecord → PerformanceRecord)
    (recs : list PerformanceRecord) : option (list PerformanceRecord) :=
  match recs with
  | [] => None
  | rec :: rest =>
      if String.eqb (id rec) recommendation_id then Some (f rec :: rest)
      else option_map (cons rec) (update_first recommendation_id f rest)
  end.

(** The outer loop over the strategies: the strategy under which the id was
    found and the ledger with that record changed. *)
Fixpoint update_ledger (recommendation_id : string) (f : PerformanceRecord → PerformanceRecord)
    (d : list (string * list PerformanceRecord)) : option (string * list (string * list PerformanceRecord)) :=
  match d with
  | [] => None
  | (k, recs) :: d' =>
      match update_first recommendation_id f recs with
      | Some recs' => Some (k, (k, recs') :: d')
      | None =>
          match update_ledger recommendation_id f d' with
          | Some (found, d'') => Some (found, (k, recs) :: d'')
          | None => None
          end
      end
  end.

(** [sum(xs)] on floats, as the exact sum. How Python rounds the additions
    depends on the order of the list (and on the version of the
    interpreter); nothing below states the value of a sum of more than one
    number or compares two sums. *)
Definition sum (xs : list Q) : Q := fold_left Qplus xs 0%Q.

(** [sum(1 for rec in recs if p(rec))]. *)
Definition count (p : PerformanceRecord → bool) (recs : list PerformanceRecord) : Z :=
  len (List.filter p recs).

Definition has_result (res : string) (r : PerformanceRecord) : bool :=
  match result r with Some s => String.eqb s res | None => false end.

(** [[rec["profit_loss"] for rec in recs if rec["result"] == res and
    rec["profit_loss"] is not None]]. *)
Definition profit_losses (res : string) (recs : list PerformanceRecord) : list Q :=
  flat_map (fun r => if has_result res r
                     then match profit_loss r with Some pl => [pl] | None => [] end
                     else []) recs.

(** [sum(xs) / len(xs) if xs else 0]. *)
Definition average (xs : list Q) : Q :=
  match xs with
  | [] => 0%Q
  | _ => (sum xs / inject_Z (len xs))%Q
  end.

(** The aggregate that [_update_strategy_performance] computes from all the
    records of one strategy. *)
Definition metrics (strategy_name : string) (now : Z) (recs : list PerformanceRecord) : Aggregate :=
  let wins := count (has_result "win") recs in
  let losses := count (has_result "loss") recs in
  let opens := count (fun r => String.eqb (status r) "open") recs in
  let profits := profit_losses "win" recs in
  let loss_amounts := profit_losses "loss" recs in
  let closed_recs := List.filter (fun r => String.eqb (status r) "closed") recs in
  {| agg_strategy := strategy_name;
     win_count := wins; loss_count := losses; open_count := opens;
     win_rate := if 0 <? wins + losses
                 then (inject_Z wins / inject_Z (wins + losses) * 100)%Q else 0%Q;
     avg_profit := average profits;
     avg_loss := average loss_amounts;
     total_profit_loss := (sum profits + sum loss_amounts)%Q;
     accuracy := match closed_recs with
                 | [] => 0%Q
                 | _ => (inject_Z wins / inject_Z (len closed_recs) * 100)%Q
                 end;
     last_updated := now |}.

Definition _update_strategy_performance (now : Z) (strategy_name : string) : Method unit :=
  fun data =>
    match ledger_lookup strategy_name (recommendations data) with
    | None => (tt, data)
    | Some recs =>
        (tt, {| recommendations := recommendations data;
                performance := <[strategy_name := metrics strategy_name now recs]>
                                 (performance data) |})
    end.

Section model.
(** The id generated for a recommendation that brings none: it is built
    from the clock and Python's string hash. *)
Variable generated_id : Z → Recommendation → string.

Definition record_recommendation (now : Z) (recommendation : Recommendation) : Method unit :=
  fun data =>
    if is_empty recommendation then (tt, data)
    else
      let strategy_name := default "unknown" (rec_strategy recommendation) in
      let record :=
        {| id := default (generated_id now recommendation) (rec_id recommendation);
           market_id := default "" (rec_market_id recommendation);
           strategy := strategy_name;
           action := default "" (rec_action recommendation);
           entry_price := default 0%Q (rec_probability recommendation);
           target_exit := default 0%Q (rec_target_exit recommendation);
           stop_loss := default 0%Q (rec_stop_loss recommendation);
           confidence := default "Medium" (rec_confidence recommendation);
           timestamp := now; status := "open"; exit_price := None;
           exit_timestamp := None; result := None; profit_loss := None;
           notes := "" |} in
      (tt, {| recommendations :=
                Strategies.group_append strategy_name record (recommendations data);
              performance := performance data |}).

End model.

Definition update_recommendation_status (now : Z) (recommendation_id new_status : string)
    (exit : option Q) (note : option string) : Method bool :=
  fun data =>
    match update_ledger recommendation_id (apply_update now new_status exit note)
            (recommendations data) with
    | None => (false, data)
    | Some (found, ledger') =>
        let data' := {| recommendations := ledger'; performance := performance data |} in
        (true, snd (_update_strategy_performance now found data'))
    end.

Definition get_strategy_performance (now : Z) (strategy_name : string) : Method Aggregate :=
  fun data =>
    match performance data !! strategy_name with
    | None =>
        ({| agg_strategy := strategy_name; win_count := 0; loss_count := 0;
            open_count := 0; win_rate := 0%Q; avg_profit := 0%Q; avg_loss := 0%Q;
            total_profit_loss := 0%Q; accuracy := 0%Q; last_updated := now |}, data)
    | Some aggregate => (aggregate, data)
    end.

(** The first record with the given id, in the order the update scans. *)
Definition find_record (recommendation_id : string) (data : PerformanceData)
    : option PerformanceRecord :=
  List.find (fun r => String.eqb (id r) recommendation_id)
    (flat_map snd (recommendations data)).

(** [{"recommendations": {}, "performance": {}}]. *)
Definition empty_data : PerformanceData := {| recommendations := []; performance := ∅ |}.

End Tracker.

(** * Properties *)

(** ** Facts about the Python primitives *)
Section py_facts.
Import Py.

Lemma Qltb_lt (a b : Q) : Qltb a b = true ↔ (a < b)%Q.
Proof.
  unfold Qltb. rewrite negb_true_iff. split.
  - intros H. apply Qnot_le_lt. intros Hle.
    apply Qle_bool_iff in Hle. congruence.
  - intros H. destruct (Qle_bool b a) eqn:E; [|done].
    apply Qle_bool_iff in E. exfalso. exact (Qlt_not_le _ _ H E).
Qed.

Lemma insert_by_perm {A} (before : A → A → bool) (x : A) (l : list A) :
  insert_by before x l ≡ₚ x :: l.
Proof.
  induction l as [|y l IH]; simpl; [done|].
  destruct (before y x); [|done].
  rewrite IH. apply Permutation_swap.
Qed.

Lemma sorted_perm {A} (lt : A → A → bool) (reverse : bool) (l : list A) :
  sorted lt reverse l ≡ₚ l.
Proof.
  unfold sorted. induction l as [|x l IH]; simpl; [done|].
  by rewrite insert_by_perm, IH.
Qed.

Lemma slice_to_length {A} (l : list A) (n : Z) : 0 ≤ n → len (slice_to l n) ≤ n.
Proof.
  intros Hn. unfold slice_to, len.
  destruct (Z.leb_spec 0 n); [|lia].
  rewrite length_take. lia.
Qed.

Lemma slice_to_Forall {A} (P : A → Prop) (l : list A) (n : Z) :
  Forall P l → Forall P (slice_to l n).
Proof. intros H. unfold slice_to. destruct (0 <=? n); by apply Forall_take. Qed.


End py_facts.

(** ** Rule-based scorers *)
Section rule_based_facts.
Import Py RuleBased.
Variable momentum_rationale : Market → string → string → string.
Variable mean_reversion_rationale : Market → string → string → string.





(** Every entry the loop adds is the candidate of a market it was given. *)
Lemma scoring_loop_emits (candidate : Market → option Rec) (max_recommendations : Z)
    (markets : list Market) :
  ∀ (recs : list Rec) (r : Rec),
    r ∈ scoring_loop candidate max_recommendations markets recs →
    r ∈ recs ∨ ∃ m, m ∈ markets ∧ candidate m = Some r.
Proof.
  induction markets as [|m ms IH]; intros recs r Hr; simpl in Hr; [by left|].
  destruct (candidate m) as [c|] eqn:Hc.
  - assert (Hstep : r ∈ recs ++ [c] → r ∈ recs ∨ ∃ m', m' ∈ m :: ms ∧ candidate m' = Some r).
    { intros H. apply elem_of_app in H as [H|H]; [by left|right].
      apply list_elem_of_singleton in H as ->. exists m. split; [by left|done]. }
    destruct (max_recommendations <=? len (recs ++ [c])); [by apply Hstep|].
    destruct (IH _ _ Hr) as [H|(m' & Hm' & Hcand)]; [by apply Hstep|].
    right. exists m'. split; [by right|done].
  - destruct (IH _ _ Hr) as [H|(m' & Hm' & Hcand)]; [by left|].
    right. exists m'. split; [by right|done].
Qed.

Lemma slice_to_elem_of {A} (l : list A) (n : Z) (x : A) : x ∈ slice_to l n → x ∈ l.
Proof.
  unfold slice_to. destruct (0 <=? n); intros H.
  - rewrite <- (take_drop (Z.to_nat n) l). apply elem_of_app. by left.
  - rewrite <- (take_drop (Z.to_nat (Z.of_nat (length l) + n)) l).
    apply elem_of_app. by left.
Qed.

(** In every market list, whatever the momentum scorer returns is the
    momentum candidate of one of the markets, and likewise for the
    mean-reversion scorer. *)
Lemma momentum_entries_are_candidates (markets : list Market) (max_recommendations : Z)
    (risk_level : string) (r : Rec) :
  r ∈ _generate_momentum_recommendations momentum_rationale markets
        max_recommendations risk_level →
  ∃ m, m ∈ markets ∧ momentum_candidate momentum_rationale risk_level m = Some r.
Proof.
  unfold _generate_momentum_recommendations. intros Hr.
  apply scoring_loop_emits in Hr as [Hr|(m & Hm & Hc)]; [by apply elem_of_nil in Hr|].
  exists m. split; [|done].
  apply slice_to_elem_of in Hm. by rewrite sorted_perm in Hm.
Qed.

Lemma mean_reversion_entries_are_candidates (markets : list Market)
    (max_recommendations : Z) (risk_level : string) (r : Rec) :
  r ∈ _generate_mean_reversion_recommendations mean_reversion_rationale markets
        max_recommendations risk_level →
  ∃ m, m ∈ markets
       ∧ mean_reversion_candidate mean_reversion_rationale risk_level m = Some r.
Proof.
  unfold _generate_mean_reversion_recommendations. intros Hr.
  apply scoring_loop_emits in Hr as [Hr|(m & Hm & Hc)]; [by apply elem_of_nil in Hr|].
  exists m. split; [|done].
  apply slice_to_elem_of in Hm. by rewrite sorted_perm in Hm.
Qed.





End rule_based_facts.


(** ** The hybrid blend *)
Section hybrid_facts.
Import Py Hybrid.

(** The deduplication loop keeps the market ids of [unique] distinct and
    recorded in [seen]; it stops either with the list full or with every
    market of [combined] seen. *)
Lemma dedup_loop_spec (max_recommendations : Z) (combined : list Rec) :
  ∀ (unique : list Rec) (seen : gset string) (u : list Rec) (s : gset string),
    dedup_loop max_recommendations combined unique seen = (u, s) →
    NoDup (market_id <$> unique) →
    (∀ i, i ∈ seen ↔ i ∈ market_id <$> unique) →
    NoDup (market_id <$> u)
    ∧ (∀ i, i ∈ s ↔ i ∈ market_id <$> u)
    ∧ seen ⊆ s
    ∧ (max_recommendations ≤ len u ∨ ∀ r, r ∈ combined → market_id r ∈ s)
    ∧ (len unique < max_recommendations → len u ≤ max_recommendations).
Proof.
  induction combined as [|rec rest IH]; intros unique seen u s Hrun Hnd Hseen.
  - simpl in Hrun. injection Hrun as <- <-.
    repeat split; try done; try apply Hseen.
    + right. intros r Hr. by apply elem_of_nil in Hr.
    + lia.
  - simpl in Hrun. destruct (decide (market_id rec ∈ seen)) as [Hin|Hnotin].
    + destruct (IH _ _ _ _ Hrun Hnd Hseen) as (H1 & H2 & H3 & H4 & H5).
      repeat split; try done; try apply H2.
      destruct H4 as [H4|H4]; [by left|right].
      intros r Hr. apply elem_of_cons in Hr as [->|Hr]; [by apply H3|by apply H4].
    + assert (Hnd' : NoDup (market_id <$> unique ++ [rec])).
      { rewrite fmap_app. apply NoDup_app. repeat split; [done| |].
        - intros i Hi Hi'. simpl in Hi'. apply list_elem_of_singleton in Hi' as ->.
          apply Hnotin. by apply Hseen.
        - simpl. apply NoDup_singleton. }
      assert (Hseen' : ∀ i, i ∈ seen ∪ {[market_id rec]}
                            ↔ i ∈ market_id <$> unique ++ [rec]).
      { intros i. rewrite fmap_app, elem_of_app, elem_of_union, Hseen. simpl.
        rewrite list_elem_of_singleton, elem_of_singleton. done. }
      assert (Hlen : len (unique ++ [rec]) = len unique + 1).
      { unfold len. rewrite length_app. simpl. lia. }
      destruct (Z.leb_spec max_recommendations (len (unique ++ [rec]))) as [Hfull|Hroom].
      * injection Hrun as <- <-.
        repeat split; try done; try apply Hseen'.
        -- apply union_subseteq_l.
        -- by left.
        -- lia.
      * destruct (IH _ _ _ _ Hrun Hnd' Hseen') as (H1 & H2 & H3 & H4 & H5).
        repeat split; try done; try apply H2.
        -- etrans; [apply union_subseteq_l|done].
        -- destruct H4 as [H4|H4]; [by left|right].
           intros r Hr. apply elem_of_cons in Hr as [->|Hr]; [|by apply H4].
           by apply H3, elem_of_union_r, elem_of_singleton_2.
        -- intros _. apply H5. lia.
Qed.

Lemma seen_nothing (i : string) : i ∈ (∅ : gset string) ↔ i ∈ market_id <$> [].
Proof.
  simpl. split; intros H; [by apply elem_of_empty in H|by apply elem_of_nil in H].
Qed.

Lemma filter_unseen_nil (s : gset string) (l : list Rec) :
  (∀ r, r ∈ l → market_id r ∈ s) →
  filter (fun rec => market_id rec ∉ s) l = [].
Proof.
  induction l as [|r l IH]; intros H; [done|].
  rewrite filter_cons_False.
  - apply IH. intros r' Hr'. apply H. by right.
  - intros Hn. apply Hn, H. by left.
Qed.

(** The blend is what the deduplication loop returns: the top-up that follows
    never finds an entry to add. *)
Lemma blend_is_dedup (momentum mean_reversion : list Rec) (max_recommendations : Z) :
  blend momentum mean_reversion max_recommendations
  = fst (dedup_loop max_recommendations
           (map (set_strategy "momentum") momentum
            ++ map (set_strategy "mean-reversion") mean_reversion) [] ∅).
Proof.
  unfold blend.
  destruct (dedup_loop _ _ [] ∅) as [u s] eqn:Hrun. simpl.
  destruct (Z.ltb_spec (len u) max_recommendations) as [Hshort|]; [|done].
  destruct (dedup_loop_spec _ _ _ _ _ _ Hrun) as (_ & _ & _ & Hall & _).
  { simpl. apply NoDup_nil_2. }
  { apply seen_nothing. }
  destruct Hall as [Hfull|Hall]; [lia|].
  rewrite filter_unseen_nil by done. done.
Qed.

Lemma blend_NoDup (momentum mean_reversion : list Rec) (max_recommendations : Z) :
  NoDup (market_id <$> blend momentum mean_reversion max_recommendations).
Proof.
  rewrite blend_is_dedup.
  destruct (dedup_loop _ _ [] ∅) as [u s] eqn:Hrun. simpl.
  destruct (dedup_loop_spec _ _ _ _ _ _ Hrun) as (Hnd & _).
  { simpl. apply NoDup_nil_2. }
  { apply seen_nothing. }
  done.
Qed.

Lemma blend_length (momentum mean_reversion : list Rec) (max_recommendations : Z) :
  1 ≤ max_recommendations →
  len (blend momentum mean_reversion max_recommendations) ≤ max_recommendations.
Proof.
  intros Hmax. rewrite blend_is_dedup.
  destruct (dedup_loop _ _ [] ∅) as [u s] eqn:Hrun. simpl.
  destruct (dedup_loop_spec _ _ _ _ _ _ Hrun) as (_ & _ & _ & _ & Hlen).
  { simpl. apply NoDup_nil_2. }
  { apply seen_nothing. }
  apply Hlen. unfold len. simpl. lia.
Qed.

End hybrid_facts.

(** ** The strategy manager *)
Section manager_facts.
Import Py Strategies.
Variable py_float : string → option Q.
Variable range_rationale index_rationale_low index_rationale_high : Z → Z → string.
Variable volatility_analyze sentiment_analyze : list Market → list Rec.

Let manager := get_recommendations py_float range_rationale index_rationale_low
                 index_rationale_high volatility_analyze sentiment_analyze.

Lemma filter_low_only_high (recs : list Rec) :
  Forall (fun r => confidence r = "High") (_filter_by_risk_level recs "low").
Proof.
  unfold _filter_by_risk_level. simpl.
  apply List.Forall_forall. intros r Hr.
  apply List.filter_In in Hr as [_ Hr]. by apply String.eqb_eq.
Qed.

Lemma filter_medium_no_low (recs : list Rec) :
  Forall (fun r => confidence r ≠ "Low") (_filter_by_risk_level recs "medium").
Proof.
  unfold _filter_by_risk_level. simpl.
  apply List.Forall_forall. intros r Hr.
  apply List.filter_In in Hr as [_ Hr].
  apply negb_true_iff in Hr. by apply String.eqb_neq.
Qed.

Lemma sort_by_confidence_Forall (P : Rec → Prop) (recs : list Rec) :
  Forall P recs → Forall P (_sort_by_confidence recs).
Proof. intros H. unfold _sort_by_confidence. by rewrite sorted_perm. Qed.

(** Whatever passes the risk filter of the manager is what it returns from. *)
Lemma manager_result_filtered (P : Rec → Prop) (strategy : string)
    (markets : list Market) (max_recommendations : Z) (risk_level : string) :
  (∀ recs, Forall P (_filter_by_risk_level recs risk_level)) →
  Forall P (manager strategy markets max_recommendations risk_level).
Proof.
  intros Hfilter. unfold manager, get_recommendations.
  destruct markets as [|m ms]; [constructor|].
  repeat (match goal with |- context [String.eqb ?a ?b] => destruct (String.eqb a b) end);
    try constructor;
    by apply slice_to_Forall, sort_by_confidence_Forall, Hfilter.
Qed.

Lemma manager_length (strategy : string) (markets : list Market)
    (max_recommendations : Z) (risk_level : string) :
  0 ≤ max_recommendations →
  len (manager strategy markets max_recommendations risk_level) ≤ max_recommendations.
Proof.
  intros Hmax. unfold manager, get_recommendations.
  destruct markets as [|m ms]; [done|].
  repeat (match goal with |- context [String.eqb ?a ?b] => destruct (String.eqb a b) end);
    try done; by apply slice_to_length.
Qed.

(** C3, as the code has it. On the strategy-manager path (arbitrage,
    volatility, sentiment, combined) every entry returned for risk level
    "low" has confidence "High" and no entry returned for risk level "medium"
    has confidence "Low", whatever the scorers produce. *)
Theorem manager_respects_risk_level (strategy : string) (markets : list Market)
    (max_recommendations : Z) :
  Forall (fun r => confidence r = "High")
    (get_recommendations py_float range_rationale index_rationale_low
       index_rationale_high volatility_analyze sentiment_analyze
       strategy markets max_recommendations "low")
  ∧ Forall (fun r => confidence r ≠ "Low")
      (get_recommendations py_float range_rationale index_rationale_low
         index_rationale_high volatility_analyze sentiment_analyze
         strategy markets max_recommendations "medium").
Proof.
  split.
  - apply (manager_result_filtered _ strategy markets max_recommendations "low").
    apply filter_low_only_high.
  - apply (manager_result_filtered _ strategy markets max_recommendations "medium").
    apply filter_medium_no_low.
Qed.

End manager_facts.

(** C3 fails on the rule-based path: the mean-reversion scorer, reached
    through the hybrid model with the remote model off, returns a Medium entry
    at risk level "low" and a Low entry at risk level "medium"; the risk level
    only sets the number of contracts there. *)
Lemma rule_based_ignores_risk_filter :
  map (fun r => (confidence r, contracts r))
    (Hybrid.generate_recommendations no_rationale no_rationale false no_openai
       [simple_market "KXINXU-25APR02H1200-T5600" 95 1000] "mean-reversion" 5 "low")
  = [("Medium", 1)]
  ∧ map (fun r => (confidence r, contracts r))
      (Hybrid.generate_recommendations no_rationale no_rationale false no_openai
         [simple_market "KXINXU-25APR02H1200-T5600" 85 1000] "mean-reversion" 5 "medium")
    = [("Low", 2)].
Proof. split; vm_compute; reflexivity. Qed.

(** C1, as the code has it. The hybrid blend never returns two entries for
    one market, and returns at most [max_recommendations] entries when that
    bound is at least 1; the strategy manager returns at most
    [max_recommendations] entries for every bound from 0 up. *)
Theorem blend_result_bounds
    (momentum_rationale mean_reversion_rationale : Market → string → string → string)
    (openai_enabled : bool)
    (openai_model : list Market → string → Z → string → Py.Exc (list Rec))
    (py_float : string → option Q)
    (range_rationale index_rationale_low index_rationale_high : Z → Z → string)
    (volatility_analyze sentiment_analyze : list Market → list Rec)
    (strategy : string) (markets : list Market) (max_recommendations : Z)
    (risk_level : string) :
  let hybrid :=
    Hybrid._generate_hybrid_strategy_recommendations momentum_rationale
      mean_reversion_rationale openai_enabled openai_model
      markets max_recommendations risk_level in
  let managed :=
    Strategies.get_recommendations py_float range_rationale index_rationale_low
      index_rationale_high volatility_analyze sentiment_analyze
      strategy markets max_recommendations risk_level in
  NoDup (market_id <$> hybrid)
  ∧ (1 ≤ max_recommendations → Py.len hybrid ≤ max_recommendations)
  ∧ (0 ≤ max_recommendations → Py.len managed ≤ max_recommendations).
Proof.
  intros hybrid managed. subst hybrid managed.
  unfold Hybrid._generate_hybrid_strategy_recommendations.
  destruct (Hybrid.split_counts _ _) as [momentum_count mean_reversion_count].
  destruct (Hybrid.openai_attempt _ _ _ _ _ _) as [momentum mean_reversion].
  split; [apply blend_NoDup|].
  split; [apply blend_length|apply manager_length].
Qed.

Lemma blend_result_bounds_witness :
  let hybrid :=
    Hybrid._generate_hybrid_strategy_recommendations no_rationale no_rationale
      false no_openai three_strikes 5 "medium" in
  let managed :=
    Strategies.get_recommendations float_of_digits no_text no_text no_text
      no_scorer no_scorer "arbitrage" three_strikes 5 "medium" in
  NoDup (market_id <$> hybrid) ∧ Py.len hybrid ≤ 5 ∧ Py.len managed ≤ 5.
Proof.
  intros hybrid managed.
  destruct (blend_result_bounds no_rationale no_rationale false no_openai
              float_of_digits no_text no_text no_text no_scorer no_scorer
              "arbitrage" three_strikes 5 "medium") as (Hnd & Hh & Hm).
  split; [exact Hnd|].
  split; [apply Hh; lia|apply Hm; lia].
Defined.

(** C1 fails as stated. With [max_recommendations = 0] the hybrid blend
    returns one entry: the momentum share is floored at 1 and the
    deduplication loop tests the bound only after it has appended. And the
    strategy manager, which has no deduplication step, returns both legs that
    the arbitrage scorer emits for the middle one of three adjacent strikes. *)
Lemma blend_result_bounds_counterexample :
  let hybrid :=
    Hybrid._generate_hybrid_strategy_recommendations no_rationale no_rationale
      false no_openai [simple_market "KXBTC-25APR0212-B84000" 90 1000] 0 "medium" in
  let managed :=
    Strategies.get_recommendations float_of_digits no_text no_text no_text
      no_scorer no_scorer "arbitrage" three_strikes 5 "medium" in
  (0 ≤ 0 ∧ ¬ Py.len hybrid ≤ 0)
  ∧ (0 ≤ 5 ∧ ¬ NoDup (market_id <$> managed)).
Proof.
  intros hybrid managed. split; split; try lia.
  - vm_compute. intros H. by apply H.
  - assert (Hids : market_id <$> managed
                   = [ "KXBTC-25APR0212-B84000"; "KXBTC-25APR0212-B84500";
                       "KXBTC-25APR0212-B84500"; "KXBTC-25APR0212-B85000" ])
      by (vm_compute; reflexivity).
    rewrite Hids. intros Hnd.
    apply NoDup_cons in Hnd as [_ Hnd]. apply NoDup_cons in Hnd as [Hnotin _].
    apply Hnotin. by left.
Qed.

(** A High-confidence entry with the given market and cost. *)
Definition priced (i : string) (c : Q) : Rec :=
  {| market := i; market_id := i; action := "YES"; probability := 50%Q;
     contracts := 1; cost := c; target_exit := 60%Q; stop_loss := 40%Q;
     confidence := "High"; rationale := ""; strategy := Some "arbitrage" |}.

(** C7 on the code. Of two entries of equal confidence the manager's sort
    puts the one with the smaller cost first: the key negates the cost and
    the sort is then reversed, so the cost ends up ascending. *)
Theorem sort_by_confidence_puts_smaller_cost_first :
  Strategies._sort_by_confidence
    [priced "KXBTC-25APR0212-B84000" (60 # 100); priced "KXBTC-25APR0212-B84500" (30 # 100)]
  = [priced "KXBTC-25APR0212-B84500" (30 # 100); priced "KXBTC-25APR0212-B84000" (60 # 100)].
Proof. vm_compute. reflexivity. Qed.

(** ** The recommendation cache *)
Section cache_facts.
Import Py Recommender.
Variable momentum_rationale : Market → string → string → string.
Variable mean_reversion_rationale : Market → string → string → string.
Variable openai_enabled : bool.
Variable openai_model : list Market → string → Z → string → Exc (list Rec).
Variable cache_ttl : Q.

Let request := get_recommendations momentum_rationale mean_reversion_rationale
                 openai_enabled openai_model true cache_ttl.

(** A non-empty list generated by a forced refresh is what the next request
    for the same key gets while the entry is fresh, and the cache directory
    is left as it was. *)
Lemma nonempty_result_is_served_from_cache (files files1 : Files) (now1 now2 : Q)
    (market_data1 market_data2 : Exc (list Market)) (strategy : string)
    (max_recommendations : Z) (risk_level : string) (r : Rec) (rs : list Rec) :
  request files now1 market_data1 strategy max_recommendations risk_level true
    = (Ok (r :: rs), files1) →
  Qltb cache_ttl (now2 - now1) = false →
  request files1 now2 market_data2 strategy max_recommendations risk_level false
    = (Ok (slice_to (r :: rs) max_recommendations), files1).
Proof.
  unfold request, get_recommendations. intros Hfirst Hfresh.
  destruct (negb (member (lower strategy) valid_strategies)); [done|].
  destruct (negb (member (lower risk_level) valid_risk_levels)); [done|].
  simpl in *.
  destruct market_data1 as [markets1|e]; [|done].
  injection Hfirst as Hrecs <-.
  unfold _get_cached_recommendations, _cache_recommendations.
  rewrite lookup_insert_eq. simpl. rewrite Hfresh, Hrecs. done.
Qed.

End cache_facts.

(** C6 on the code. A first request that generates the empty list writes it
    to the cache, and the entry is fresh at the second request; yet the
    second request does not serve it: [if cached_recommendations:] takes the
    empty list for a miss, the markets are fetched and scored again, and the
    caller gets a different list. *)
Theorem empty_result_is_not_served_from_cache :
  let request :=
    Recommender.get_recommendations no_rationale no_rationale false no_openai true 300%Q in
  let first :=
    request ∅ 1000%Q (Py.Ok [simple_market "KXINXU-25APR02H1200-T5600" 50 1000])
      "momentum" 5 "medium" false in
  let second :=
    request (snd first) 1060%Q (Py.Ok [simple_market "KXINXU-25APR02H1200-T5600" 90 1000])
      "momentum" 5 "medium" false in
  fst first = Py.Ok []
  ∧ Recommender._get_cached_recommendations 300%Q (snd first) 1060%Q "momentum" "medium"
    = Some []
  ∧ map (fun r => (market_id r, action r, confidence r)) 
      (match fst second with Py.Ok recs => recs | Py.Raise _ => [] end)
    = [("KXINXU-25APR02H1200-T5600", "YES", "High")]
  ∧ fst second ≠ fst first.
Proof.
  intros request first second.
  assert (H1 : fst first = Py.Ok []) by (vm_compute; reflexivity).
  assert (H2 : Recommender._get_cached_recommendations 300%Q (snd first) 1060%Q
                 "momentum" "medium" = Some []) by (vm_compute; reflexivity).
  assert (H3 : map (fun r => (market_id r, action r, confidence r)) 
                 (match fst second with Py.Ok recs => recs | Py.Raise _ => [] end)
               = [("KXINXU-25APR02H1200-T5600", "YES", "High")])
    by (vm_compute; reflexivity).
  split; [exact H1|]. split; [exact H2|]. split; [exact H3|].
  intros Heq. rewrite Heq, H1 in H3. discriminate H3.
Qed.

(** ** The enhanced request *)

(** A collaborator that returns nothing, and collaborators that raise. *)
Definition quiet_manager (s : string) (ms : list Market) (n : Z) (r : string)
    : Py.Exc (list Rec) := Py.Ok [].
Definition failing_manager (e : string) (s : string) (ms : list Market) (n : Z) (r : string)
    : Py.Exc (list Rec) := Py.Raise e.

Section enhanced_facts.
Import Py Enhanced.
Local Arguments Recommender.member : simpl never.
Variable openai_enabled use_enhanced_model cache_enabled : bool.
Variable cache_ttl : Q.
Variable enhanced_openai_model : list Market → string → Z → string → Exc (list Rec).
Variable hybrid_model : list Market → string → Z → string → Exc (list Rec).
Variable rule_based_model : list Market → string → Z → string → Exc (list Rec).
Variable strategy_manager : string → list Market → Z → string → Exc (list Rec).





End enhanced_facts.



(** The cache directory is shared: an entry written by the sibling system
    for the same strategy and risk level has no ["source"], and the request
    that reads it while it is fresh raises [KeyError] instead of an answer,
    whatever the markets are. *)
Example sibling_entry_raises_key_error :
  let written :=
    Recommender._cache_recommendations ∅ 1000%Q "momentum" "medium"
      [priced "KXINXU-25APR02H1200-T5600" (9 # 10)] in
  fst (Enhanced.get_recommendations false true true 300%Q
         no_openai no_openai no_openai quiet_manager
         (Enhanced.sibling_file <$> written) 1060%Q
         (Py.Ok [simple_market "KXINXU-25APR02H1200-T5600" 90 1000])
         "momentum" 5 "medium" false)
  = Py.Raise "KeyError: 'source'".
Proof. vm_compute. reflexivity. Qed.

Example failing_manager_is_contained :
  option_map (fun res => (Enhanced.recommendations res, Enhanced.source res))
    (match fst (Enhanced.get_recommendations false true true 300%Q
                  no_openai no_openai no_openai (failing_manager "ZeroDivisionError")
                  ∅ 1000%Q (Py.Ok three_strikes) "volatility" 5 "medium" false) with
     | Py.Ok res => Some res
     | Py.Raise _ => None
     end)
  = Some ([], "rule_based").
Proof. vm_compute. reflexivity. Qed.

(** ** The performance tracker *)
Section tracker_facts.
Import Py Tracker.

(** The ids of the ledger, in the order the update scans them. *)
Definition ledger_ids (data : PerformanceData) : list string :=
  id <$> flat_map snd (recommendations data).

Lemma find_app {A} (p : A → bool) (l1 l2 : list A) :
  List.find p (l1 ++ l2)
  = match List.find p l1 with Some x => Some x | None => List.find p l2 end.
Proof. induction l1 as [|x l1 IH]; simpl; [done|]. by destruct (p x). Qed.

Lemma find_none_ids (rid : string) (recs : list PerformanceRecord) :
  List.find (fun r => String.eqb (id r) rid) recs = None ↔ rid ∉ id <$> recs.
Proof.
  induction recs as [|r recs IH]; simpl.
  - split; [intros _; apply not_elem_of_nil|done].
  - rewrite not_elem_of_cons, <- IH.
    destruct (String.eqb_spec (id r) rid) as [->|Hne].
    + split; [done|]. by intros [? _].
    + split; [|by intros [_ ?]]. intros H. split; [congruence|done].
Qed.

Lemma update_first_none (rid : string) (f : PerformanceRecord → PerformanceRecord)
    (recs : list PerformanceRecord) :
  List.find (fun r => String.eqb (id r) rid) recs = None →
  update_first rid f recs = None.
Proof.
  induction recs as [|r recs IH]; simpl; [done|].
  destruct (String.eqb (id r) rid); [done|].
  intros H. by rewrite IH.
Qed.

Lemma update_first_some (rid : string) (f : PerformanceRecord → PerformanceRecord)
    (recs : list PerformanceRecord) (rec : PerformanceRecord) :
  (∀ r, id (f r) = id r) →
  List.find (fun r => String.eqb (id r) rid) recs = Some rec →
  ∃ recs', update_first rid f recs = Some recs'
           ∧ List.find (fun r => String.eqb (id r) rid) recs' = Some (f rec).
Proof.
  intros Hid. induction recs as [|r recs IH]; simpl; [done|].
  destruct (String.eqb (id r) rid) eqn:E.
  - intros [= <-]. eexists. split; [done|]. simpl. by rewrite Hid, E.
  - intros H. destruct (IH H) as (recs' & -> & Hfind).
    eexists. split; [done|]. simpl. by rewrite E.
Qed.

Lemma update_ledger_none (rid : string) (f : PerformanceRecord → PerformanceRecord)
    (d : list (string * list PerformanceRecord)) :
  List.find (fun r => String.eqb (id r) rid) (flat_map snd d) = None →
  update_ledger rid f d = None.
Proof.
  induction d as [|[k recs] d IH]; simpl; [done|].
  rewrite find_app.
  destruct (List.find _ recs) eqn:E; [done|].
  intros H. by rewrite (update_first_none _ _ _ E), IH.
Qed.

Lemma update_ledger_some (rid : string) (f : PerformanceRecord → PerformanceRecord)
    (d : list (string * list PerformanceRecord)) (rec : PerformanceRecord) :
  (∀ r, id (f r) = id r) →
  List.find (fun r => String.eqb (id r) rid) (flat_map snd d) = Some rec →
  ∃ found d', update_ledger rid f d = Some (found, d')
              ∧ List.find (fun r => String.eqb (id r) rid) (flat_map snd d') = Some (f rec)
              ∧ is_Some (ledger_lookup found d').
Proof.
  intros Hid. induction d as [|[k recs] d IH]; simpl; [done|].
  rewrite find_app.
  destruct (List.find _ recs) as [r|] eqn:E.
  - intros [= ->].
    destruct (update_first_some _ f _ _ Hid E) as (recs' & -> & Hfind).
    exists k, ((k, recs') :: d). split; [done|]. split.
    + simpl. by rewrite find_app, Hfind.
    + simpl. rewrite String.eqb_refl. by eexists.
  - intros H. rewrite (update_first_none _ _ _ E).
    destruct (IH H) as (found & d' & -> & Hfind & Hlook).
    exists found, ((k, recs) :: d'). split; [done|]. split.
    + simpl. by rewrite find_app, E.
    + simpl. destruct (String.eqb k found); [by eexists|done].
Qed.

Lemma apply_update_id (now : Z) (new_status : string) (exit : option Q)
    (note : option string) (rec : PerformanceRecord) :
  id (apply_update now new_status exit note rec) = id rec.
Proof.
  unfold apply_update.
  destruct exit as [x|], note as [[|c n]|]; simpl; try done;
    by destruct (outcome _ _ _).
Qed.

(** What an update leaves in the record it finds. *)
Lemma apply_update_fields (now : Z) (new_status : string) (exit : option Q)
    (note : option string) (rec : PerformanceRecord) :
  let rec' := apply_update now new_status exit note rec in
  status rec' = new_status
  ∧ match exit with
    | None =>
        exit_price rec' = exit_price rec ∧ result rec' = result rec
        ∧ profit_loss rec' = profit_loss rec
    | Some x =>
        exit_price rec' = Some x
        ∧ result rec' = Some (fst (outcome (action rec) (entry_price rec) x))
        ∧ profit_loss rec' = Some (snd (outcome (action rec) (entry_price rec) x))
    end.
Proof.
  unfold apply_update.
  destruct exit as [x|], note as [[|c n]|]; simpl; try done;
    by destruct (outcome _ _ _).
Qed.

(** C8. For an id that no record of the ledger carries, the update returns
    [False] and leaves the ledger and every aggregate as they were. *)
Theorem update_unknown_id_changes_nothing (now : Z) (recommendation_id new_status : string)
    (exit : option Q) (note : option string) (data : PerformanceData) :
  recommendation_id ∉ ledger_ids data →
  update_recommendation_status now recommendation_id new_status exit note data
  = (false, data).
Proof.
  intros Hfresh. unfold update_recommendation_status.
  rewrite update_ledger_none; [done|].
  by apply find_none_ids.
Qed.

(** C10. For a strategy with no entry in the performance map the tracker
    answers with the zeroed aggregate, stamped with the time of the call, and
    leaves its data as it was. *)
Theorem unknown_strategy_has_zero_aggregate (now : Z) (strategy_name : string)
    (data : PerformanceData) :
  performance data !! strategy_name = None →
  ∃ aggregate,
    get_strategy_performance now strategy_name data = (aggregate, data)
    ∧ agg_strategy aggregate = strategy_name
    ∧ win_count aggregate = 0 ∧ loss_count aggregate = 0 ∧ open_count aggregate = 0
    ∧ win_rate aggregate = 0%Q ∧ avg_profit aggregate = 0%Q ∧ avg_loss aggregate = 0%Q
    ∧ total_profit_loss aggregate = 0%Q ∧ accuracy aggregate = 0%Q
    ∧ last_updated aggregate = now.
Proof.
  intros Hnone. unfold get_strategy_performance. rewrite Hnone.
  eexists. split; [reflexivity|]. by repeat split.
Qed.

(** C5, as the code has it. No status is terminal: whatever the status of the
    record found, the update succeeds and overwrites the status with the one
    given; exit price, result and profit/loss stay as they were exactly when
    no exit price is given, and are set from the given exit price otherwise. *)
Theorem update_overwrites_any_status (now : Z) (recommendation_id new_status : string)
    (exit : option Q) (note : option string) (data : PerformanceData)
    (rec : PerformanceRecord) :
  find_record recommendation_id data = Some rec →
  ∃ data' rec',
    update_recommendation_status now recommendation_id new_status exit note data
    = (true, data')
    ∧ find_record recommendation_id data' = Some rec'
    ∧ status rec' = new_status
    ∧ match exit with
      | None =>
          exit_price rec' = exit_price rec ∧ result rec' = result rec
          ∧ profit_loss rec' = profit_loss rec
      | Some x =>
          exit_price rec' = Some x
          ∧ result rec' = Some (fst (outcome (action rec) (entry_price rec) x))
          ∧ profit_loss rec' = Some (snd (outcome (action rec) (entry_price rec) x))
      end.
Proof.
  unfold find_record, update_recommendation_status. intros Hfind.
  destruct (update_ledger_some _ (apply_update now new_status exit note) _ _
              (apply_update_id now new_status exit note) Hfind)
    as (found & d' & -> & Hfind' & [recs Hlook]).
  unfold _update_strategy_performance. simpl. rewrite Hlook. simpl.
  eexists _, _. split; [reflexivity|]. split; [exact Hfind'|].
  apply apply_update_fields.
Qed.

End tracker_facts.

(** ** Recording and then closing a recommendation *)
Section record_and_close.
Import Py Tracker.
Variable generated_id : Z → Recommendation → string.





Lemma lookup_appended (k : string) (rec : PerformanceRecord)
    (d : list (string * list PerformanceRecord)) :
  ledger_lookup k (Strategies.group_append k rec d)
  = Some (default [] (ledger_lookup k d) ++ [rec]).
Proof.
  induction d as [|[k' recs] d IH]; simpl.
  - by rewrite String.eqb_refl.
  - destruct (String.eqb k' k) eqn:E; simpl; by rewrite E.
Qed.







End record_and_close.

(** ** A ledger with two wins and one loss *)

(** A recommendation of the momentum strategy with the given id, action and
    entry price. *)
Definition tracked (i : string) (a : option string) (p : Q) : Tracker.Recommendation :=
  {| Tracker.rec_id := Some i;
     Tracker.rec_market_id := Some "KXINXU-25APR02H1200-T5600";
     Tracker.rec_strategy := Some "momentum";
     Tracker.rec_action := a;
     Tracker.rec_probability := Some p;
     Tracker.rec_target_exit := Some (p + 15)%Q;
     Tracker.rec_stop_loss := Some (p - 10)%Q;
     Tracker.rec_confidence := Some "High";
     Tracker.other_keys := true |}.

Definition fixed_id (now : Z) (r : Tracker.Recommendation) : string := "rec_0_0".

(** [record_recommendation] at time 100, then the update to "closed" with the
    exit price at time 200. *)
Definition record_and_close (r : Tracker.Recommendation) (i : string) (x : Q)
    (data : Tracker.PerformanceData) : Tracker.PerformanceData :=
  snd (Tracker.update_recommendation_status 200 i "closed" (Some x) None
         (snd (Tracker.record_recommendation fixed_id 100 r data))).

Definition two_wins_one_loss : Tracker.PerformanceData :=
  record_and_close (tracked "rec_c" (Some "YES") 50) "rec_c" 40
    (record_and_close (tracked "rec_b" (Some "NO") 50) "rec_b" 40
       (record_and_close (tracked "rec_a" (Some "YES") 50) "rec_a" 60
          Tracker.empty_data)).

Example two_wins_one_loss_ledger :
  map (fun r => (Tracker.id r, Tracker.action r, Tracker.status r, Tracker.exit_price r,
                 Tracker.result r, Tracker.profit_loss r))
    (flat_map snd (Tracker.recommendations two_wins_one_loss))
  = [ ("rec_a", "YES", "closed", Some 60, Some "win", Some 10);
      ("rec_b", "NO", "closed", Some 40, Some "win", Some 10);
      ("rec_c", "YES", "closed", Some 40, Some "loss", Some (-10)) ]%Q.
Proof. vm_compute. reflexivity. Qed.



(** The first record of the sample ledger, as the tracker holds it. *)
Definition closed_win : Tracker.PerformanceRecord :=
  {| Tracker.id := "rec_a"; Tracker.market_id := "KXINXU-25APR02H1200-T5600";
     Tracker.strategy := "momentum"; Tracker.action := "YES";
     Tracker.entry_price := 50%Q; Tracker.target_exit := (50 + 15)%Q;
     Tracker.stop_loss := (50 - 10)%Q; Tracker.confidence := "High";
     Tracker.timestamp := 100; Tracker.status := "closed";
     Tracker.exit_price := Some 60%Q; Tracker.exit_timestamp := Some 200;
     Tracker.result := Some "win"; Tracker.profit_loss := Some (60 - 50)%Q;
     Tracker.notes := "" |}.

(** C5 fails as stated. A closed record is reopened by a later update, and
    an exit price given with it replaces the exit price, the result and the
    profit/loss. *)
Lemma closed_record_is_reopened :
  let view r := (Tracker.status r, Tracker.exit_price r, Tracker.result r,
                 Tracker.profit_loss r) in
  let later :=
    snd (Tracker.update_recommendation_status 400 "rec_a" "open" (Some 40%Q) None
           two_wins_one_loss) in
  option_map view (Tracker.find_record "rec_a" two_wins_one_loss)
  = Some ("closed", Some 60, Some "win", Some 10)%Q
  ∧ option_map view (Tracker.find_record "rec_a" later)
    = Some ("open", Some 40, Some "loss", Some (-10))%Q.
Proof. split; vm_compute; reflexivity. Qed.

Lemma update_overwrites_any_status_witness :
  ∃ data' rec',
    Tracker.update_recommendation_status 400 "rec_a" "expired" None None two_wins_one_loss
    = (true, data')
    ∧ Tracker.find_record "rec_a" data' = Some rec'
    ∧ Tracker.status rec' = "expired"
    ∧ Tracker.exit_price rec' = Some 60%Q.
Proof.
  destruct (update_overwrites_any_status 400 "rec_a" "expired" None None
              two_wins_one_loss closed_win)
    as (data' & rec' & Hupd & Hfind & Hstatus & Hexit & _).
  - vm_compute. reflexivity.
  - exists data', rec'. split; [exact Hupd|]. split; [exact Hfind|].
    split; [exact Hstatus|]. rewrite Hexit. reflexivity.
Defined.

Lemma update_unknown_id_changes_nothing_witness :
  Tracker.update_recommendation_status 400 "rec_z" "closed" (Some 60%Q) None
    two_wins_one_loss
  = (false, two_wins_one_loss).
Proof.
  apply (update_unknown_id_changes_nothing 400 "rec_z" "closed" (Some 60%Q) None
           two_wins_one_loss).
  change (ledger_ids two_wins_one_loss) with ["rec_a"; "rec_b"; "rec_c"].
  intros H. repeat (apply elem_of_cons in H as [H|H]; [discriminate H|]).
  by apply elem_of_nil in H.
Defined.

Lemma unknown_strategy_has_zero_aggregate_witness :
  ∃ aggregate,
    Tracker.get_strategy_performance 300 "sentiment" two_wins_one_loss
    = (aggregate, two_wins_one_loss)
    ∧ Tracker.win_count aggregate = 0
    ∧ Tracker.win_rate aggregate = 0%Q.
Proof.
  destruct (unknown_strategy_has_zero_aggregate 300 "sentiment" two_wins_one_loss)
    as (aggregate & Hget & _ & Hwins & _ & _ & Hrate & _).
  - vm_compute. reflexivity.
  - exists aggregate. split; [exact Hget|]. split; [exact Hwins|exact Hrate].
Defined.

(** * Further properties of the modelled code

    Properties of the modules above beyond the specification's sentences, and
    of the code around them, embedded in the same way:

    - [market_filter.py], the target-market test   (module [MarketFilter])
    - [yolo_trading.py], selection and trade loop  (module [Yolo])
    - [performance_tracking.py], the queries       (module [TrackerQueries])
    - [trading_strategies.py], volatility          (module [Volatility])
    - [social_feed.py]                             (module [SocialFeed])
    - [trading_strategies.py], sentiment           (module [Sentiment])

    [statistics.stdev] is a square root and has no exact rational value: it
    is a Section variable, constrained where a proof needs it by two facts
    of the sample standard deviation. *)

From Stdlib Require Import Qabs.
From stdpp Require Import sorting.

Local Open Scope Z_scope.
Local Open Scope list_scope.

(** ** More facts about the Python primitives *)
Section more_py_facts.
Import Py.

(** Inserting into a sorted list keeps it sorted, for any transitive order
    that the insertion test decides in both directions. *)
Lemma insert_by_StronglySorted {A} (R : relation A) (before : A → A → bool)
    (x : A) (l : list A) :
  Transitive R →
  (∀ y z, before y z = true → R y z) →
  (∀ y z, before y z = false → R z y) →
  StronglySorted R l → StronglySorted R (insert_by before x l).
Proof.
  intros Htrans Hyes Hno. induction 1 as [|y l Hsorted IH Hall]; simpl.
  - repeat constructor.
  - destruct (before y x) eqn:E.
    + constructor; [exact IH|].
      rewrite insert_by_perm. constructor; [by apply Hyes|done].
    + constructor; [by constructor|].
      constructor; [by apply Hno|].
      eapply Forall_impl; [exact Hall|]. intros z Hz. simpl in Hz.
      etrans; [by apply Hno|done].
Qed.

Lemma sorted_StronglySorted {A} (R : relation A) (lt : A → A → bool)
    (reverse : bool) (l : list A) :
  Transitive R →
  (∀ y z, (if reverse then lt z y else lt y z) = true → R y z) →
  (∀ y z, (if reverse then lt z y else lt y z) = false → R z y) →
  StronglySorted R (sorted lt reverse l).
Proof.
  intros Htrans Hyes Hno. unfold sorted.
  induction l as [|x l IH]; simpl; [constructor|].
  by apply insert_by_StronglySorted.
Qed.

Lemma slice_to_sublist {A} (l : list A) (n : Z) : slice_to l n `sublist_of` l.
Proof. unfold slice_to. destruct (0 <=? n); apply sublist_take. Qed.

(** [a # 100 < x / 100] and [x / 100 < a # 100] in whole cents. *)
Lemma Qltb_cents_below (k a : Z) : Qltb (k # 100) (inject_Z a / 100) = (k <? a).
Proof.
  unfold Qltb, Qle_bool. simpl.
  destruct (Z.ltb_spec k a); [apply negb_true_iff, Z.leb_gt|apply negb_false_iff, Z.leb_le]; lia.
Qed.

Lemma Qltb_cents_above (k a : Z) : Qltb (inject_Z a / 100) (k # 100) = (a <? k).
Proof.
  unfold Qltb, Qle_bool. simpl.
  destruct (Z.ltb_spec a k); [apply negb_true_iff, Z.leb_gt|apply negb_false_iff, Z.leb_le]; lia.
Qed.

(** Rounding a number that already has [ndigits] decimals changes nothing. *)
Lemma round_exact (q : Q) (ndigits : nat) (k : Z) :
  (q * inject_Z (10 ^ Z.of_nat ndigits) == inject_Z k)%Q →
  (round q ndigits == q)%Q.
Proof.
  intros Hk. unfold round. rewrite Qred_correct.
  assert (Hscale : ¬ (inject_Z (10 ^ Z.of_nat ndigits) == 0)%Q).
  { unfold Qeq. simpl. assert (0 < 10 ^ Z.of_nat ndigits) by (apply Z.pow_pos_nonneg; lia). lia. }
  assert (Hfloor : Qfloor (q * inject_Z (10 ^ Z.of_nat ndigits)) = k).
  { rewrite (Qfloor_comp _ _ Hk). apply Qfloor_Z. }
  assert (Hround : round_half_even (q * inject_Z (10 ^ Z.of_nat ndigits)) = k).
  { unfold round_half_even. rewrite Hfloor.
    assert (Hzero : (q * inject_Z (10 ^ Z.of_nat ndigits) - inject_Z k == 0)%Q).
    { transitivity (inject_Z k - inject_Z k)%Q; [|ring].
      unfold Qminus. apply Qplus_comp; [exact Hk|reflexivity]. }
    by rewrite (Qcompare_comp _ _ Hzero _ _ (Qeq_refl (1 # 2))). }
  rewrite Hround.
  transitivity (q * inject_Z (10 ^ Z.of_nat ndigits) / inject_Z (10 ^ Z.of_nat ndigits))%Q.
  - unfold Qdiv. apply Qmult_comp; [symmetry; exact Hk|reflexivity].
  - field. exact Hscale.
Qed.

End more_py_facts.

Lemma submseteq_NoDup {A} (l k : list A) : l ⊆+ k → NoDup k → NoDup l.
Proof.
  intros Hsub Hnd. apply submseteq_Permutation in Hsub as [rest Hperm].
  rewrite Hperm in Hnd. by apply NoDup_app in Hnd as [? _].
Qed.

(** ** The rule-based scorers on whole lists *)
Section rule_based_lists.
Import Py RuleBased.
Variable momentum_rationale : Market → string → string → string.
Variable mean_reversion_rationale : Market → string → string → string.

Lemma scoring_loop_length (candidate : Market → option Rec) (max_recommendations : Z)
    (markets : list Market) :
  ∀ recs, len recs < max_recommendations →
          len (scoring_loop candidate max_recommendations markets recs)
          ≤ max_recommendations.
Proof.
  induction markets as [|m ms IH]; intros recs Hlen; simpl; [lia|].
  destruct (candidate m) as [r|]; [|by apply IH].
  assert (Hone : len (recs ++ [r]) = len recs + 1).
  { unfold len. rewrite length_app. simpl. lia. }
  destruct (Z.leb_spec max_recommendations (len (recs ++ [r]))); [lia|].
  by apply IH.
Qed.

Lemma scoring_loop_none (candidate : Market → option Rec) (max_recommendations : Z)
    (markets : list Market) (recs : list Rec) :
  (∀ m, m ∈ markets → candidate m = None) →
  scoring_loop candidate max_recommendations markets recs = recs.
Proof.
  induction markets as [|m ms IH]; intros Hnone; simpl; [done|].
  rewrite (Hnone m) by (by left). apply IH. intros m' Hm'. apply Hnone. by right.
Qed.

(** What the loop adds carries the ids of markets it was given, in their
    order. *)
Lemma scoring_loop_ids (candidate : Market → option Rec) (max_recommendations : Z)
    (markets : list Market) :
  (∀ m r, candidate m = Some r → market_id r = id m) →
  ∀ recs, ∃ added,
    scoring_loop candidate max_recommendations markets recs = recs ++ added
    ∧ (market_id <$> added) `sublist_of` (id <$> markets).
Proof.
  intros Hid. induction markets as [|m ms IH]; intros recs; simpl.
  - exists []. split; [by rewrite app_nil_r|constructor].
  - destruct (candidate m) as [r|] eqn:Hc.
    + destruct (max_recommendations <=? len (recs ++ [r])).
      * exists [r]. split; [done|]. simpl. rewrite (Hid _ _ Hc).
        apply sublist_skip, sublist_nil_l.
      * destruct (IH (recs ++ [r])) as (added & -> & Hsub).
        exists (r :: added). split; [by rewrite <- app_assoc|].
        simpl. rewrite (Hid _ _ Hc). by apply sublist_skip.
    + destruct (IH recs) as (added & -> & Hsub).
      exists added. split; [done|]. simpl. by apply sublist_cons.
Qed.

Lemma momentum_candidate_id (risk_level : string) (m : Market) (r : Rec) :
  momentum_candidate momentum_rationale risk_level m = Some r → market_id r = id m.
Proof.
  unfold momentum_candidate.
  destruct (Qltb (65 # 100) (yes_price_of m)); [by intros [= <-]|].
  destruct (Qltb (yes_price_of m) (35 # 100)); [by intros [= <-]|done].
Qed.

Lemma mean_reversion_candidate_id (risk_level : string) (m : Market) (r : Rec) :
  mean_reversion_candidate mean_reversion_rationale risk_level m = Some r →
  market_id r = id m.
Proof.
  unfold mean_reversion_candidate.
  destruct (Qltb (8 # 10) (yes_price_of m)); [by intros [= <-]|].
  destruct (Qltb (yes_price_of m) (2 # 10)); [by intros [= <-]|done].
Qed.

(** X1. The rule-based model returns at most [max_recommendations] entries
    for every bound from 0 up, every strategy name, market list and risk
    level; an unknown strategy gives the empty list. *)
Theorem rule_based_result_is_bounded (markets : list Market) (strategy : string)
    (max_recommendations : Z) (risk_level : string) :
  0 ≤ max_recommendations →
  len (generate_recommendations momentum_rationale mean_reversion_rationale
         markets strategy max_recommendations risk_level) ≤ max_recommendations
  ∧ (strategy ≠ "momentum" → strategy ≠ "mean-reversion" →
     generate_recommendations momentum_rationale mean_reversion_rationale
       markets strategy max_recommendations risk_level = []).
Proof.
  intros Hmax. unfold generate_recommendations.
  assert (Hloop : ∀ candidate ms,
            len (scoring_loop candidate max_recommendations
                   (slice_to ms (max_recommendations * 2)) []) ≤ max_recommendations).
  { intros candidate ms. destruct (decide (max_recommendations = 0)) as [->|Hne].
    - by destruct ms.
    - apply scoring_loop_length. unfold len. simpl. lia. }
  split.
  - destruct (String.eqb strategy "momentum"); [apply Hloop|].
    destruct (String.eqb strategy "mean-reversion"); [apply Hloop|done].
  - intros H1 H2.
    destruct (String.eqb_spec strategy "momentum"); [done|].
    by destruct (String.eqb_spec strategy "mean-reversion").
Qed.

(** X2. Fed markets with pairwise distinct ids, the rule-based model returns
    entries with pairwise distinct market ids, each the id of one of the
    markets. *)
Theorem rule_based_keeps_markets_distinct (markets : list Market) (strategy : string)
    (max_recommendations : Z) (risk_level : string) :
  NoDup (id <$> markets) →
  let result := generate_recommendations momentum_rationale mean_reversion_rationale
                  markets strategy max_recommendations risk_level in
  NoDup (market_id <$> result)
  ∧ ∀ r, r ∈ result → market_id r ∈ id <$> markets.
Proof.
  intros Hnd result.
  assert (Hsub : (market_id <$> result) ⊆+ (id <$> markets)).
  { subst result. unfold generate_recommendations,
      _generate_momentum_recommendations, _generate_mean_reversion_recommendations.
    assert (Hloop : ∀ candidate lt,
              (∀ m r, candidate m = Some r → market_id r = id m) →
              (market_id <$> scoring_loop candidate max_recommendations
                 (slice_to (sorted lt true markets) (max_recommendations * 2)) [])
              ⊆+ (id <$> markets)).
    { intros candidate lt Hid.
      destruct (scoring_loop_ids candidate max_recommendations
                  (slice_to (sorted lt true markets) (max_recommendations * 2)) Hid [])
        as (added & -> & Hadded).
      simpl. etrans; [by apply sublist_submseteq|].
      etrans; [apply fmap_submseteq, sublist_submseteq, slice_to_sublist|].
      by rewrite sorted_perm. }
    destruct (String.eqb strategy "momentum");
      [apply Hloop, momentum_candidate_id|].
    destruct (String.eqb strategy "mean-reversion");
      [apply Hloop, mean_reversion_candidate_id|].
    simpl. apply submseteq_nil_l. }
  split; [by eapply submseteq_NoDup|].
  intros r Hr. eapply elem_of_submseteq; [|exact Hsub]. by apply list_elem_of_fmap_2.
Qed.

End rule_based_lists.

(** ** The scoring rules in whole cents *)
Section rules_in_cents.
Import Py RuleBased.
Variable momentum_rationale : Market → string → string → string.
Variable mean_reversion_rationale : Market → string → string → string.

(** Decide a comparison of prices and leave it as a fact about cents. *)
Ltac price_case E :=
  match goal with
  | |- context [Qltb ?x ?y] =>
      destruct (Qltb x y) eqn:E;
      [apply Qltb_lt in E
      |apply not_true_iff_false in E; rewrite Qltb_lt in E; apply Qnot_lt_le in E];
      unfold Qlt, Qle in E; simpl in E
  end.

Lemma round1_whole (q : Q) (k : Z) : (q == inject_Z k)%Q → (round q 1 == inject_Z k)%Q.
Proof.
  intros H. transitivity q; [|exact H].
  apply (round_exact q 1 (k * 10)).
  transitivity (inject_Z k * inject_Z (10 ^ Z.of_nat 1))%Q.
  - apply Qmult_comp; [exact H|reflexivity].
  - unfold Qeq. simpl. lia.
Qed.

Lemma round2_cents (q : Q) (k : Z) :
  (q == inject_Z k / 100)%Q → (round q 2 == inject_Z k / 100)%Q.
Proof.
  intros H. transitivity q; [|exact H].
  apply (round_exact q 2 k).
  transitivity (inject_Z k / 100 * inject_Z (10 ^ Z.of_nat 2))%Q.
  - apply Qmult_comp; [exact H|reflexivity].
  - unfold Qeq. simpl. lia.
Qed.

Lemma min_plus_cents (a k c : Z) :
  (min (inject_Z a / 100 + (k # 100)) (c # 100) * 100 == inject_Z (Z.min (a + k) c))%Q.
Proof.
  unfold min. price_case E.
  - rewrite Z.min_r by lia. unfold Qeq. simpl. lia.
  - rewrite Z.min_l by lia. unfold Qeq. simpl. lia.
Qed.

Lemma max_minus_cents (a k c : Z) :
  (max (inject_Z a / 100 - (k # 100)) (c # 100) * 100 == inject_Z (Z.max (a - k) c))%Q.
Proof.
  unfold max. price_case E.
  - rewrite Z.max_r by lia. unfold Qeq. simpl. lia.
  - rewrite Z.max_l by lia. unfold Qeq. simpl. lia.
Qed.

(** The momentum rule for one market, with [a] its YES ask in cents (0 when
    the market has none). *)
Lemma momentum_candidate_cents (risk_level : string) (m : Market) :
  let a := default 0 (yes_ask m) in
  let n := if String.eqb risk_level "low" then 1
           else if String.eqb risk_level "medium" then 3 else 5 in
  match momentum_candidate momentum_rationale risk_level m with
  | None => 35 ≤ a ≤ 65
  | Some r =>
      market_id r = id m ∧ contracts r = n
      ∧ ((65 < a ∧ action r = "YES"
          ∧ confidence r = (if 80 <? a then "High" else "Medium")
          ∧ (probability r == inject_Z a)%Q
          ∧ (target_exit r == inject_Z (Z.min (a + 15) 99))%Q
          ∧ (stop_loss r == inject_Z (Z.max (a - 10) 1))%Q
          ∧ (cost r == inject_Z (n * a) / 100)%Q)
         ∨ (a < 35 ∧ action r = "NO"
            ∧ confidence r = (if a <? 20 then "High" else "Medium")
            ∧ (probability r == inject_Z (100 - a))%Q
            ∧ (target_exit r == inject_Z (Z.max (a - 15) 1))%Q
            ∧ (stop_loss r == inject_Z (Z.min (a + 10) 99))%Q
            ∧ (cost r == inject_Z (n * (100 - a)) / 100)%Q))
  end.
Proof.
  intros a n. unfold momentum_candidate, yes_price_of. fold a. fold n.
  price_case Hhigh.
  - split; [done|]. split; [done|]. left. simpl.
    split; [lia|]. split; [done|]. split.
    { price_case E; destruct (Z.ltb_spec 80 a); try done; lia. }
    split. { apply round1_whole. unfold Qeq. simpl. lia. }
    split. { apply round1_whole, min_plus_cents. }
    split. { apply round1_whole, max_minus_cents. }
    apply round2_cents. unfold Qeq. simpl. lia.
  - price_case Hlow; [|lia].
    split; [done|]. split; [done|]. right. simpl.
    split; [lia|]. split; [done|]. split.
    { price_case E; destruct (Z.ltb_spec a 20); try done; lia. }
    split. { apply round1_whole. unfold Qeq. simpl. lia. }
    split. { apply round1_whole, max_minus_cents. }
    split. { apply round1_whole, min_plus_cents. }
    apply round2_cents. unfold Qeq. simpl. lia.
Qed.

(** The mean-reversion rule for one market. *)
Lemma mean_reversion_candidate_cents (risk_level : string) (m : Market) :
  let a := default 0 (yes_ask m) in
  let n := if String.eqb risk_level "low" then 1
           else if String.eqb risk_level "medium" then 2 else 4 in
  match mean_reversion_candidate mean_reversion_rationale risk_level m with
  | None => 20 ≤ a ≤ 80
  | Some r =>
      market_id r = id m ∧ contracts r = n
      ∧ ((80 < a ∧ action r = "NO"
          ∧ confidence r = (if 90 <? a then "Medium" else "Low")
          ∧ (probability r == inject_Z (100 - a))%Q
          ∧ (target_exit r == inject_Z (Z.max (a - 20) 1))%Q
          ∧ (stop_loss r == inject_Z (Z.min (a + 5) 99))%Q
          ∧ (cost r == inject_Z (n * (100 - a)) / 100)%Q)
         ∨ (a < 20 ∧ action r = "YES"
            ∧ confidence r = (if a <? 10 then "Medium" else "Low")
            ∧ (probability r == inject_Z a)%Q
            ∧ (target_exit r == inject_Z (Z.min (a + 20) 99))%Q
            ∧ (stop_loss r == inject_Z (Z.max (a - 5) 1))%Q
            ∧ (cost r == inject_Z (n * a) / 100)%Q))
  end.
Proof.
  intros a n. unfold mean_reversion_candidate, yes_price_of. fold a. fold n.
  price_case Hhigh.
  - split; [done|]. split; [done|]. left. simpl.
    split; [lia|]. split; [done|]. split.
    { price_case E; destruct (Z.ltb_spec 90 a); try done; lia. }
    split. { apply round1_whole. unfold Qeq. simpl. lia. }
    split. { apply round1_whole, max_minus_cents. }
    split. { apply round1_whole, min_plus_cents. }
    apply round2_cents. unfold Qeq. simpl. lia.
  - price_case Hlow; [|lia].
    split; [done|]. split; [done|]. right. simpl.
    split; [lia|]. split; [done|]. split.
    { price_case E; destruct (Z.ltb_spec a 10); try done; lia. }
    split. { apply round1_whole. unfold Qeq. simpl. lia. }
    split. { apply round1_whole, min_plus_cents. }
    split. { apply round1_whole, max_minus_cents. }
    apply round2_cents. unfold Qeq. simpl. lia.
Qed.

End rules_in_cents.

(** [market.get("yes_ask", 0)]: the YES ask in cents, 0 when the market has
    none. *)
Definition ask_cents (m : Market) : Z := default 0 (yes_ask m).

Section rules_on_lists.
Import Py RuleBased.
Variable momentum_rationale : Market → string → string → string.
Variable mean_reversion_rationale : Market → string → string → string.

(** X3. The momentum scorer in whole cents, with [a] the YES ask of a market
    ([ask_cents], 0 when it has none). Every entry returned belongs to a market of the
    list with [a > 65] (a YES, High above 80) or [a < 35] (a NO, High below
    20), never Low; it carries 1, 3 or 5 contracts by risk level, and its
    prices are whole cents: for a YES the probability is [a], the target
    [min(a + 15, 99)], the stop [max(a - 10, 1)] and the cost [n * a / 100];
    for a NO the probability is [100 - a], the target [max(a - 15, 1)], the
    stop [min(a + 10, 99)] and the cost [n * (100 - a) / 100]. When every
    market has [35 <= a <= 65] nothing is returned. *)
Theorem momentum_rule_in_cents (markets : list Market) (max_recommendations : Z)
    (risk_level : string) :
  let result := generate_recommendations momentum_rationale mean_reversion_rationale
                  markets "momentum" max_recommendations risk_level in
  let n := if String.eqb risk_level "low" then 1
           else if String.eqb risk_level "medium" then 3 else 5 in
  (∀ r, r ∈ result →
     ∃ m, m ∈ markets ∧ market_id r = id m ∧ contracts r = n
          ∧ ((65 < ask_cents m ∧ action r = "YES"
              ∧ confidence r = (if 80 <? ask_cents m then "High" else "Medium")
              ∧ (probability r == inject_Z (ask_cents m))%Q
              ∧ (target_exit r == inject_Z (Z.min (ask_cents m + 15) 99))%Q
              ∧ (stop_loss r == inject_Z (Z.max (ask_cents m - 10) 1))%Q
              ∧ (cost r == inject_Z (n * ask_cents m) / 100)%Q)
             ∨ (ask_cents m < 35 ∧ action r = "NO"
                ∧ confidence r = (if ask_cents m <? 20 then "High" else "Medium")
                ∧ (probability r == inject_Z (100 - ask_cents m))%Q
                ∧ (target_exit r == inject_Z (Z.max (ask_cents m - 15) 1))%Q
                ∧ (stop_loss r == inject_Z (Z.min (ask_cents m + 10) 99))%Q
                ∧ (cost r == inject_Z (n * (100 - ask_cents m)) / 100)%Q)))
  ∧ ((∀ m, m ∈ markets → 35 ≤ ask_cents m ≤ 65) → result = []).
Proof.
  intros result n. subst result. unfold generate_recommendations, ask_cents. simpl. split.
  - intros r Hr.
    apply momentum_entries_are_candidates in Hr as (m & Hm & Hc).
    exists m. split; [done|].
    pose proof (momentum_candidate_cents momentum_rationale risk_level m) as H.
    simpl in H. rewrite Hc in H. exact H.
  - intros Hzone. unfold _generate_momentum_recommendations.
    apply scoring_loop_none. intros m Hm.
    apply slice_to_elem_of in Hm. rewrite sorted_perm in Hm.
    pose proof (momentum_candidate_cents momentum_rationale risk_level m) as H.
    simpl in H. specialize (Hzone m Hm).
    destruct (momentum_candidate momentum_rationale risk_level m); [|done].
    destruct H as (_ & _ & [(? & _)|(? & _)]); lia.
Qed.

(** X4. The mean-reversion scorer in whole cents. Every entry returned
    belongs to a market of the list with [a > 80] (a NO, Medium above 90) or
    [a < 20] (a YES, Medium below 10), never High; it carries 1, 2 or 4
    contracts by risk level; for a NO the probability is [100 - a], the
    target [max(a - 20, 1)], the stop [min(a + 5, 99)]; for a YES the
    probability is [a], the target [min(a + 20, 99)], the stop
    [max(a - 5, 1)]. When every market has [20 <= a <= 80] nothing is
    returned. *)
Theorem mean_reversion_rule_in_cents (markets : list Market) (max_recommendations : Z)
    (risk_level : string) :
  let result := generate_recommendations momentum_rationale mean_reversion_rationale
                  markets "mean-reversion" max_recommendations risk_level in
  let n := if String.eqb risk_level "low" then 1
           else if String.eqb risk_level "medium" then 2 else 4 in
  (∀ r, r ∈ result →
     ∃ m, m ∈ markets ∧ market_id r = id m ∧ contracts r = n
          ∧ ((80 < ask_cents m ∧ action r = "NO"
              ∧ confidence r = (if 90 <? ask_cents m then "Medium" else "Low")
              ∧ (probability r == inject_Z (100 - ask_cents m))%Q
              ∧ (target_exit r == inject_Z (Z.max (ask_cents m - 20) 1))%Q
              ∧ (stop_loss r == inject_Z (Z.min (ask_cents m + 5) 99))%Q
              ∧ (cost r == inject_Z (n * (100 - ask_cents m)) / 100)%Q)
             ∨ (ask_cents m < 20 ∧ action r = "YES"
                ∧ confidence r = (if ask_cents m <? 10 then "Medium" else "Low")
                ∧ (probability r == inject_Z (ask_cents m))%Q
                ∧ (target_exit r == inject_Z (Z.min (ask_cents m + 20) 99))%Q
                ∧ (stop_loss r == inject_Z (Z.max (ask_cents m - 5) 1))%Q
                ∧ (cost r == inject_Z (n * ask_cents m) / 100)%Q)))
  ∧ ((∀ m, m ∈ markets → 20 ≤ ask_cents m ≤ 80) → result = []).
Proof.
  intros result n. subst result. unfold generate_recommendations, ask_cents. simpl. split.
  - intros r Hr.
    apply mean_reversion_entries_are_candidates in Hr as (m & Hm & Hc).
    exists m. split; [done|].
    pose proof (mean_reversion_candidate_cents mean_reversion_rationale risk_level m) as H.
    simpl in H. rewrite Hc in H. exact H.
  - intros Hzone. unfold _generate_mean_reversion_recommendations.
    apply scoring_loop_none. intros m Hm.
    apply slice_to_elem_of in Hm. rewrite sorted_perm in Hm.
    pose proof (mean_reversion_candidate_cents mean_reversion_rationale risk_level m) as H.
    simpl in H. specialize (Hzone m Hm).
    destruct (mean_reversion_candidate mean_reversion_rationale risk_level m); [|done].
    destruct H as (_ & _ & [(? & _)|(? & _)]); lia.
Qed.

End rules_on_lists.

Lemma rule_based_result_is_bounded_witness :
  Py.len (RuleBased.generate_recommendations no_rationale no_rationale
            [simple_market "KXINXU-25APR02H1200-T5600" 90 1000;
             simple_market "KXINXU-25APR02H1200-T5700" 10 900]
            "momentum" 1 "high") ≤ 1.
Proof.
  apply (rule_based_result_is_bounded no_rationale no_rationale
           [simple_market "KXINXU-25APR02H1200-T5600" 90 1000;
            simple_market "KXINXU-25APR02H1200-T5700" 10 900] "momentum" 1 "high").
  lia.
Defined.

Lemma rule_based_keeps_markets_distinct_witness :
  NoDup (market_id <$>
           RuleBased.generate_recommendations no_rationale no_rationale
             [simple_market "KXINXU-25APR02H1200-T5600" 90 1000;
              simple_market "KXINXU-25APR02H1200-T5700" 10 900]
             "mean-reversion" 5 "low").
Proof.
  apply (rule_based_keeps_markets_distinct no_rationale no_rationale
           [simple_market "KXINXU-25APR02H1200-T5600" 90 1000;
            simple_market "KXINXU-25APR02H1200-T5700" 10 900]
           "mean-reversion" 5 "low").
  simpl. apply NoDup_cons. split; [|apply NoDup_singleton].
  intros H. apply list_elem_of_singleton in H. discriminate H.
Defined.

(** ** Where the entries of the hybrid blend come from *)
Section hybrid_origin.
Import Py Hybrid.

(** Whatever the deduplication loop adds had a market id not seen before. *)
Lemma dedup_loop_added (max_recommendations : Z) (combined : list Rec) :
  ∀ (unique : list Rec) (seen : gset string) (u : list Rec) (s : gset string),
    dedup_loop max_recommendations combined unique seen = (u, s) →
    ∀ r, r ∈ u → r ∈ unique ∨ (r ∈ combined ∧ market_id r ∉ seen).
Proof.
  induction combined as [|rec rest IH]; intros unique seen u s Hrun r Hr; simpl in Hrun.
  - injection Hrun as <- <-. by left.
  - destruct (decide (market_id rec ∈ seen)) as [Hin|Hnotin].
    + destruct (IH _ _ _ _ Hrun r Hr) as [H|[H1 H2]]; [by left|right].
      split; [by right|done].
    + assert (Hnew : r ∈ unique ++ [rec] → r ∈ unique ∨ (r ∈ rec :: rest ∧ market_id r ∉ seen)).
      { intros H. apply elem_of_app in H as [H|H]; [by left|right].
        apply list_elem_of_singleton in H as ->. split; [by left|done]. }
      destruct (max_recommendations <=? len (unique ++ [rec])).
      * injection Hrun as <- <-. by apply Hnew.
      * destruct (IH _ _ _ _ Hrun r Hr) as [H|[H1 H2]]; [by apply Hnew|right].
        split; [by right|]. intros Hseen. apply H2. by apply elem_of_union_l.
Qed.

(** Run over two lists in a row, the loop takes from the second only markets
    that the first does not hold. *)
Lemma dedup_loop_second_list (max_recommendations : Z) (l1 l2 : list Rec) :
  ∀ (unique : list Rec) (seen : gset string) (u : list Rec) (s : gset string),
    dedup_loop max_recommendations (l1 ++ l2) unique seen = (u, s) →
    ∀ r, r ∈ u →
         r ∈ unique ∨ r ∈ l1
         ∨ (r ∈ l2 ∧ (market_id r ∉ market_id <$> l1) ∧ market_id r ∉ seen).
Proof.
  induction l1 as [|rec rest IH]; intros unique seen u s Hrun r Hr; simpl in Hrun.
  - destruct (dedup_loop_added _ _ _ _ _ _ Hrun r Hr) as [H|[H1 H2]]; [by left|].
    right. right. split; [done|]. split; [apply not_elem_of_nil|done].
  - destruct (decide (market_id rec ∈ seen)) as [Hin|Hnotin].
    + destruct (IH _ _ _ _ Hrun r Hr) as [H|[H|(H1 & H2 & H3)]];
        [by left|right; left; by right|].
      right. right. split; [done|]. split; [|done].
      simpl. apply not_elem_of_cons. split; [|done]. intros Heq. apply H3. by rewrite Heq.
    + assert (Hnew : r ∈ unique ++ [rec] → r ∈ unique ∨ r ∈ rec :: rest).
      { intros H. apply elem_of_app in H as [H|H]; [by left|right].
        apply list_elem_of_singleton in H as ->. by left. }
      destruct (max_recommendations <=? len (unique ++ [rec])).
      * injection Hrun as <- <-. destruct (Hnew Hr); [by left|right; by left].
      * destruct (IH _ _ _ _ Hrun r Hr) as [H|[H|(H1 & H2 & H3)]].
        -- destruct (Hnew H); [by left|right; by left].
        -- right. left. by right.
        -- right. right. split; [done|]. split.
           ++ simpl. apply not_elem_of_cons. split; [|done].
              intros Heq. apply H3. rewrite Heq. by apply elem_of_union_r, elem_of_singleton_2.
           ++ intros Hseen. apply H3. by apply elem_of_union_l.
Qed.

Lemma set_strategy_market_id (tag : string) (l : list Rec) :
  market_id <$> map (set_strategy tag) l = market_id <$> l.
Proof. induction l as [|r l IH]; simpl; [done|]. f_equal. exact IH. Qed.

(** Every entry of the blend is a momentum candidate tagged "momentum", or a
    mean-reversion candidate tagged "mean-reversion" for a market that no
    momentum candidate covers. *)
Lemma blend_origin (momentum mean_reversion : list Rec) (max_recommendations : Z) (r : Rec) :
  r ∈ blend momentum mean_reversion max_recommendations →
  (∃ c, c ∈ momentum ∧ r = set_strategy "momentum" c)
  ∨ (∃ c, c ∈ mean_reversion ∧ r = set_strategy "mean-reversion" c
          ∧ market_id c ∉ market_id <$> momentum).
Proof.
  rewrite blend_is_dedup.
  destruct (dedup_loop _ _ [] ∅) as [u s] eqn:Hrun. simpl. intros Hr.
  destruct (dedup_loop_second_list _ _ _ _ _ _ _ Hrun r Hr) as [H|[H|(H1 & H2 & _)]].
  - by apply elem_of_nil in H.
  - left. apply list_elem_of_fmap in H as (c & -> & Hc). by exists c.
  - right. apply list_elem_of_fmap in H1 as (c & -> & Hc). exists c.
    split; [done|]. split; [done|]. by rewrite set_strategy_market_id in H2.
Qed.

Variable momentum_rationale : Market → string → string → string.
Variable mean_reversion_rationale : Market → string → string → string.
Variable openai_model : list Market → string → Z → string → Exc (list Rec).

(** X5. With the remote model off, the hybrid strategy splits the bound into
    a momentum share of at least 1 and the rest for mean-reversion, and every
    entry it returns is either a rule-based momentum entry for that share,
    tagged "momentum", or a rule-based mean-reversion entry for the rest,
    tagged "mean-reversion", whose market the momentum entries do not cover:
    where both scorers pick a market, momentum wins. *)
Theorem hybrid_prefers_momentum (markets : list Market) (max_recommendations : Z)
    (risk_level : string) :
  let momentum_count := fst (split_counts max_recommendations risk_level) in
  let mean_reversion_count := snd (split_counts max_recommendations risk_level) in
  let momentum :=
    RuleBased.generate_recommendations momentum_rationale mean_reversion_rationale
      markets "momentum" momentum_count risk_level in
  let mean_reversion :=
    RuleBased.generate_recommendations momentum_rationale mean_reversion_rationale
      markets "mean-reversion" mean_reversion_count risk_level in
  1 ≤ momentum_count
  ∧ momentum_count + mean_reversion_count = max_recommendations
  ∧ ∀ r, r ∈ _generate_hybrid_strategy_recommendations momentum_rationale
               mean_reversion_rationale false openai_model
               markets max_recommendations risk_level →
         (∃ c, c ∈ momentum ∧ r = set_strategy "momentum" c)
         ∨ (∃ c, c ∈ mean_reversion ∧ r = set_strategy "mean-reversion" c
                 ∧ market_id c ∉ market_id <$> momentum).
Proof.
  intros momentum_count mean_reversion_count momentum mean_reversion.
  subst momentum_count mean_reversion_count momentum mean_reversion.
  unfold _generate_hybrid_strategy_recommendations, split_counts. simpl.
  split; [lia|]. split; [lia|].
  intros r Hr. apply blend_origin in Hr. exact Hr.
Qed.

(** X6. Whatever the remote model answers, every entry of the hybrid
    strategy carries the tag "momentum" or "mean-reversion", and the entries
    tagged "momentum" come before those tagged "mean-reversion". *)
Theorem hybrid_entries_are_tagged (openai_enabled : bool) (markets : list Market)
    (max_recommendations : Z) (risk_level : string) :
  ∃ first second,
    _generate_hybrid_strategy_recommendations momentum_rationale
      mean_reversion_rationale openai_enabled openai_model
      markets max_recommendations risk_level = first ++ second
    ∧ Forall (fun r => strategy r = Some "momentum") first
    ∧ Forall (fun r => strategy r = Some "mean-reversion") second.
Proof.
  unfold _generate_hybrid_strategy_recommendations.
  destruct (split_counts _ _) as [momentum_count mean_reversion_count].
  destruct (openai_attempt _ _ _ _ _ _) as [momentum0 mean_reversion0].
  set (momentum := if needs_fallback momentum0 momentum_count then _ else _).
  set (mean_reversion := if needs_fallback mean_reversion0 mean_reversion_count then _ else _).
  rewrite blend_is_dedup.
  destruct (dedup_loop _ _ [] ∅) as [u s] eqn:Hrun. simpl.
  destruct (dedup_loop_spec _ _ _ _ _ _ Hrun) as (_ & _ & _ & _ & _);
    [apply NoDup_nil_2|apply seen_nothing|].
  assert (Hsub : u `sublist_of` map (set_strategy "momentum") momentum
                                ++ map (set_strategy "mean-reversion") mean_reversion).
  { clear -Hrun. revert Hrun.
    generalize (map (set_strategy "momentum") momentum
                ++ map (set_strategy "mean-reversion") mean_reversion).
    intros combined.
    assert (Hgen : ∀ unique seen u s,
              dedup_loop max_recommendations combined unique seen = (u, s) →
              ∃ added, u = unique ++ added ∧ added `sublist_of` combined).
    { induction combined as [|rec rest IH]; intros unique seen u' s' Hrun; simpl in Hrun.
      - injection Hrun as <- <-. exists []. by rewrite app_nil_r.
      - destruct (decide (market_id rec ∈ seen)).
        + destruct (IH _ _ _ _ Hrun) as (added & -> & Hsub).
          exists added. split; [done|]. by apply sublist_cons.
        + destruct (max_recommendations <=? len (unique ++ [rec])).
          * injection Hrun as <- <-. exists [rec]. split; [done|].
            apply sublist_skip, sublist_nil_l.
          * destruct (IH _ _ _ _ Hrun) as (added & -> & Hsub).
            exists (rec :: added). split; [by rewrite <- app_assoc|].
            by apply sublist_skip. }
    intros Hrun. destruct (Hgen _ _ _ _ Hrun) as (added & -> & Hsub). done. }
  apply sublist_app_r in Hsub as (first & second & -> & Hfirst & Hsecond).
  exists first, second. split; [done|]. split.
  - apply List.Forall_forall. intros r Hr. apply list_elem_of_In in Hr.
    eapply elem_of_sublist in Hr; [|exact Hfirst].
    apply list_elem_of_fmap in Hr as (c & -> & _). done.
  - apply List.Forall_forall. intros r Hr. apply list_elem_of_In in Hr.
    eapply elem_of_sublist in Hr; [|exact Hsecond].
    apply list_elem_of_fmap in Hr as (c & -> & _). done.
Qed.

End hybrid_origin.

(** The split follows the float product: at 90 and high risk momentum gets
    62 slots, since [90 * 0.7] falls just below 63; at 10 it gets 7, and at 0
    it still gets one. *)
Example split_follows_the_float_product :
  Hybrid.split_counts 90 "high" = (62, 28)
  ∧ Hybrid.split_counts 10 "high" = (7, 3)
  ∧ Hybrid.split_counts 10 "low" = (4, 6)
  ∧ Hybrid.split_counts 5 "medium" = (2, 3)
  ∧ Hybrid.split_counts 0 "medium" = (1, -1).
Proof. vm_compute. repeat split. Qed.

(** ** Order and origin of the strategy manager's result *)

(** The order the manager's sort leaves its result in: higher confidence
    rank first and, within one rank, lower cost first. *)
Definition ranks_before (a b : Rec) : Prop :=
  confidence_order (confidence b) < confidence_order (confidence a)
  ∨ (confidence_order (confidence a) = confidence_order (confidence b)
     ∧ (cost a <= cost b)%Q).

Section manager_order.
Import Py Strategies.
Variable py_float : string → option Q.
Variable range_rationale index_rationale_low index_rationale_high : Z → Z → string.
Variable volatility_analyze sentiment_analyze : list Market → list Rec.

Lemma negated_costs (x y : Q) : Qltb (x * -1) (y * -1) = true ↔ (y < x)%Q.
Proof.
  rewrite Qltb_lt. unfold Qlt. simpl.
  rewrite !Pos.mul_1_r. lia.
Qed.

#[local] Instance ranks_before_trans : Transitive ranks_before.
Proof.
  intros a b c [Hab|[Hab Hab']] [Hbc|[Hbc Hbc']]; unfold ranks_before.
  - left. lia.
  - left. lia.
  - left. lia.
  - right. split; [lia|]. by eapply Qle_trans.
Qed.

Lemma key_lt_true (x y : Rec) :
  key_lt (sort_key x) (sort_key y) = true → ranks_before y x.
Proof.
  unfold key_lt, sort_key, ranks_before. simpl. intros H.
  apply orb_true_iff in H as [H|H].
  - left. by apply Z.ltb_lt in H.
  - apply andb_true_iff in H as [H1 H2]. apply Z.eqb_eq in H1.
    apply negated_costs in H2. right. split; [done|]. by apply Qlt_le_weak.
Qed.

Lemma key_lt_false (x y : Rec) :
  key_lt (sort_key x) (sort_key y) = false → ranks_before x y.
Proof.
  unfold key_lt, sort_key, ranks_before. simpl. intros H.
  apply orb_false_iff in H as [H1 H2]. apply Z.ltb_ge in H1.
  destruct (Z.eqb_spec (confidence_order (confidence x)) (confidence_order (confidence y)))
    as [Heq|Hne]; [|left; lia].
  right. split; [done|]. simpl in H2.
  apply Qnot_lt_le. intros Hlt. apply negated_costs in Hlt. congruence.
Qed.

Lemma sort_by_confidence_sorted (recs : list Rec) :
  StronglySorted ranks_before (_sort_by_confidence recs).
Proof.
  unfold _sort_by_confidence.
  apply sorted_StronglySorted; [apply _| |].
  - intros y z. apply key_lt_true.
  - intros y z. apply key_lt_false.
Qed.

Lemma StronglySorted_sublist {A} (R : relation A) (l k : list A) :
  l `sublist_of` k → StronglySorted R k → StronglySorted R l.
Proof.
  intros Hsub Hsorted. revert l Hsub.
  induction Hsorted as [|x k Hsorted IH Hall]; intros l Hsub.
  - apply sublist_nil_r in Hsub as ->. constructor.
  - inversion Hsub as [|y l' k' Hsub'|y l' k' Hsub']; subst.
    + constructor; [by apply IH|].
      apply List.Forall_forall. intros z Hz. apply list_elem_of_In in Hz.
      eapply elem_of_sublist in Hz; [|exact Hsub'].
      rewrite List.Forall_forall in Hall. by apply Hall, list_elem_of_In.
    + by apply IH.
Qed.

Lemma filter_by_risk_level_sublist (recs : list Rec) (risk_level : string) :
  _filter_by_risk_level recs risk_level `sublist_of` recs.
Proof.
  unfold _filter_by_risk_level.
  assert (Hfilter : ∀ p, List.filter p recs `sublist_of` recs).
  { intros p. induction recs as [|r recs IH]; simpl; [constructor|].
    destruct (p r); [by apply sublist_skip|by apply sublist_cons]. }
  repeat (match goal with |- context [String.eqb ?a ?b] => destruct (String.eqb a b) end);
    try done; apply Hfilter.
Qed.

(** X7. The strategy manager's result is ordered by confidence rank, highest
    first, and within one rank by cost, lowest first; it is drawn from what
    the scorers of the strategy produced, each of their entries used at most
    once, so that distinct market ids among the scorers' entries stay
    distinct in the result. *)
Theorem manager_result_is_ordered_and_drawn (strategy : string) (markets : list Market)
    (max_recommendations : Z) (risk_level : string) :
  let result := get_recommendations py_float range_rationale index_rationale_low
                  index_rationale_high volatility_analyze sentiment_analyze
                  strategy markets max_recommendations risk_level in
  let produced := arbitrage_analyze py_float range_rationale index_rationale_low
                    index_rationale_high markets
                  ++ volatility_analyze markets ++ sentiment_analyze markets in
  StronglySorted ranks_before result
  ∧ result ⊆+ produced
  ∧ (NoDup (market_id <$> produced) → NoDup (market_id <$> result)).
Proof.
  intros result produced.
  assert (Hcore : StronglySorted ranks_before result ∧ result ⊆+ produced).
  { subst result produced. unfold get_recommendations.
    destruct markets as [|m ms]; [split; [constructor|apply submseteq_nil_l]|].
    set (arb := arbitrage_analyze _ _ _ _ _).
    set (vol := volatility_analyze _). set (sent := sentiment_analyze _).
    assert (Hfrom : ∀ recs, recs ⊆+ arb ++ vol ++ sent →
              StronglySorted ranks_before
                (slice_to (_sort_by_confidence (_filter_by_risk_level recs risk_level))
                   max_recommendations)
              ∧ slice_to (_sort_by_confidence (_filter_by_risk_level recs risk_level))
                  max_recommendations ⊆+ arb ++ vol ++ sent).
    { intros recs Hrecs. split.
      - eapply StronglySorted_sublist; [apply slice_to_sublist|].
        apply sort_by_confidence_sorted.
      - etrans; [apply sublist_submseteq, slice_to_sublist|].
        unfold _sort_by_confidence. rewrite sorted_perm.
        etrans; [apply sublist_submseteq, filter_by_risk_level_sublist|done]. }
    destruct (String.eqb strategy "arbitrage");
      [apply Hfrom, submseteq_inserts_r; reflexivity|].
    destruct (String.eqb strategy "volatility");
      [apply Hfrom, submseteq_inserts_l, submseteq_inserts_r; reflexivity|].
    destruct (String.eqb strategy "sentiment");
      [apply Hfrom, submseteq_inserts_l, submseteq_inserts_l; reflexivity|].
    destruct (String.eqb strategy "combined"); [apply Hfrom; reflexivity|].
    split; [constructor|apply submseteq_nil_l]. }
  destruct Hcore as [Hsorted Hsub]. split; [done|]. split; [done|].
  intros Hnd. eapply submseteq_NoDup; [|exact Hnd]. by apply fmap_submseteq.
Qed.

End manager_order.

(** ** The arbitrage scorer *)
Section arbitrage_facts.
Import Py Strategies.
Variable py_float : string → option Q.
Variable range_rationale index_rationale_low index_rationale_high : Z → Z → string.

Lemma group_append_elem_of {A} (key : string) (x y : A) (d : list (string * list A)) :
  y ∈ flat_map snd (group_append key x d) → y = x ∨ y ∈ flat_map snd d.
Proof.
  induction d as [|[k xs] d IH]; simpl.
  - intros H. apply list_elem_of_singleton in H. by left.
  - destruct (String.eqb k key); simpl; intros H.
    + apply elem_of_app in H as [H|H].
      * apply elem_of_app in H as [H|H]; [right; apply elem_of_app; by left|].
        apply list_elem_of_singleton in H. by left.
      * right. apply elem_of_app. by right.
    + apply elem_of_app in H as [H|H]; [right; apply elem_of_app; by left|].
      destruct (IH H) as [?|?]; [by left|right; apply elem_of_app; by right].
Qed.

Lemma group_by_series_elem_of (markets : list Market) (y : Market) :
  y ∈ flat_map snd (group_by_series markets) → y ∈ markets.
Proof.
  unfold group_by_series.
  assert (Hgen : ∀ acc, y ∈ flat_map snd
                   (fold_left (fun d m => match series_of m with
                                          | Some series => group_append series m d
                                          | None => d
                                          end) markets acc) →
                        y ∈ markets ∨ y ∈ flat_map snd acc).
  { induction markets as [|m ms IH]; intros acc H; simpl in H; [by right|].
    destruct (IH _ H) as [?|Hacc]; [left; by right|].
    destruct (series_of m); [|by right].
    apply group_append_elem_of in Hacc as [->|?]; [left; by left|by right]. }
  intros H. destruct (Hgen [] H) as [?|Hnil]; [done|].
  by apply elem_of_nil in Hnil.
Qed.

Lemma adjacent_pairs_elem_of {A} (l : list A) (a b : A) :
  (a, b) ∈ adjacent_pairs l → a ∈ l ∧ b ∈ l.
Proof.
  induction l as [|x [|y l] IH]; simpl; intros H;
    [by apply elem_of_nil in H|by apply elem_of_nil in H|].
  apply elem_of_cons in H as [[= -> ->]|H].
  - split; [by left|right; by left].
  - destruct (IH H) as [Ha Hb]. split; by right.
Qed.

(** What holds of every arbitrage entry computed from the given markets. *)
Definition arbitrage_entry (markets : list Market) (r : Rec) : Prop :=
  strategy r = Some "arbitrage"
  ∧ contracts r = 1
  ∧ (confidence r = "High" ∨ confidence r = "Medium")
  ∧ (action r = "YES" ∨ action r = "NO")
  ∧ market_id r ∈ id <$> markets.

Lemma from_pairs_shape (markets group : list Market) (f : Market * Market → list Rec) :
  (∀ a b, a ∈ markets → b ∈ markets →
          Forall (arbitrage_entry markets) (f (a, b))
          ∧ (f (a, b) = [] ∨ ∃ r1 r2, f (a, b) = [r1; r2])) →
  (∀ m, m ∈ group → m ∈ markets) →
  Forall (arbitrage_entry markets) (flat_map f (adjacent_pairs (sort_by_strike py_float group)))
  ∧ ∃ k, length (flat_map f (adjacent_pairs (sort_by_strike py_float group))) = (2 * k)%nat.
Proof.
  intros Hf Hgroup.
  assert (Hpairs : ∀ a b, (a, b) ∈ adjacent_pairs (sort_by_strike py_float group) →
                          a ∈ markets ∧ b ∈ markets).
  { intros a b H. apply adjacent_pairs_elem_of in H as [Ha Hb].
    unfold sort_by_strike in Ha, Hb. rewrite sorted_perm in Ha, Hb.
    split; by apply Hgroup. }
  induction (adjacent_pairs (sort_by_strike py_float group)) as [|[a b] ps IH]; simpl.
  - split; [constructor|by exists 0%nat].
  - destruct (Hpairs a b) as [Ha Hb]; [by left|].
    destruct (Hf a b Ha Hb) as [Hall Hlen].
    destruct IH as [IHall [k IHlen]]; [intros ? ? ?; apply Hpairs; by right|].
    split; [by apply Forall_app|].
    rewrite length_app, IHlen.
    destruct Hlen as [->|(r1 & r2 & ->)]; [by exists k|exists (S k); simpl; lia].
Qed.

Lemma id_elem_of (markets : list Market) (m : Market) : m ∈ markets → id m ∈ id <$> markets.
Proof. intros H. by apply list_elem_of_fmap_2. Qed.

Lemma price_range_shape (markets group : list Market) :
  (∀ m, m ∈ group → m ∈ markets) →
  Forall (arbitrage_entry markets)
    (_analyze_price_range_arbitrage py_float range_rationale group)
  ∧ ∃ k, length (_analyze_price_range_arbitrage py_float range_rationale group)
         = (2 * k)%nat.
Proof.
  unfold _analyze_price_range_arbitrage. apply from_pairs_shape.
  intros a b Ha Hb.
  destruct (_ && _); [|split; [constructor|by left]].
  split; [|right; by eexists _, _].
  apply Forall_cons; split; [|apply Forall_cons; split; [|constructor]];
    unfold arbitrage_entry; simpl; repeat split; auto using id_elem_of;
    destruct (10 <? _); auto.
Qed.

Lemma index_shape (markets group : list Market) :
  (∀ m, m ∈ group → m ∈ markets) →
  Forall (arbitrage_entry markets)
    (_analyze_index_arbitrage py_float index_rationale_low index_rationale_high group)
  ∧ ∃ k, length (_analyze_index_arbitrage py_float index_rationale_low
                   index_rationale_high group) = (2 * k)%nat.
Proof.
  unfold _analyze_index_arbitrage. apply from_pairs_shape.
  intros a b Ha Hb.
  destruct (_ && _); [|split; [constructor|by left]].
  split; [|right; by eexists _, _].
  apply Forall_cons; split; [|apply Forall_cons; split; [|constructor]];
    unfold arbitrage_entry; simpl; repeat split; auto using id_elem_of.
Qed.

Lemma filter_all {A} (p : A → bool) (l : list A) :
  Forall (fun x => p x = true) l → List.filter p l = l.
Proof. induction 1 as [|x l Hx _ IH]; simpl; [done|]. by rewrite Hx, IH. Qed.

(** X8. The arbitrage scorer returns its entries in pairs, each tagged
    "arbitrage" with one contract, action "YES" or "NO", confidence "High" or
    "Medium" and the id of one of the given markets; so the manager's filter
    for risk level "medium" drops none of them. From fewer than two markets it
    returns nothing. *)
Theorem arbitrage_result_shape (markets : list Market) :
  let result := arbitrage_analyze py_float range_rationale index_rationale_low
                  index_rationale_high markets in
  Forall (fun r => strategy r = Some "arbitrage" ∧ contracts r = 1
                   ∧ (confidence r = "High" ∨ confidence r = "Medium")
                   ∧ (action r = "YES" ∨ action r = "NO")
                   ∧ market_id r ∈ id <$> markets) result
  ∧ (∃ k, length result = (2 * k)%nat)
  ∧ _filter_by_risk_level result "medium" = result
  ∧ ((length markets ≤ 1)%nat → result = []).
Proof.
  intros result.
  assert (Hshape : Forall (arbitrage_entry markets) result
                   ∧ ∃ k, length result = (2 * k)%nat).
  { subst result. unfold arbitrage_analyze.
    pose proof (group_by_series_elem_of markets) as Hgroups.
    induction (group_by_series markets) as [|[series group] groups IH]; simpl.
    - split; [constructor|by exists 0%nat].
    - assert (Hgroup : ∀ m, m ∈ group → m ∈ markets).
      { intros m Hm. apply Hgroups. simpl. apply elem_of_app. by left. }
      destruct IH as [IHall [k IHlen]].
      { intros m Hm. apply Hgroups. simpl. apply elem_of_app. by right. }
      assert (Hthis : Forall (arbitrage_entry markets)
                        (if len group <? 2 then []
                         else if String.eqb series "KXETH" || String.eqb series "KXBTC"
                         then _analyze_price_range_arbitrage py_float range_rationale group
                         else if String.eqb series "KXNASDAQ100U" || String.eqb series "KXINXU"
                         then _analyze_index_arbitrage py_float index_rationale_low
                                index_rationale_high group
                         else [])
                      ∧ ∃ j, length (if len group <? 2 then []
                         else if String.eqb series "KXETH" || String.eqb series "KXBTC"
                         then _analyze_price_range_arbitrage py_float range_rationale group
                         else if String.eqb series "KXNASDAQ100U" || String.eqb series "KXINXU"
                         then _analyze_index_arbitrage py_float index_rationale_low
                                index_rationale_high group
                         else []) = (2 * j)%nat).
      { destruct (len group <? 2); [split; [constructor|by exists 0%nat]|].
        destruct (_ || _); [by apply price_range_shape|].
        destruct (_ || _); [by apply index_shape|].
        split; [constructor|by exists 0%nat]. }
      destruct Hthis as [Hall [j Hlen]].
      split; [by apply Forall_app|].
      exists (j + k)%nat. rewrite length_app, Hlen, IHlen. lia. }
  destruct Hshape as [Hall Heven].
  split; [exact Hall|]. split; [exact Heven|]. split.
  - unfold _filter_by_risk_level. simpl. apply filter_all.
    eapply Forall_impl; [exact Hall|]. intros r (_ & _ & [-> | ->] & _); done.
  - intros Hlen. subst result. unfold arbitrage_analyze, group_by_series.
    destruct markets as [|m [|m' ms]]; [done| |simpl in Hlen; lia].
    simpl. by destruct (series_of m).
Qed.

End arbitrage_facts.

(** ** market_filter.py: the target-market test *)
Module MarketFilter.
Import Py.

(** [HourlyMarketFilter.is_target_market]. *)
Definition is_target_market (market_id : string) : bool :=
  match market_id with
  | EmptyString => false
  | _ => existsb (fun series => contains series market_id) Strategies.TARGET_SERIES
  end.

End MarketFilter.

(** ** yolo_trading.py: choosing and executing the trades of one cycle *)
Module Yolo.
Import Py.

(** A record of the trade history: the recommendation it copies its fields
    from, the broker's order id, the time it was made, and the strategy and
    risk level of the session. *)
Record Trade := {
  recommendation : Rec;
  order_id : string;
  trade_timestamp : string;
  trade_strategy : string;
  trade_risk_level : string
}.

(** The fields of [YOLOTradingMode] that the trading cycle reads and
    writes. *)
Record State := {
  session_strategy : string;
  risk_level : string;
  max_spend_per_trade : Q;
  max_trades_per_hour : Z;
  max_total_spend : Q;
  trade_history : list Trade;
  total_spent : Q;
  trades_this_hour : Z
}.

(** [any(trade["market_id"] == market_id for trade in self.trade_history)]. *)
Definition already_traded (st : State) (market : string) : bool :=
  existsb (fun trade => String.eqb (market_id (recommendation trade)) market)
    (trade_history st).

(** The tests of the filtering loop: [true] when the entry is kept. *)
Definition acceptable (st : State) (rec : Rec) : bool :=
  negb (String.eqb (lower (confidence rec)) "low"
        && negb (String.eqb (risk_level st) "high"))
  && negb (Qltb (max_spend_per_trade st) (cost rec))
  && negb (already_traded st (market_id rec))
  && MarketFilter.is_target_market (market_id rec).

(** [YOLOTradingMode._get_recommendations], given what the recommendation
    system answered (a result, or an exception that is logged). *)
Definition _get_recommendations (st : State) (answer : Exc Enhanced.Result) : list Rec :=
  match answer with
  | Raise _ => []
  | Ok result =>
      match Enhanced.recommendations result with
      | [] => []
      | recommendations =>
          let filtered_recommendations := List.filter (acceptable st) recommendations in
          let sorted_recommendations :=
            sorted (fun a b => confidence_order (confidence a)
                               <? confidence_order (confidence b))
              true filtered_recommendations in
          let remaining_trades := max_trades_per_hour st - trades_this_hour st in
          slice_to sorted_recommendations remaining_trades
      end
  end.

Section model.
(** The broker call and the clock: the order id and time stamp of a created
    order, [None] when the answer holds no order, or an exception. *)
Variable create_order : Rec → Exc (option (string * string)).

(** [YOLOTradingMode._execute_trade]: the trade record of a successful
    trade, [None] for a result whose status is "error". *)
Definition _execute_trade (st : State) (rec : Rec) : option Trade :=
  if String.eqb (market_id rec) "" || String.eqb (action rec) ""
     || (contracts rec <=? 0) then None
  else if negb (MarketFilter.is_target_market (market_id rec)) then None
  else match create_order rec with
       | Ok (Some (oid, made_at)) =>
           Some {| recommendation := rec; order_id := oid; trade_timestamp := made_at;
                   trade_strategy := session_strategy st;
                   trade_risk_level := risk_level st |}
       | _ => None
       end.

(** The state after a successful trade. [total_spent += cost] is a float
    addition: the sum is rounded, and it is the rounded total that is compared
    with the cap. *)
Definition book (st : State) (trade : Trade) : State :=
  {| session_strategy := session_strategy st; risk_level := risk_level st;
     max_spend_per_trade := max_spend_per_trade st;
     max_trades_per_hour := max_trades_per_hour st;
     max_total_spend := max_total_spend st;
     trade_history := trade_history st ++ [trade];
     total_spent := Float.add (total_spent st) (cost (recommendation trade));
     trades_this_hour := trades_this_hour st + 1 |}.

(** The [for recommendation in recommendations] loop of the trading loop.
    [stop_set] holds what [stop_event.is_set()] answers at the head of each
    round (unset once the list is used up). *)
Fixpoint trade_cycle (stop_set : list bool) (recommendations : list Rec) (st : State)
    : State :=
  match recommendations with
  | [] => st
  | rec :: rest =>
      if hd false stop_set then st
      else if negb (MarketFilter.is_target_market (market_id rec))
      then trade_cycle (tl stop_set) rest st
      else match _execute_trade st rec with
           | Some trade =>
               let st' := book st trade in
               if Qle_bool (max_total_spend st') (total_spent st') then st'
               else if max_trades_per_hour st' <=? trades_this_hour st' then st'
               else trade_cycle (tl stop_set) rest st'
           | None => trade_cycle (tl stop_set) rest st
           end
  end.

End model.
End Yolo.

Section yolo_facts.
Import Py Yolo.

Lemma series_of_target (m : Market) (series : string) :
  Strategies.series_of m = Some series →
  MarketFilter.is_target_market (id m) = true.
Proof.
  unfold Strategies.series_of, MarketFilter.is_target_market. intros H.
  apply List.find_some in H as [Hin Hc].
  assert (Hany : existsb (fun s => contains s (id m)) Strategies.TARGET_SERIES = true).
  { apply existsb_exists. by exists series. }
  destruct (id m) eqn:E; [|exact Hany].
  exfalso. simpl in Hin.
  repeat (destruct Hin as [<-|Hin]; [by vm_compute in Hc|]). done.
Qed.

Lemma selected_entries (st : State) (answer : Exc Enhanced.Result) :
  Forall (fun rec =>
            (cost rec <= max_spend_per_trade st)%Q
            ∧ MarketFilter.is_target_market (market_id rec) = true
            ∧ already_traded st (market_id rec) = false
            ∧ (risk_level st ≠ "high" → lower (confidence rec) ≠ "low")
            ∧ ∃ result, answer = Ok result ∧ rec ∈ Enhanced.recommendations result)
    (_get_recommendations st answer).
Proof.
  unfold _get_recommendations.
  destruct answer as [result|e]; [|constructor].
  destruct (Enhanced.recommendations result) as [|r0 rs] eqn:Hrecs; [constructor|].
  apply slice_to_Forall. rewrite sorted_perm.
  apply List.Forall_forall. intros rec Hrec.
  apply List.filter_In in Hrec as [Hin Hok].
  unfold acceptable in Hok.
  apply andb_true_iff in Hok as [Hok Htarget].
  apply andb_true_iff in Hok as [Hok Hnew].
  apply andb_true_iff in Hok as [Hconf Hcost].
  split.
  { apply negb_true_iff in Hcost. apply Qnot_lt_le. intros Hlt.
    apply Qltb_lt in Hlt. congruence. }
  split; [done|]. split; [by apply negb_true_iff|]. split.
  { intros Hrisk Hlow. apply negb_true_iff, andb_false_iff in Hconf as [Hconf|Hconf].
    - apply String.eqb_neq in Hconf. done.
    - apply negb_false_iff, String.eqb_eq in Hconf. done. }
  exists result. split; [done|]. rewrite Hrecs. by apply list_elem_of_In.
Qed.

(** X9. Of what the recommendation system answered, the automated trader
    selects only entries that cost no more than the cap per trade, whose
    market is a target market and is not yet in the trade history, and, unless
    the risk level is "high", whose confidence is not low in any spelling; the
    selection is ordered by confidence rank, highest first, holds no more
    entries than trades are left for the hour when that number is not
    negative, and is empty when the system raised. *)
Theorem yolo_selection_is_safe (st : State) (answer : Exc Enhanced.Result) :
  let selected := _get_recommendations st answer in
  Forall (fun rec =>
            (cost rec <= max_spend_per_trade st)%Q
            ∧ MarketFilter.is_target_market (market_id rec) = true
            ∧ already_traded st (market_id rec) = false
            ∧ (risk_level st ≠ "high" → lower (confidence rec) ≠ "low")
            ∧ ∃ result, answer = Ok result ∧ rec ∈ Enhanced.recommendations result)
    selected
  ∧ StronglySorted (fun a b => confidence_order (confidence b)
                               ≤ confidence_order (confidence a)) selected
  ∧ (0 ≤ max_trades_per_hour st - trades_this_hour st →
     len selected ≤ max_trades_per_hour st - trades_this_hour st)
  ∧ (∀ e, answer = Raise e → selected = []).
Proof.
  intros selected. split; [apply selected_entries|].
  subst selected. unfold _get_recommendations.
  destruct answer as [result|e]; [|split; [constructor|split; [done|done]]].
  destruct (Enhanced.recommendations result) as [|r0 rs] eqn:Hrecs;
    [split; [constructor|split; [done|done]]|].
  split; [|split; [apply slice_to_length|done]].
  eapply StronglySorted_sublist; [apply slice_to_sublist|].
  apply sorted_StronglySorted.
  - intros a b c Hab Hbc. lia.
  - intros y z H. apply Z.ltb_lt in H. lia.
  - intros y z H. apply Z.ltb_ge in H. lia.
Qed.

End yolo_facts.


Section yolo_cycle.
Import Py Yolo.
Variable create_order : Rec → Exc (option (string * string)).




End yolo_cycle.

(** ** performance_tracking.py: the queries *)
Module TrackerQueries.
Import Py Tracker.

(** A bound of a slice brought into a list of length [n]: a negative bound
    counts from the end, and both directions stop at the ends of the list. *)
Definition slice_index (n i : Z) : Z :=
  if i <? 0 then Z.max 0 (n + i) else Z.min i n.

(** [l[start:stop]]. *)
Definition slice {A} (l : list A) (start stop : Z) : list A :=
  let first := slice_index (len l) start in
  let last := slice_index (len l) stop in
  take (Z.to_nat (last - first)) (drop (Z.to_nat first) l).

(** [if name:] on an optional string: [None] and the empty string are
    both false. *)
Definition given (name : option string) : option string :=
  match name with
  | Some (String c rest) => Some (String c rest)
  | _ => None
  end.

(** [PerformanceTracker.get_recommendations]. *)
Definition get_recommendations (strategy_name status_name : option string)
    (limit offset : Z) (data : PerformanceData) : list PerformanceRecord :=
  let collected :=
    match given strategy_name with
    | Some name => default [] (ledger_lookup name (recommendations data))
    | None => flat_map snd (recommendations data)
    end in
  let filtered :=
    match given status_name with
    | Some wanted => List.filter (fun rec => String.eqb (status rec) wanted) collected
    | None => collected
    end in
  let ordered := sorted (fun a b => timestamp a <? timestamp b) true filtered in
  slice ordered offset (offset + limit).

(** The dictionary [get_performance_by_timeframe] returns. *)
Record Report := {
  timeframe : string;
  report_strategy : string;
  report_win_count : Z;
  report_loss_count : Z;
  report_open_count : Z;
  report_win_rate : Q;
  report_avg_profit : Q;
  report_avg_loss : Q;
  report_total_profit_loss : Q;
  recommendation_count : Z;
  report_last_updated : Z
}.

Section clock.
(** What the clock gives for one day, one week and thirty days before the
    call, in whole seconds. *)
Variables day_ago week_ago month_ago : Z.

Definition cutoff_timestamp (timeframe_name : string) : option Z :=
  if String.eqb timeframe_name "day" then Some day_ago
  else if String.eqb timeframe_name "week" then Some week_ago
  else if String.eqb timeframe_name "month" then Some month_ago
  else None.

(** [PerformanceTracker.get_performance_by_timeframe]. *)
Definition get_performance_by_timeframe (now : Z) (strategy_name : option string)
    (timeframe_name : string) (data : PerformanceData) : Report :=
  let recent := get_recommendations strategy_name None 100 0 data in
  let recs :=
    match cutoff_timestamp timeframe_name with
    | Some cutoff =>
        if cutoff =? 0 then recent
        else List.filter (fun rec => cutoff <=? timestamp rec) recent
    | None => recent
    end in
  let wins := count (has_result "win") recs in
  let losses := count (has_result "loss") recs in
  let opens := count (fun rec => String.eqb (status rec) "open") recs in
  let profits := profit_losses "win" recs in
  let loss_amounts := profit_losses "loss" recs in
  {| timeframe := timeframe_name;
     report_strategy := default "all" (given strategy_name);
     report_win_count := wins;
     report_loss_count := losses;
     report_open_count := opens;
     report_win_rate := if 0 <? wins + losses
                        then (inject_Z wins / inject_Z (wins + losses) * 100)%Q else 0%Q;
     report_avg_profit := average profits;
     report_avg_loss := average loss_amounts;
     report_total_profit_loss := (sum profits + sum loss_amounts)%Q;
     recommendation_count := len recs;
     report_last_updated := now |}.

End clock.
End TrackerQueries.

Section tracker_queries.
Import Py Tracker TrackerQueries.

Lemma slice_sublist {A} (l : list A) (start stop : Z) : slice l start stop `sublist_of` l.
Proof.
  unfold slice. etransitivity; [apply sublist_take|apply sublist_drop].
Qed.

Lemma slice_length {A} (l : list A) (start len_wanted : Z) :
  0 ≤ start → 0 ≤ len_wanted → len (slice l start (start + len_wanted)) ≤ len_wanted.
Proof.
  intros Hs Hw. unfold slice, slice_index, len.
  destruct (Z.ltb_spec start 0); [lia|].
  destruct (Z.ltb_spec (start + len_wanted) 0); [lia|].
  rewrite length_take. lia.
Qed.

Lemma slice_from_start {A} (l : list A) (stop : Z) : slice l 0 stop = slice_to l stop.
Proof.
  unfold slice, slice_to, slice_index, len.
  change (0 <? 0) with false. cbv iota.
  replace (Z.min 0 (Z.of_nat (length l))) with 0 by lia.
  change (Z.to_nat 0) with 0%nat. rewrite drop_0, Z.sub_0_r.
  destruct (Z.ltb_spec stop 0), (Z.leb_spec 0 stop); try lia.
  - destruct (Z.max_spec 0 (Z.of_nat (length l) + stop)) as [[? ->]|[? ->]]; [done|].
    f_equal. lia.
  - destruct (Z.min_spec stop (Z.of_nat (length l))) as [[? ->]|[? ->]]; [done|].
    rewrite Nat2Z.id, firstn_all. symmetry. apply take_ge. lia.
Qed.

(** Consecutive pages tile the list. *)
Lemma slice_pages {A} (l : list A) (start a b : Z) :
  0 ≤ start → 0 ≤ a → 0 ≤ b →
  slice l start (start + a) ++ slice l (start + a) (start + a + b)
  = slice l start (start + (a + b)).
Proof.
  intros Hs Ha Hb. unfold slice, slice_index.
  destruct (Z.ltb_spec start 0); [lia|].
  destruct (Z.ltb_spec (start + a) 0); [lia|].
  destruct (Z.ltb_spec (start + a + b) 0); [lia|].
  destruct (Z.ltb_spec (start + (a + b)) 0); [lia|].
  set (n := len l).
  assert (Hn : 0 ≤ n) by (unfold n, len; lia).
  set (f := Z.min start n). set (m := Z.min (start + a) n).
  set (e := Z.min (start + a + b) n).
  replace (Z.min (start + (a + b)) n) with e by (unfold e; f_equal; lia).
  assert (Hfm : f ≤ m) by (unfold f, m; lia).
  assert (Hme : m ≤ e) by (unfold m, e; lia).
  assert (Hf : 0 ≤ f) by (unfold f; lia).
  replace (Z.to_nat m) with (Z.to_nat f + Z.to_nat (m - f))%nat by lia.
  rewrite <- drop_drop.
  replace (Z.to_nat (e - f)) with (Z.to_nat (m - f) + Z.to_nat (e - m))%nat by lia.
  apply take_take_drop.
Qed.

End tracker_queries.

Section tracker_query_facts.
Import Py Tracker TrackerQueries.

Lemma ledger_lookup_sublist (name : string) (d : list (string * list PerformanceRecord))
    (recs : list PerformanceRecord) :
  ledger_lookup name d = Some recs → recs `sublist_of` flat_map snd d.
Proof.
  induction d as [|[k v] d IH]; simpl; [done|].
  destruct (String.eqb k name).
  - intros [= ->]. apply sublist_inserts_r. done.
  - intros H. apply sublist_inserts_l. by apply IH.
Qed.

Lemma filter_sublist {A} (p : A → bool) (l : list A) : List.filter p l `sublist_of` l.
Proof.
  induction l as [|x l IH]; simpl; [done|].
  destruct (p x); [by apply sublist_skip|by apply sublist_cons].
Qed.

Lemma filter_length_perm {A} (p : A → bool) (l k : list A) :
  l ≡ₚ k → length (List.filter p l) = length (List.filter p k).
Proof.
  induction 1 as [|x l k _ IH|x y l|l k m _ IH1 _ IH2]; simpl.
  - done.
  - destruct (p x); simpl; by rewrite IH.
  - by destruct (p x), (p y).
  - by rewrite IH1.
Qed.

Lemma count_perm (p : PerformanceRecord → bool) (l k : list PerformanceRecord) :
  l ≡ₚ k → count p l = count p k.
Proof. intros H. unfold count, len. by rewrite (filter_length_perm p l k H). Qed.

(** A record has at most one result. *)
Lemma wins_and_losses_apart (recs : list PerformanceRecord) :
  count (has_result "win") recs + count (has_result "loss") recs ≤ len recs.
Proof.
  unfold count, len. induction recs as [|r recs IH]; simpl; [done|].
  assert (H : has_result "win" r && has_result "loss" r = false).
  { unfold has_result. destruct (result r) as [s|]; [|done].
    destruct (String.eqb_spec s "win") as [->|]; done. }
  destruct (has_result "win" r), (has_result "loss" r); simpl in *; try done; lia.
Qed.

(** The list a page is cut from. *)
Lemma page_source (strategy_name status_name : option string) (limit offset : Z)
    (data : PerformanceData) :
  let collected :=
    match given strategy_name with
    | Some name => default [] (ledger_lookup name (recommendations data))
    | None => flat_map snd (recommendations data)
    end in
  let filtered :=
    match given status_name with
    | Some wanted => List.filter (fun rec => String.eqb (status rec) wanted) collected
    | None => collected
    end in
  get_recommendations strategy_name status_name limit offset data ⊆+ filtered
  ∧ filtered `sublist_of` collected
  ∧ collected `sublist_of` flat_map snd (recommendations data).
Proof.
  intros collected filtered. split; [|split].
  - unfold get_recommendations. fold collected. fold filtered.
    etransitivity; [apply sublist_submseteq, slice_sublist|].
    by rewrite sorted_perm.
  - unfold filtered. destruct (given status_name); [apply filter_sublist|done].
  - unfold collected. destruct (given strategy_name) as [name|]; [|done].
    destruct (ledger_lookup name (recommendations data)) as [recs|] eqn:E; simpl.
    + by apply ledger_lookup_sublist in E.
    + apply sublist_nil_l.
Qed.

(** X11. A page of the tracker's ledger, for an offset and a limit that are
    not negative: it holds at most [limit] records, newest first, all of them
    records of the ledger (of the named strategy's list when a strategy is
    given, and with the wanted status when a status is given); and the page
    that starts where it ends continues it, so that both together are the
    page of the two limits added. *)
Theorem tracker_page_is_newest_first (strategy_name status_name : option string)
    (limit offset : Z) (data : PerformanceData) :
  0 ≤ offset → 0 ≤ limit →
  let page := get_recommendations strategy_name status_name limit offset data in
  len page ≤ limit
  ∧ StronglySorted (fun a b => timestamp b ≤ timestamp a) page
  ∧ page ⊆+ flat_map snd (recommendations data)
  ∧ (∀ name, given strategy_name = Some name →
       page ⊆+ default [] (ledger_lookup name (recommendations data)))
  ∧ (∀ wanted, given status_name = Some wanted →
       Forall (fun rec => status rec = wanted) page)
  ∧ (∀ more, 0 ≤ more →
       page ++ get_recommendations strategy_name status_name more (offset + limit) data
       = get_recommendations strategy_name status_name (limit + more) offset data).
Proof.
  intros Hoffset Hlimit page.
  destruct (page_source strategy_name status_name limit offset data) as (Hpage & Hf & Hc).
  fold page in Hpage.
  split; [by apply slice_length|]. split.
  { eapply StronglySorted_sublist; [apply slice_sublist|].
    apply sorted_StronglySorted.
    - intros a b c Hab Hbc. lia.
    - intros y z H. apply Z.ltb_lt in H. lia.
    - intros y z H. apply Z.ltb_ge in H. lia. }
  split.
  { etransitivity; [exact Hpage|]. apply sublist_submseteq.
    etransitivity; [exact Hf|exact Hc]. }
  split.
  { intros name Hname. rewrite Hname in Hpage, Hf.
    etransitivity; [exact Hpage|]. by apply sublist_submseteq. }
  split.
  { intros wanted Hwanted. rewrite Hwanted in Hpage.
    apply List.Forall_forall. intros rec Hrec. apply list_elem_of_In in Hrec.
    apply (elem_of_submseteq _ _ _ Hrec) in Hpage.
    apply list_elem_of_In, List.filter_In in Hpage as [_ Hs].
    by apply String.eqb_eq in Hs. }
  intros more Hmore. unfold page, get_recommendations.
  rewrite slice_pages by done. done.
Qed.

Section clock.
Variables day_ago week_ago month_ago : Z.

(** X12. The report by time frame is computed from one page of the ledger:
    it never counts more than the 100 newest records, and its wins and
    losses together never exceed that count. For a strategy whose list holds
    at most 100 records and a time frame without a cutoff (any name but
    "day", "week" and "month"), the report counts what the aggregate computed
    from that list counts: the same wins, losses and open records, and so the
    same win rate. (The averages and the total are float sums taken newest
    first in the report and in ledger order in the aggregate; they are not
    compared.) *)
Theorem timeframe_report_reads_one_page (now : Z) (strategy_name : option string)
    (timeframe_name : string) (data : PerformanceData) :
  let report := get_performance_by_timeframe day_ago week_ago month_ago now
                  strategy_name timeframe_name data in
  0 ≤ recommendation_count report ≤ 100
  ∧ report_win_count report + report_loss_count report ≤ recommendation_count report
  ∧ (∀ name recs,
       given strategy_name = Some name →
       ledger_lookup name (recommendations data) = Some recs →
       (length recs ≤ 100)%nat →
       cutoff_timestamp day_ago week_ago month_ago timeframe_name = None →
       let aggregate := metrics name now recs in
       recommendation_count report = len recs
       ∧ report_win_count report = win_count aggregate
       ∧ report_loss_count report = loss_count aggregate
       ∧ report_open_count report = open_count aggregate
       ∧ report_win_rate report = win_rate aggregate).
Proof.
  intros report.
  assert (Hrecent : len (get_recommendations strategy_name None 100 0 data) ≤ 100).
  { change 100 with (0 + 100) at 1. by apply slice_length. }
  split; [|split].
  - unfold report, get_performance_by_timeframe. simpl.
    split; [unfold len; lia|].
    destruct (cutoff_timestamp _ _ _ _) as [cutoff|]; [|done].
    destruct (cutoff =? 0); [done|].
    etransitivity; [|exact Hrecent]. unfold len.
    apply inj_le, sublist_length, filter_sublist.
  - unfold report, get_performance_by_timeframe. simpl. apply wins_and_losses_apart.
  - intros name recs Hname Hlook Hlen Hcut aggregate.
    assert (Hperm : get_recommendations strategy_name None 100 0 data ≡ₚ recs).
    { unfold get_recommendations. rewrite Hname, Hlook. simpl.
      change (0 + 100) with 100. rewrite slice_from_start. unfold slice_to. simpl.
      rewrite take_ge; [apply sorted_perm|].
      rewrite (Permutation_length (sorted_perm _ _ _)).
      change (Pos.to_nat 100) with 100%nat. lia. }
    unfold report, aggregate, get_performance_by_timeframe, metrics. rewrite Hcut. simpl.
    set (page := get_recommendations strategy_name None 100 0 data) in *.
    rewrite (count_perm (has_result "win") _ _ Hperm).
    rewrite (count_perm (has_result "loss") _ _ Hperm).
    rewrite (count_perm (fun rec => String.eqb (status rec) "open") _ _ Hperm).
    split; [unfold len; by rewrite (Permutation_length Hperm)|].
    split; [done|]. split; [done|]. split; done.
Qed.

End clock.
End tracker_query_facts.

Section tracker_updates.
Import Py Tracker.

Lemma update_first_split (rid : string) (f : PerformanceRecord → PerformanceRecord)
    (recs recs' : list PerformanceRecord) :
  update_first rid f recs = Some recs' →
  ∃ l1 rec l2, recs = l1 ++ rec :: l2 ∧ (rid ∉ id <$> l1) ∧ id rec = rid
               ∧ recs' = l1 ++ f rec :: l2.
Proof.
  revert recs'. induction recs as [|r recs IH]; intros recs'; simpl; [done|].
  destruct (String.eqb_spec (id r) rid) as [Heq|Hne].
  - intros [= <-]. exists [], r, recs. split; [done|].
    split; [apply not_elem_of_nil|done].
  - destruct (update_first rid f recs) as [recs''|]; [|done].
    intros [= <-]. destruct (IH recs'' eq_refl) as (l1 & rec & l2 & -> & Hfresh & Hid & ->).
    exists (r :: l1), rec, l2. split; [done|]. split; [|done].
    rewrite fmap_cons, not_elem_of_cons. split; [congruence|done].
Qed.

Lemma ledger_lookup_key (k : string) (d : list (string * list PerformanceRecord))
    (recs : list PerformanceRecord) :
  ledger_lookup k d = Some recs → k ∈ fst <$> d.
Proof.
  induction d as [|[k' v] d IH]; simpl; [done|].
  destruct (String.eqb_spec k' k) as [->|Hne]; intros H.
  - apply list_elem_of_here.
  - apply list_elem_of_further. by apply IH.
Qed.

Lemma update_ledger_split (rid : string) (f : PerformanceRecord → PerformanceRecord)
    (d d' : list (string * list PerformanceRecord)) (found : string) :
  update_ledger rid f d = Some (found, d') →
  fst <$> d' = fst <$> d
  ∧ (∃ l1 rec l2, flat_map snd d = l1 ++ rec :: l2 ∧ (rid ∉ id <$> l1) ∧ id rec = rid
                  ∧ flat_map snd d' = l1 ++ f rec :: l2)
  ∧ (∀ other, other ≠ found → ledger_lookup other d' = ledger_lookup other d)
  ∧ (NoDup (fst <$> d) →
     ∃ recs recs', ledger_lookup found d = Some recs
                   ∧ ledger_lookup found d' = Some recs'
                   ∧ update_first rid f recs = Some recs').
Proof.
  revert d'. induction d as [|[k recs] d IH]; intros d'; simpl; [done|].
  destruct (update_first rid f recs) as [recs'|] eqn:Hfirst.
  - intros [= <- <-]. split; [done|]. split; [|split].
    + destruct (update_first_split _ _ _ _ Hfirst) as (l1 & rec & l2 & -> & Hfresh & Hid & ->).
      exists l1, rec, (l2 ++ flat_map snd d). simpl.
      split; [by rewrite <- app_assoc|]. split; [done|]. split; [done|].
      by rewrite <- app_assoc.
    + intros other Hother. simpl.
      destruct (String.eqb_spec k other); [congruence|done].
    + intros _. exists recs, recs'. simpl. by rewrite String.eqb_refl.
  - destruct (update_ledger rid f d) as [[found' d'']|] eqn:Hrest; [|done].
    intros [= <- <-].
    destruct (IH d'' eq_refl) as (Hkeys & (l1 & rec & l2 & Hd & Hfresh & Hid & Hd') & Hframe & Hlook).
    split; [by rewrite !fmap_cons, Hkeys|]. split; [|split].
    + exists (recs ++ l1), rec, l2. simpl. rewrite Hd, Hd'.
      split; [by rewrite <- app_assoc|]. split; [|split; [done|by rewrite <- app_assoc]].
      rewrite fmap_app, not_elem_of_app. split; [|done].
      assert (Hnone : update_first rid f recs = None → rid ∉ id <$> recs).
      { clear. induction recs as [|r recs IHr]; simpl; [intros _; apply not_elem_of_nil|].
        destruct (String.eqb_spec (id r) rid) as [|Hne]; [done|].
        destruct (update_first rid f recs); [done|]. intros _.
        rewrite not_elem_of_cons. split; [congruence|by apply IHr]. }
      by apply Hnone.
    + intros other Hother. simpl.
      destruct (String.eqb k other); [done|by apply Hframe].
    + intros Hnodup. simpl in Hnodup. apply NoDup_cons in Hnodup as [Hk Hnodup].
      destruct (Hlook Hnodup) as (recs0 & recs0' & H0 & H0' & Hup).
      exists recs0, recs0'. simpl.
      destruct (String.eqb_spec k found') as [->|Hne]; [|done].
      exfalso. apply Hk. by apply ledger_lookup_key in H0.
Qed.

Lemma update_ledger_finds (rid : string) (f : PerformanceRecord → PerformanceRecord)
    (d : list (string * list PerformanceRecord)) :
  rid ∈ id <$> flat_map snd d → is_Some (update_ledger rid f d).
Proof.
  intros Hin. destruct (update_ledger rid f d) eqn:E; [by eexists|].
  exfalso. clear -Hin E.
  induction d as [|[k recs] d IH]; simpl in *; [by apply elem_of_nil in Hin|].
  destruct (update_first rid f recs) as [recs'|] eqn:Hfirst; [done|].
  destruct (update_ledger rid f d) as [[found d'']|]; [done|].
  rewrite fmap_app in Hin. apply elem_of_app in Hin as [Hin|Hin]; [|by apply IH].
  clear -Hin Hfirst. induction recs as [|r recs IHr]; simpl in *; [by apply elem_of_nil in Hin|].
  destruct (String.eqb_spec (id r) rid) as [|Hne]; [done|].
  destruct (update_first rid f recs); [done|].
  apply elem_of_cons in Hin as [Hin|Hin]; [congruence|by apply IHr].
Qed.

(** X13. An update by an id of the ledger succeeds and changes one record
    only: the first one with that id in the order the strategies and their
    lists are scanned. The strategies, the order of the records and their ids
    stay as they were, and a later record with the same id is left
    untouched. *)
Theorem update_changes_the_first_match_only (now : Z) (recommendation_id new_status : string)
    (exit : option Q) (note : option string) (data : PerformanceData) :
  recommendation_id ∈ ledger_ids data →
  let outcome := update_recommendation_status now recommendation_id new_status exit note data in
  fst outcome = true
  ∧ fst <$> recommendations (snd outcome) = fst <$> recommendations data
  ∧ ledger_ids (snd outcome) = ledger_ids data
  ∧ ∃ before rec after,
      flat_map snd (recommendations data) = before ++ rec :: after
      ∧ (recommendation_id ∉ id <$> before)
      ∧ id rec = recommendation_id
      ∧ flat_map snd (recommendations (snd outcome))
        = before ++ apply_update now new_status exit note rec :: after.
Proof.
  intros Hin outcome. unfold outcome, update_recommendation_status.
  destruct (update_ledger_finds _ (apply_update now new_status exit note) _ Hin)
    as [[found d'] Hup].
  rewrite Hup.
  destruct (update_ledger_split _ _ _ _ _ Hup) as (Hkeys & (l1 & rec & l2 & Hd & Hfresh & Hid & Hd') & _).
  assert (Hsame : recommendations
            (snd (_update_strategy_performance now found
               {| recommendations := d'; performance := performance data |})) = d').
  { unfold _update_strategy_performance. simpl. by destruct (ledger_lookup found d'). }
  simpl. rewrite Hsame. split; [done|]. split; [done|]. split.
  - unfold ledger_ids. rewrite Hsame, Hd, Hd', !fmap_app, !fmap_cons.
    by rewrite apply_update_id.
  - by exists l1, rec, l2.
Qed.

(** X14. With the ledger's strategies distinct (it is a dictionary), an
    update by an id of the ledger refreshes exactly one stored aggregate: the
    one of the strategy whose list holds the changed record, which becomes
    the aggregate computed from that list after the change; the lists and the
    stored aggregates of all other strategies are as before. *)
Theorem update_refreshes_one_aggregate (now : Z) (recommendation_id new_status : string)
    (exit : option Q) (note : option string) (data : PerformanceData) :
  NoDup (fst <$> recommendations data) →
  recommendation_id ∈ ledger_ids data →
  let data' := snd (update_recommendation_status now recommendation_id new_status exit
                      note data) in
  ∃ found recs recs',
    ledger_lookup found (recommendations data) = Some recs
    ∧ update_first recommendation_id (apply_update now new_status exit note) recs
      = Some recs'
    ∧ ledger_lookup found (recommendations data') = Some recs'
    ∧ performance data' = <[found := metrics found now recs']> (performance data)
    ∧ fst (get_strategy_performance now found data') = metrics found now recs'
    ∧ ∀ other, other ≠ found →
        ledger_lookup other (recommendations data')
        = ledger_lookup other (recommendations data)
        ∧ performance data' !! other = performance data !! other.
Proof.
  intros Hnodup Hin data'. unfold data', update_recommendation_status.
  destruct (update_ledger_finds _ (apply_update now new_status exit note) _ Hin)
    as [[found d'] Hup].
  rewrite Hup.
  destruct (update_ledger_split _ _ _ _ _ Hup) as (_ & _ & Hframe & Hlook).
  destruct (Hlook Hnodup) as (recs & recs' & H0 & H0' & Hfirst).
  exists found, recs, recs'. unfold _update_strategy_performance. simpl.
  rewrite H0'. simpl. split; [done|]. split; [done|]. split; [done|]. split; [done|].
  split.
  - unfold get_strategy_performance. simpl. by rewrite lookup_insert_eq.
  - intros other Hother. split; [by apply Hframe|].
    by rewrite lookup_insert_ne.
Qed.

End tracker_updates.

Section tracker_aggregates.
Import Py Tracker.

(** A share of a positive whole, as a percentage. *)
Lemma percentage_bounds (part whole : Z) :
  0 ≤ part ≤ whole → 0 < whole →
  (0 <= inject_Z part / inject_Z whole * 100 <= 100)%Q.
Proof.
  intros Hpart Hwhole.
  destruct whole as [|p|p]; [lia| |lia].
  unfold Qle, Qdiv, Qmult, Qinv, inject_Z. simpl.
  split; nia.
Qed.

Lemma count_bounds (p : PerformanceRecord → bool) (recs : list PerformanceRecord) :
  0 ≤ count p recs ≤ len recs.
Proof.
  unfold count, len. split; [lia|].
  apply inj_le, sublist_length, filter_sublist.
Qed.

Lemma count_filter_le (p q : PerformanceRecord → bool) (recs : list PerformanceRecord) :
  (∀ rec, rec ∈ recs → p rec = true → q rec = true) →
  count p recs ≤ len (List.filter q recs).
Proof.
  unfold count, len. intros H. apply inj_le.
  induction recs as [|r recs IH]; simpl; [done|].
  assert (IH' : (length (List.filter p recs) ≤ length (List.filter q recs))%nat).
  { apply IH. intros rec Hrec. apply H. by apply list_elem_of_further. }
  destruct (p r) eqn:Hp.
  - rewrite (H r (list_elem_of_here _ _) Hp). simpl. lia.
  - destruct (q r); simpl; lia.
Qed.

(** X15. The aggregate computed from a strategy's records: the counts are
    not negative, wins and losses together do not exceed the number of
    records, and the win rate lies between 0 and 100. The accuracy divides
    the wins among all records by the number of closed records: it lies
    between 0 and 100 when every record with result "win" has status
    "closed". *)
Theorem aggregate_is_bounded (strategy_name : string) (now : Z)
    (recs : list PerformanceRecord) :
  let aggregate := metrics strategy_name now recs in
  0 ≤ win_count aggregate
  ∧ 0 ≤ loss_count aggregate
  ∧ 0 ≤ open_count aggregate ≤ len recs
  ∧ win_count aggregate + loss_count aggregate ≤ len recs
  ∧ (0 <= win_rate aggregate <= 100)%Q
  ∧ (0 <= accuracy aggregate)%Q
  ∧ (Forall (fun rec => result rec = Some "win" → status rec = "closed") recs →
     (accuracy aggregate <= 100)%Q).
Proof.
  intros aggregate. unfold aggregate, metrics. simpl.
  pose proof (count_bounds (has_result "win") recs) as Hw.
  pose proof (count_bounds (has_result "loss") recs) as Hl.
  pose proof (count_bounds (fun r => String.eqb (status r) "open") recs) as Ho.
  split; [lia|]. split; [lia|]. split; [done|].
  split; [apply wins_and_losses_apart|]. split.
  { destruct (Z.ltb_spec 0 (count (has_result "win") recs + count (has_result "loss") recs)).
    - apply percentage_bounds; lia.
    - done. }
  set (closed_recs := List.filter (fun r => String.eqb (status r) "closed") recs).
  assert (Hshare : 0 ≤ count (has_result "win") recs ≤ len closed_recs →
                   (0 <= match closed_recs with
                         | [] => 0
                         | _ => inject_Z (count (has_result "win") recs)
                                / inject_Z (len closed_recs) * 100
                         end <= 100)%Q).
  { intros Hshare. destruct closed_recs as [|c cs] eqn:E; [done|].
    apply percentage_bounds; [done|]. unfold len. simpl. lia. }
  split.
  - destruct closed_recs as [|c cs] eqn:E; [done|].
    destruct (len (c :: cs)) as [|p|p] eqn:Ep; [done| |unfold len in Ep; simpl in Ep; lia].
    unfold Qle, Qdiv, Qmult, Qinv, inject_Z. simpl. nia.
  - intros Hclosed. apply Hshare. split; [lia|].
    apply count_filter_le. intros rec Hrec Hwin.
    rewrite List.Forall_forall in Hclosed.
    apply String.eqb_eq, Hclosed; [by apply list_elem_of_In|].
    unfold has_result in Hwin. destruct (result rec) as [s|]; [|done].
    by apply String.eqb_eq in Hwin as ->.
Qed.

Section record.
Variable generated_id : Z → Recommendation → string.

Lemma lookup_appended_other (key other : string) (rec : PerformanceRecord)
    (d : list (string * list PerformanceRecord)) :
  other ≠ key →
  ledger_lookup other (Strategies.group_append key rec d) = ledger_lookup other d.
Proof.
  intros Hne. induction d as [|[k xs] d IH]; simpl.
  - destruct (String.eqb_spec key other); [congruence|done].
  - destruct (String.eqb_spec k key) as [->|Hk]; simpl.
    + destruct (String.eqb_spec key other); [congruence|done].
    + by rewrite IH.
Qed.

Lemma group_append_keys {A} (key : string) (x : A) (d : list (string * list A)) :
  fst <$> Strategies.group_append key x d
  = if bool_decide (key ∈ fst <$> d) then fst <$> d else (fst <$> d) ++ [key].
Proof.
  induction d as [|[k xs] d IH]; [done|].
  cbn [Strategies.group_append].
  destruct (String.eqb_spec k key) as [->|Hk]; rewrite !fmap_cons; cbn [fst].
  - rewrite bool_decide_eq_true_2; [done|]. apply list_elem_of_here.
  - rewrite IH.
    destruct (bool_decide (key ∈ fst <$> d)) eqn:E.
    + rewrite bool_decide_eq_true_2; [done|].
      apply bool_decide_eq_true in E. by apply list_elem_of_further.
    + rewrite bool_decide_eq_false_2; [done|].
      apply bool_decide_eq_false in E. rewrite not_elem_of_cons. split; [congruence|done].
Qed.

Lemma group_append_ids (key : string) (rec : PerformanceRecord)
    (d : list (string * list PerformanceRecord)) :
  id <$> flat_map snd (Strategies.group_append key rec d)
  ≡ₚ (id <$> flat_map snd d) ++ [id rec].
Proof.
  induction d as [|[k xs] d IH]; [done|].
  cbn [Strategies.group_append]. destruct (String.eqb k key); cbn [flat_map snd].
  - rewrite !fmap_app. rewrite <- !app_assoc.
    apply Permutation_app_head, Permutation_app_comm.
  - rewrite !fmap_app, IH. by rewrite <- app_assoc.
Qed.

(** X16. Recording a recommendation that has at least one key appends one
    record to the end of its strategy's list ("unknown" when it has no
    strategy): a record that is open, without exit or result, stamped with the
    current time. A strategy seen for the first time becomes the last key of
    the ledger; the lists of the other strategies, the uniqueness of the
    keys and all stored aggregates are left as they were, so the stored
    counts are not refreshed by recording. An empty recommendation changes
    nothing. *)
Theorem record_appends_one_open_record (now : Z) (recommendation : Recommendation)
    (data : PerformanceData) :
  let data' := snd (record_recommendation generated_id now recommendation data) in
  let name := default "unknown" (rec_strategy recommendation) in
  (is_empty recommendation = true → data' = data)
  ∧ (is_empty recommendation = false →
     performance data' = performance data
     ∧ (∃ record,
          ledger_lookup name (recommendations data')
          = Some (default [] (ledger_lookup name (recommendations data)) ++ [record])
          ∧ ledger_ids data' ≡ₚ ledger_ids data ++ [id record]
          ∧ id record = default (generated_id now recommendation) (rec_id recommendation)
          ∧ strategy record = name ∧ status record = "open" ∧ timestamp record = now
          ∧ exit_price record = None ∧ result record = None
          ∧ profit_loss record = None)
     ∧ (∀ other, other ≠ name →
          ledger_lookup other (recommendations data')
          = ledger_lookup other (recommendations data))
     ∧ fst <$> recommendations data'
       = (if bool_decide (name ∈ fst <$> recommendations data)
          then fst <$> recommendations data
          else (fst <$> recommendations data) ++ [name])
     ∧ (NoDup (fst <$> recommendations data) → NoDup (fst <$> recommendations data'))).
Proof.
  intros data' name. unfold data', record_recommendation.
  destruct (is_empty recommendation); (split; [done|]); [done|]. intros _. simpl.
  fold name. split; [done|]. split; [|split; [|split]].
  - eexists. split; [apply lookup_appended|].
    split; [apply group_append_ids|]. simpl. repeat split.
  - intros other Hother. by apply lookup_appended_other.
  - apply group_append_keys.
  - intros Hnodup. rewrite group_append_keys.
    destruct (bool_decide (name ∈ fst <$> recommendations data)) eqn:E; [done|].
    apply bool_decide_eq_false in E.
    apply NoDup_app. split; [done|]. split; [|apply NoDup_singleton].
    intros x Hx Hx'. apply list_elem_of_singleton in Hx'. congruence.
Qed.

End record.
End tracker_aggregates.

Section enhanced_cache.
Import Py Enhanced.
Local Arguments Recommender.member : simpl never.
Variable openai_enabled use_enhanced_model cache_enabled : bool.
Variable cache_ttl : Q.
Variable enhanced_openai_model : list Market → string → Z → string → Exc (list Rec).
Variable hybrid_model : list Market → string → Z → string → Exc (list Rec).
Variable rule_based_model : list Market → string → Z → string → Exc (list Rec).
Variable strategy_manager : string → list Market → Z → string → Exc (list Rec).

Local Abbreviation request :=
  (get_recommendations openai_enabled use_enhanced_model cache_enabled
     cache_ttl enhanced_openai_model hybrid_model rule_based_model strategy_manager).

(** What a request that answers does to the cache: nothing when it served
    the cache or found no market, one written file when it generated. *)
Lemma request_outcomes (files : Files) (now : Q) (market_data : Exc (list Market))
    (strategy : string) (max_recommendations : Z) (risk_level : string)
    (force_refresh : bool) (result : Result) :
  fst (request files now market_data strategy max_recommendations risk_level force_refresh)
  = Ok result →
  let files' := snd (request files now market_data strategy max_recommendations
                       risk_level force_refresh) in
  (cached result = true ∧ files' = files)
  ∨ (cached result = false ∧ message result = Some "No target hourly markets found"
     ∧ recommendations result = [] ∧ files' = files)
  ∨ (cached result = false ∧ message result = None ∧ timestamp result = now
     ∧ files' = if cache_enabled
                then <[Recommender.cache_file strategy risk_level := file_of result]> files
                else files).
Proof.
  unfold get_recommendations.
  destruct (Recommender.member (lower strategy) valid_strategies); simpl; [|done].
  destruct (Recommender.member (lower risk_level) valid_risk_levels); simpl; [|done].
  destruct (cache_hit cache_enabled cache_ttl files now strategy risk_level force_refresh)
    as [cached_data|].
  { simpl. intros Hserve. left. split; [|done].
    revert Hserve. unfold serve.
    destruct (file_recommendations cached_data); [|done].
    destruct (file_timestamp cached_data); [|done].
    destruct (file_source cached_data); [|done]. by intros [= <-]. }
  unfold generate.
  destruct market_data as [[|m ms]|e]; simpl; [| |done].
  { intros [= <-]. right. left. done. }
  destruct (if Recommender.member (lower strategy) manager_strategies then _ else _)
    as [[recs src]|e]; simpl; [|done].
  intros [= <-]. right. right. done.
Qed.

(** A request that raises leaves the cache as it was. *)
Lemma raising_request_writes_nothing (files : Files) (now : Q)
    (market_data : Exc (list Market)) (strategy : string) (max_recommendations : Z)
    (risk_level : string) (force_refresh : bool) (e : string) :
  fst (request files now market_data strategy max_recommendations risk_level force_refresh)
  = Raise e →
  snd (request files now market_data strategy max_recommendations risk_level force_refresh)
  = files.
Proof.
  unfold get_recommendations.
  destruct (Recommender.member (lower strategy) valid_strategies); simpl; [|done].
  destruct (Recommender.member (lower risk_level) valid_risk_levels); simpl; [|done].
  destruct (cache_hit _ _ _ _ _ _ _); [done|].
  unfold generate.
  destruct market_data as [[|m ms]|e']; simpl; [done| |done].
  destruct (if Recommender.member (lower strategy) manager_strategies then _ else _)
    as [[recs src]|e']; simpl; done.
Qed.

(** X17. The enhanced system serves what it generated, an empty list
    included: after a request that generated a result with caching switched
    on, a request for the same strategy and risk level that is not forced and
    comes no later than the time to live is answered from the cache file,
    marked as cached, with the generated list cut to the number now asked
    for and the time and source of the generation; it neither asks for market
    data nor writes to the cache. *)
Theorem enhanced_serves_what_it_cached (files : Files) (now later : Q)
    (market_data market_data' : Exc (list Market)) (strategy : string)
    (max_recommendations max_recommendations' : Z) (risk_level : string)
    (force_refresh : bool) (result : Result) :
  cache_enabled = true →
  fst (request files now market_data strategy max_recommendations risk_level force_refresh)
  = Ok result →
  cached result = false →
  message result = None →
  (later - now <= cache_ttl)%Q →
  let files' := snd (request files now market_data strategy max_recommendations
                       risk_level force_refresh) in
  request files' later market_data' strategy max_recommendations' risk_level false
  = (Ok {| recommendations := slice_to (recommendations result) max_recommendations';
           timestamp := now; source := source result;
           result_strategy := strategy; result_risk_level := risk_level;
           cached := true; message := None |}, files').
Proof.
  intros Hcache Hfirst Hfresh Hmessage Hage files'.
  destruct (request_outcomes _ _ _ _ _ _ _ _ Hfirst)
    as [[Hc _]|[(_ & Hm & _)|(_ & _ & Hnow & Hfiles)]]; [congruence|congruence|].
  fold files' in Hfiles. rewrite Hcache in Hfiles.
  assert (Hvalid : Recommender.member (lower strategy) valid_strategies = true
                   ∧ Recommender.member (lower risk_level) valid_risk_levels = true).
  { revert Hfirst. unfold get_recommendations.
    destruct (Recommender.member (lower strategy) valid_strategies); simpl; [|done].
    destruct (Recommender.member (lower risk_level) valid_risk_levels); simpl; done. }
  destruct Hvalid as [Hs Hr].
  unfold get_recommendations. rewrite Hs, Hr. simpl.
  unfold cache_hit, cache_read, _get_cached_recommendations. rewrite Hcache. simpl.
  rewrite Hfiles, lookup_insert_eq.
  change (default 0%Q (file_timestamp (file_of result))) with (timestamp result).
  rewrite Hnow.
  assert (Hlive : Qltb cache_ttl (later - now) = false).
  { destruct (Qltb cache_ttl (later - now)) eqn:E; [|done].
    apply Qltb_lt in E. exfalso. by apply (Qlt_not_le _ _ E). }
  rewrite Hlive. unfold serve. cbn. by rewrite Hnow.
Qed.

(** X18. What a request to the enhanced system can do to the cache: it
    never touches the file of another strategy or risk level; it changes
    nothing when caching is switched off, when it raises, when it serves the
    cache or when no target market was found; and a strategy or risk level
    outside the accepted names raises before anything is read. *)
Theorem enhanced_request_writes_its_own_file (files : Files) (now : Q)
    (market_data : Exc (list Market)) (strategy : string) (max_recommendations : Z)
    (risk_level : string) (force_refresh : bool) :
  let outcome := request files now market_data strategy max_recommendations risk_level
                   force_refresh in
  (∀ name, name ≠ Recommender.cache_file strategy risk_level →
     snd outcome !! name = files !! name)
  ∧ (cache_enabled = false → snd outcome = files)
  ∧ (∀ e, fst outcome = Raise e → snd outcome = files)
  ∧ (∀ result, fst outcome = Ok result →
       cached result = true ∨ message result ≠ None → snd outcome = files)
  ∧ (Recommender.member (lower strategy) valid_strategies = false →
     outcome = (Raise ("Invalid strategy: " ++ strategy ++ ". Must be one of "
                       ++ Recommender.repr_list valid_strategies)%string, files))
  ∧ (Recommender.member (lower strategy) valid_strategies = true →
     Recommender.member (lower risk_level) valid_risk_levels = false →
     outcome = (Raise ("Invalid risk level: " ++ risk_level ++ ". Must be one of "
                       ++ Recommender.repr_list valid_risk_levels)%string, files)).
Proof.
  intros outcome.
  assert (Hcases : snd outcome = files
                   ∨ ∃ result, fst outcome = Ok result ∧ cache_enabled = true
                       ∧ cached result = false ∧ message result = None
                       ∧ snd outcome
                         = <[Recommender.cache_file strategy risk_level := file_of result]>
                             files).
  { destruct (fst outcome) as [result|e] eqn:Hout.
    - destruct (request_outcomes _ _ _ _ _ _ _ _ Hout)
        as [[_ H]|[(_ & _ & _ & H)|(Hc & Hm & _ & H)]]; [by left|by left|].
      destruct cache_enabled; [|by left]. right. by exists result.
    - left. by apply (raising_request_writes_nothing _ _ _ _ _ _ _ e). }
  split; [|split; [|split; [|split; [|split]]]].
  - intros name Hname. destruct Hcases as [->|(result & _ & _ & _ & _ & ->)]; [done|].
    by rewrite lookup_insert_ne.
  - intros Hoff. destruct Hcases as [H|(result & _ & Hon & _)]; [done|congruence].
  - intros e He. destruct Hcases as [H|(result & Hok & _)]; [done|congruence].
  - intros result Hok Hserved.
    destruct Hcases as [H|(result' & Hok' & _ & Hc & Hm & _)]; [done|].
    assert (result' = result) as -> by congruence.
    destruct Hserved; congruence.
  - intros Hs. unfold outcome, get_recommendations. by rewrite Hs.
  - intros Hs Hr. unfold outcome, get_recommendations. by rewrite Hs, Hr.
Qed.

End enhanced_cache.

(** ** trading_strategies.py: the volatility strategy *)
Module Volatility.
Import Py.

(** [range(n)]. *)
Definition range (n : Z) : list Z := seqZ 0 n.

(** One round of the simulation loop: the price after the variation, kept
    within 5 and 95. *)
Definition next_price (i base_price : Z) : Z :=
  let random_factor := (i mod 3 - 1) * 5 in
  Z.max 5 (Z.min 95 (base_price + random_factor)).

(** The inner loop of the simulation over the given rounds. *)
Fixpoint price_walk (rounds : list Z) (base_price : Z) : list Z :=
  match rounds with
  | [] => []
  | i :: rest =>
      let price := next_price i base_price in
      price :: price_walk rest price
  end.

(** [VolatilityStrategy._generate_simulated_historical_data]: a dictionary
    from market id to ten prices; a later market with the same id replaces
    the entry. The bid is read with this strategy's default. *)
Definition _generate_simulated_historical_data (markets : list Market)
    : gmap string (list Q) :=
  foldl (fun historical_data market =>
           <[id market := inject_Z <$> price_walk (range 10) (yes_bid market)]>
             historical_data)
    ∅ markets.

(** The dictionary [_calculate_volatility] returns. *)
Record VolatilityData := {
  current_price : Z;
  mean_price : Q;
  std_dev : Q;
  is_uptrend : bool;
  is_downtrend : bool;
  volatility_ratio : Q;
  is_high_volatility : bool;
  price_deviation : Q;
  expect_reversion : bool
}.

(** [statistics.mean] of a list that is not empty. *)
Definition mean (xs : list Q) : Q := (foldr Qplus 0 xs / inject_Z (len xs))%Q.

Section model.
(** [statistics.stdev]: the sample standard deviation, a square root. *)
Variable stdev : list Q → Q.
(** The texts formatted from the current and the mean price. *)
Variable above_rationale below_rationale : Z → Q → string.

(** [VolatilityStrategy._calculate_volatility]: [statistics.mean] raises on
    an empty list, and the division by a zero deviation raises. *)
Definition _calculate_volatility (market : Market) (historical_prices : list Q)
    : Exc VolatilityData :=
  match historical_prices with
  | [] => Raise "StatisticsError"
  | _ =>
      let current := yes_bid market in
      let mean_value := mean historical_prices in
      let deviation := if 1 <? len historical_prices
                       then stdev historical_prices else 5%Q in
      let recent_prices :=
        if 5 <=? len historical_prices
        then drop (length historical_prices - 5) historical_prices
        else historical_prices in
      let uptrend :=
        forallb (fun pair => Qle_bool (fst pair) (snd pair))
          (Strategies.adjacent_pairs recent_prices) in
      let downtrend :=
        forallb (fun pair => Qle_bool (snd pair) (fst pair))
          (Strategies.adjacent_pairs recent_prices) in
      let ratio := (deviation / 5)%Q in
      if Qeq_bool deviation 0 then Raise "ZeroDivisionError"
      else
        let distance := (Qabs (inject_Z current - mean_value) / deviation)%Q in
        Ok {| current_price := current; mean_price := mean_value;
              std_dev := deviation; is_uptrend := uptrend;
              is_downtrend := downtrend; volatility_ratio := ratio;
              is_high_volatility := Qltb (15 # 10) ratio;
              price_deviation := distance;
              expect_reversion := Qltb (15 # 10) distance
                                  && negb (uptrend || downtrend) |}
  end.

Definition entry (market : Market) (act : string) (text : string)
    (exit stop : Q) : Rec :=
  {| market := title market; market_id := id market; action := act;
     probability := if String.eqb act "NO" then inject_Z (100 - yes_bid market)
                    else inject_Z (default 50 (yes_ask market));
     contracts := 1;
     cost := (if String.eqb act "NO" then inject_Z (no_ask market) / 100
              else inject_Z (default 50%Z (yes_ask market)) / 100)%Q;
     target_exit := exit; stop_loss := stop; confidence := "Medium";
     rationale := text; strategy := Some "volatility" |}.

(** What the loop appends for one market. *)
Definition candidate (market : Market) (data : VolatilityData) : list Rec :=
  let price := inject_Z (current_price data) in
  if is_high_volatility data then
    if expect_reversion data then
      if Qltb (mean_price data + std_dev data) price then
        [entry market "NO" (above_rationale (current_price data) (mean_price data))
           (mean_price data) (price + 10)%Q]
      else if Qltb price (mean_price data - std_dev data) then
        [entry market "YES" (below_rationale (current_price data) (mean_price data))
           (mean_price data) (price - 10)%Q]
      else []
    else if is_uptrend data then
      [entry market "YES"
         "High volatility with strong uptrend. Momentum suggests continued price increase."
         (price + 10)%Q (price - 5)%Q]
    else
      [entry market "NO"
         "High volatility with strong downtrend. Momentum suggests continued price decrease."
         (price - 10)%Q (price + 5)%Q]
  else [].

Fixpoint analyze_loop (historical_data : gmap string (list Q)) (markets : list Market)
    : Exc (list Rec) :=
  match markets with
  | [] => Ok []
  | market :: rest =>
      match historical_data !! id market with
      | None => analyze_loop historical_data rest
      | Some prices =>
          match _calculate_volatility market prices with
          | Raise e => Raise e
          | Ok data =>
              match analyze_loop historical_data rest with
              | Raise e => Raise e
              | Ok recommendations => Ok (candidate market data ++ recommendations)
              end
          end
      end
  end.

(** [VolatilityStrategy.analyze]: without historical data, or with an empty
    dictionary, the data is simulated. *)
Definition analyze (markets : list Market) (historical_data : option (gmap string (list Q)))
    : Exc (list Rec) :=
  match markets with
  | [] => Ok []
  | _ =>
      let data :=
        match historical_data with
        | None => _generate_simulated_historical_data markets
        | Some given_data =>
            if bool_decide (given_data = ∅)
            then _generate_simulated_historical_data markets
            else given_data
        end in
      analyze_loop data markets
  end.

End model.
End Volatility.

(** The largest minus the smallest element. *)
Definition spread (xs : list Q) : Q :=
  match xs with
  | [] => 0%Q
  | x :: rest => (foldr Py.max x rest - foldr Py.min x rest)%Q
  end.

Section volatility_facts.
Import Py Volatility.

Lemma range_10 : range 10 = [0; 1; 2; 3; 4; 5; 6; 7; 8; 9].
Proof. reflexivity. Qed.

(** The simulated series: it starts at the clamped price, and from the
    third round on steps between a floor and five cents above it. *)
Lemma price_walk_shape (base_price : Z) :
  ∃ first floor,
    5 ≤ floor ≤ 90 ∧ floor ≤ first ≤ floor + 5
    ∧ price_walk (range 10) base_price
      = [first; first; floor + 5; floor; floor; floor + 5; floor; floor; floor + 5; floor].
Proof.
  set (first := Z.max 5 (Z.min 95 (base_price - 5))).
  set (floor := Z.min first 90).
  assert (Hfirst : 5 ≤ first ≤ 95) by (unfold first; lia).
  assert (Hfloor : 5 ≤ floor ≤ 90) by (unfold floor; lia).
  assert (Hdown : ∀ i, i mod 3 = 0 → next_price i (floor + 5) = floor).
  { intros i Hi. unfold next_price. rewrite Hi. lia. }
  assert (Hstay : ∀ i p, i mod 3 = 1 → 5 ≤ p ≤ 95 → next_price i p = p).
  { intros i p Hi Hp. unfold next_price. rewrite Hi. lia. }
  assert (Hup : ∀ i, i mod 3 = 2 → next_price i floor = floor + 5).
  { intros i Hi. unfold next_price. rewrite Hi. lia. }
  exists first, floor. split; [done|]. split; [unfold floor; lia|].
  rewrite range_10. cbn [price_walk].
  assert (H0 : next_price 0 base_price = first).
  { unfold next_price, first. change (0 mod 3) with 0. f_equal. }
  rewrite H0. rewrite (Hstay 1 first) by (done || lia).
  assert (H2 : next_price 2 first = floor + 5).
  { unfold next_price, floor. change (2 mod 3) with 2. lia. }
  rewrite H2.
  rewrite (Hdown 3) by done. rewrite (Hstay 4 floor) by (done || lia).
  rewrite (Hup 5) by done.
  rewrite (Hdown 6) by done. rewrite (Hstay 7 floor) by (done || lia).
  rewrite (Hup 8) by done.
  rewrite (Hdown 9) by done. done.
Qed.

(** Every entry of the simulated dictionary is the series of some bid. *)
Lemma simulated_entries (markets : list Market) (key : string) (prices : list Q) :
  _generate_simulated_historical_data markets !! key = Some prices →
  ∃ market, market ∈ markets ∧ id market = key
            ∧ prices = inject_Z <$> price_walk (range 10) (yes_bid market).
Proof.
  unfold _generate_simulated_historical_data.
  induction markets as [|market markets IH] using rev_ind; simpl.
  - by rewrite lookup_empty.
  - rewrite foldl_app. simpl.
    destruct (decide (id market = key)) as [<-|Hne].
    + rewrite lookup_insert_eq. intros [= <-]. exists market.
      split; [apply elem_of_app; right; apply list_elem_of_here|done].
    + rewrite lookup_insert_ne by done. intros H.
      destruct (IH H) as (m & Hm & Hid & Hp). exists m.
      split; [apply elem_of_app; by left|done].
Qed.

Lemma simulated_domain (markets : list Market) (market : Market) :
  market ∈ markets → is_Some (_generate_simulated_historical_data markets !! id market).
Proof.
  unfold _generate_simulated_historical_data.
  induction markets as [|m markets IH] using rev_ind; [by intros ?%elem_of_nil|].
  rewrite foldl_app. simpl. intros Hin.
  destruct (decide (id m = id market)) as [->|Hne].
  - rewrite lookup_insert_eq. by eexists.
  - rewrite lookup_insert_ne by done. apply IH.
    apply elem_of_app in Hin as [Hin|Hin]; [done|].
    apply list_elem_of_singleton in Hin. congruence.
Qed.

(** X19. The simulated price history: every market of the list gets an
    entry under its id, and every entry holds ten whole prices between 5 and
    95 cents that take both ends of a band of exactly five cents, whatever the
    bid; so no simulated series is flat and none moves further than five
    cents. *)
Theorem simulated_history_is_a_five_cent_band (markets : list Market) :
  (∀ market, market ∈ markets →
     is_Some (_generate_simulated_historical_data markets !! id market))
  ∧ ∀ key prices,
      _generate_simulated_historical_data markets !! key = Some prices →
      ∃ floor,
        5 ≤ floor ≤ 90
        ∧ length prices = 10%nat
        ∧ Forall (fun price => ∃ cents, price = inject_Z cents
                                        ∧ floor ≤ cents ≤ floor + 5) prices
        ∧ inject_Z floor ∈ prices
        ∧ inject_Z (floor + 5) ∈ prices.
Proof.
  split; [apply simulated_domain|].
  intros key prices Hlook.
  destruct (simulated_entries _ _ _ Hlook) as (market & _ & _ & ->).
  destruct (price_walk_shape (yes_bid market)) as (first & floor & Hfloor & Hfirst & ->).
  exists floor. split; [done|]. split; [done|]. split; [|split].
  - repeat (apply Forall_cons; split; [eexists; split; [reflexivity|lia]|]).
    apply Forall_nil_2.
  - do 3 apply list_elem_of_further. apply list_elem_of_here.
  - do 2 apply list_elem_of_further. apply list_elem_of_here.
Qed.

Section deviation.
Variable stdev : list Q → Q.
Variable above_rationale below_rationale : Z → Q → string.
(** Two facts of the sample standard deviation of at least two values: it
    does not exceed the width of an interval that holds them all, and it is
    positive when two of the values differ. *)
Hypothesis stdev_within : ∀ (xs : list Q) (lo hi : Q),
  (2 ≤ length xs)%nat → Forall (fun x => (lo <= x <= hi)%Q) xs → (stdev xs <= hi - lo)%Q.
Hypothesis stdev_positive : ∀ (xs : list Q) (x y : Q),
  x ∈ xs → y ∈ xs → (x < y)%Q → (0 < stdev xs)%Q.

Lemma simulated_series_is_calm (market : Market) (base_price : Z) :
  ∃ data,
    _calculate_volatility stdev market (inject_Z <$> price_walk (range 10) base_price)
    = Ok data
    ∧ is_high_volatility data = false.
Proof.
  destruct (price_walk_shape base_price) as (first & floor & Hfloor & Hfirst & Hshape).
  set (prices := inject_Z <$> price_walk (range 10) base_price).
  assert (Hlen : length prices = 10%nat) by (unfold prices; by rewrite Hshape).
  assert (Hle : (stdev prices <= 5)%Q).
  { apply Qle_trans with (y := (inject_Z (floor + 5) - inject_Z floor)%Q).
    - apply stdev_within; [lia|]. unfold prices. rewrite Hshape.
      repeat (apply Forall_cons; split;
              [split; rewrite <- Zle_Qle; lia|]).
      apply Forall_nil_2.
    - unfold Qle, Qminus, Qplus, Qopp, inject_Z. simpl. lia. }
  assert (Hpos : (0 < stdev prices)%Q).
  { apply (stdev_positive prices (inject_Z floor) (inject_Z (floor + 5))).
    - unfold prices. rewrite Hshape.
      do 3 apply list_elem_of_further. apply list_elem_of_here.
    - unfold prices. rewrite Hshape.
      do 2 apply list_elem_of_further. apply list_elem_of_here.
    - rewrite <- Zlt_Qlt. lia. }
  unfold _calculate_volatility. fold prices.
  destruct prices as [|p ps] eqn:Eprices; [done|]. rewrite <- Eprices in *.
  assert (Hmany : (1 <? len prices) = true).
  { unfold len. rewrite Hlen. done. }
  rewrite Hmany.
  destruct (Qeq_bool (stdev prices) 0) eqn:Hzero.
  { apply Qeq_bool_iff in Hzero. rewrite Hzero in Hpos. by apply Qlt_irrefl in Hpos. }
  eexists. split; [reflexivity|]. simpl.
  destruct (Qltb (15 # 10) (stdev prices / 5)) eqn:Hhigh; [|done].
  apply Qltb_lt in Hhigh. exfalso.
  apply (Qlt_not_le _ _ Hhigh).
  apply Qle_trans with (y := (5 / 5)%Q); [|done].
  apply Qmult_le_compat_r; [exact Hle|done].
Qed.

Lemma calm_data_gives_nothing (markets all_markets : list Market) :
  analyze_loop stdev above_rationale below_rationale
    (_generate_simulated_historical_data all_markets) markets = Ok [].
Proof.
  induction markets as [|market markets IH]; simpl; [done|].
  destruct (_generate_simulated_historical_data all_markets !! id market)
    as [prices|] eqn:Hlook; [|exact IH].
  destruct (simulated_entries _ _ _ Hlook) as (m & _ & _ & ->).
  destruct (simulated_series_is_calm market (yes_bid m)) as (data & -> & Hcalm).
  rewrite IH. unfold candidate. by rewrite Hcalm.
Qed.

(** X20. Called without historical data, as the strategy manager calls it,
    or with an empty dictionary, the volatility strategy never recommends
    anything and never raises: its simulated series are bands of five cents,
    whose standard deviation is positive and at most 5, so the volatility
    ratio never passes 1.5. *)
Theorem volatility_strategy_is_silent_on_simulated_data (markets : list Market) :
  analyze stdev above_rationale below_rationale markets None = Ok []
  ∧ analyze stdev above_rationale below_rationale markets (Some ∅) = Ok [].
Proof.
  unfold analyze. destruct markets as [|market markets]; [done|].
  rewrite bool_decide_eq_true_2 by done.
  split; apply calm_data_gives_nothing.
Qed.

End deviation.
End volatility_facts.

(** ** social_feed.py: the simulated feed and its analysis *)
Module SocialFeed.
Import Py.

(** An activity of the feed, with the keys the analysis reads and those the
    simulation derives from the round (times, users and comment texts are
    left out). *)
Record Activity := {
  index : Z;
  type : string;
  activity_market_id : string;
  activity_market_title : string;
  activity_action : option string;
  activity_contracts : option Z
}.

Definition activity_types : list string := ["trade"; "comment"; "like"; "follow"].

(** The activity of round [i]. *)
Definition simulated_activity (markets : list Market) (first : Market) (i : Z) : Activity :=
  let market := nth (Z.to_nat (i mod len markets)) markets first in
  let activity_type := nth (Z.to_nat (i mod len activity_types)) activity_types "" in
  {| index := i; type := activity_type;
     activity_market_id := id market; activity_market_title := title market;
     activity_action := if String.eqb activity_type "trade"
                        then Some (if i mod 2 =? 0 then "YES" else "NO") else None;
     activity_contracts := if String.eqb activity_type "trade"
                           then Some (i mod 5 + 1) else None |}.

(** [KalshiSocialFeed._generate_simulated_activities]: the rounds are
    [range(20, 31)]; without markets the loop breaks at once. *)
Definition _generate_simulated_activities (markets : list Market) : list Activity :=
  match markets with
  | [] => []
  | first :: _ => simulated_activity markets first <$> seqZ 20 11
  end.

(** The counters kept per market series. *)
Record Counts := {
  total : Z;
  trades : Z;
  comments : Z;
  yes_trades : Z;
  no_trades : Z
}.

Definition no_counts : Counts :=
  {| total := 0; trades := 0; comments := 0; yes_trades := 0; no_trades := 0 |}.

(** [activity.get("action") == name]. *)
Definition is_action (activity : Activity) (name : string) : bool :=
  match activity_action activity with
  | Some a => String.eqb a name
  | None => false
  end.

Definition count_activity (activity : Activity) (counts : Counts) : Counts :=
  let is_trade := String.eqb (type activity) "trade" in
  let is_comment := String.eqb (type activity) "comment" in
  {| total := total counts + 1;
     trades := if is_trade then trades counts + 1 else trades counts;
     comments := if is_trade then comments counts
                 else if is_comment then comments counts + 1 else comments counts;
     yes_trades := if is_trade && is_action activity "YES"
                   then yes_trades counts + 1 else yes_trades counts;
     no_trades := if is_trade && negb (is_action activity "YES") && is_action activity "NO"
                  then no_trades counts + 1 else no_trades counts |}.

(** The counters of a series updated, a new series entering at the end. *)
Fixpoint count_under (series : string) (activity : Activity) (d : list (string * Counts))
    : list (string * Counts) :=
  match d with
  | [] => [(series, count_activity activity no_counts)]
  | (k, counts) :: d' =>
      if String.eqb k series then (k, count_activity activity counts) :: d'
      else (k, counts) :: count_under series activity d'
  end.

(** The first target series whose name occurs in a market id. *)
Definition series_in (market_id : string) : option string :=
  List.find (fun series => contains series market_id) Strategies.TARGET_SERIES.

Definition series_activity_count (activities : list Activity) : list (string * Counts) :=
  fold_left (fun d activity =>
               match series_in (activity_market_id activity) with
               | Some series => count_under series activity d
               | None => d
               end)
    activities [].

Record Trending := {
  series : string;
  activity_count : Z;
  trade_count : Z;
  comment_count : Z
}.

Definition trending_markets_of (counted : list (string * Counts)) : list Trending :=
  sorted (fun a b => activity_count a <? activity_count b) true
    (map (fun entry => {| series := fst entry; activity_count := total (snd entry);
                          trade_count := trades (snd entry);
                          comment_count := comments (snd entry) |})
       (List.filter (fun entry => 3 <=? total (snd entry)) counted)).

Record SentimentData := {
  sentiment : string;
  sentiment_activity_level : string;
  sentiment_confidence : string;
  buy_percentage : Q;
  sell_percentage : Q;
  total_trades : Z;
  total_activities : Z;
  volume_change : Z
}.

(** [(part / whole) * 100] on two counts: a float quotient and a float
    product, each rounded; and [round(x, 1)] on a float: the nearest number
    with one decimal, as a float. *)
Definition percentage (part whole : Z) : Q :=
  Float.mul (Float.div (inject_Z part) (inject_Z whole)) 100.

Definition round_1 (x : Q) : Q := Float.round64 (round x 1).

Definition sentiment_of (counts : Counts) : SentimentData :=
  let all_trades := yes_trades counts + no_trades counts in
  if 0 <? all_trades then
    let buy := percentage (yes_trades counts) all_trades in
    let sell := percentage (no_trades counts) all_trades in
    {| sentiment := if Qle_bool 70 buy then "bullish"
                    else if Qle_bool 55 buy then "slightly_bullish"
                    else if Qle_bool 70 sell then "bearish"
                    else if Qle_bool 55 sell then "slightly_bearish"
                    else "neutral";
       sentiment_activity_level := if 10 <=? total counts then "high"
                                   else if 5 <=? total counts then "medium" else "low";
       sentiment_confidence := if 10 <=? all_trades then "high"
                               else if 5 <=? all_trades then "medium" else "low";
       buy_percentage := round_1 buy;
       sell_percentage := round_1 sell;
       total_trades := all_trades;
       total_activities := total counts;
       volume_change := 0 |}
  else
    {| sentiment := "neutral"; sentiment_activity_level := "low";
       sentiment_confidence := "low"; buy_percentage := 50; sell_percentage := 50;
       total_trades := 0; total_activities := total counts; volume_change := 0 |}.

(** [d.get(series)] on the sentiment dictionary. *)
Definition lookup_series (name : string) (d : list (string * SentimentData))
    : option SentimentData :=
  snd <$> List.find (fun entry => String.eqb (fst entry) name) d.

Record Insights := {
  trending_markets : list Trending;
  series_sentiment : list (string * SentimentData);
  overall_sentiment : string;
  activity_level : string
}.

(** The feed dictionary; [insights] is [None] for the empty dictionary of
    the error answer. *)
Record Feed := {
  status : string;
  message : option string;
  timestamp : Q;
  activities : list Activity;
  insights : option Insights
}.

(** [KalshiSocialFeed._analyze_feed_data]. *)
Definition _analyze_feed_data (now : Q) (feed_activities : list Activity) : Feed :=
  match feed_activities with
  | [] =>
      {| status := "success"; message := None; timestamp := now; activities := [];
         insights := Some {| trending_markets := []; series_sentiment := [];
                             overall_sentiment := "neutral"; activity_level := "low" |} |}
  | _ =>
      let counted := series_activity_count feed_activities in
      let trending := trending_markets_of counted in
      let sentiments := map (fun entry => (fst entry, sentiment_of (snd entry))) counted in
      let overall :=
        match trending with
        | [] => ("neutral", "low")
        | top :: _ =>
            let total_activities := foldr Z.add 0 (map (fun entry => total (snd entry)) counted) in
            (match lookup_series (series top) sentiments with
             | Some data => sentiment data
             | None => "neutral"
             end,
             if 20 <=? total_activities then "high"
             else if 10 <=? total_activities then "medium" else "low")
        end in
      {| status := "success"; message := None; timestamp := now;
         activities := feed_activities;
         insights := Some {| trending_markets := trending; series_sentiment := sentiments;
                             overall_sentiment := fst overall;
                             activity_level := snd overall |} |}
  end.

(** The cache fields of [KalshiSocialFeed]. *)
Record FeedState := {
  cached_feed_data : option Feed;
  last_fetch_time : Q
}.

Definition initial_state : FeedState := {| cached_feed_data := None; last_fetch_time := 0 |}.

(** [KalshiSocialFeed._fetch_social_feed], given what the broker and the
    market filter gave: the filtered active markets, or an exception. *)
Definition _fetch_social_feed (fetched : Exc (list Market)) : Exc (list Activity) :=
  match fetched with
  | Raise e => Raise e
  | Ok [] => Ok []
  | Ok filtered_markets => Ok (_generate_simulated_activities filtered_markets)
  end.

Section model.
Variable cache_ttl : Q.
Variable failure_message : string → string.

(** [KalshiSocialFeed.get_social_feed]. [current_time] and [analyzed_at]
    are the two readings of the clock. *)
Definition get_social_feed (current_time analyzed_at : Q) (fetched : Exc (list Market))
    (force_refresh : bool) (st : FeedState) : Feed * FeedState :=
  let refreshed (feed_activities : list Activity) :=
    let analyzed_data := _analyze_feed_data analyzed_at feed_activities in
    (analyzed_data,
     {| cached_feed_data := Some analyzed_data; last_fetch_time := current_time |}) in
  match cached_feed_data st with
  | None =>
      match _fetch_social_feed fetched with
      | Ok feed_activities => refreshed feed_activities
      | Raise e =>
          ({| status := "error"; message := Some (failure_message e);
              timestamp := current_time; activities := []; insights := None |}, st)
      end
  | Some cached =>
      if force_refresh || Qltb cache_ttl (current_time - last_fetch_time st) then
        match _fetch_social_feed fetched with
        | Ok feed_activities => refreshed feed_activities
        | Raise _ => (cached, st)
        end
      else (cached, st)
  end.

End model.
End SocialFeed.

(** ** trading_strategies.py: the sentiment strategy *)
Module Sentiment.
Import Py SocialFeed.

Section model.
(** The texts formatted from the percentage and the activity level. *)
Variable bullish_rationale bearish_rationale : Q → string → string.

Definition grade (data : SentimentData) : string :=
  if String.eqb (sentiment_confidence data) "high" then "High" else "Medium".

(** What the loop appends for one market. *)
Definition candidate (sentiments : list (string * SentimentData)) (market : Market)
    : list Rec :=
  match series_in (id market) with
  | None => []
  | Some market_series =>
      match lookup_series market_series sentiments with
      | None => []
      | Some data =>
          if negb (String.eqb (sentiment_confidence data) "low") then
            if (String.eqb (sentiment data) "bullish"
                || String.eqb (sentiment data) "slightly_bullish")
               && Qle_bool 60 (buy_percentage data) then
              [{| market := title market; market_id := id market; action := "YES";
                  probability := inject_Z (default 50 (yes_ask market));
                  contracts := 1;
                  cost := (inject_Z (default 50%Z (yes_ask market)) / 100)%Q;
                  target_exit := inject_Z (default 50 (yes_ask market) + 10);
                  stop_loss := inject_Z (default 50 (yes_ask market) - 5);
                  confidence := grade data;
                  rationale := bullish_rationale (buy_percentage data)
                                 (sentiment_activity_level data);
                  strategy := Some "sentiment" |}]
            else if (String.eqb (sentiment data) "bearish"
                     || String.eqb (sentiment data) "slightly_bearish")
                    && Qle_bool 60 (sell_percentage data) then
              [{| market := title market; market_id := id market; action := "NO";
                  probability := inject_Z (100 - yes_bid market);
                  contracts := 1;
                  cost := (inject_Z (no_ask market) / 100)%Q;
                  target_exit := inject_Z (no_ask market + 10);
                  stop_loss := inject_Z (no_ask market - 5);
                  confidence := grade data;
                  rationale := bearish_rationale (sell_percentage data)
                                 (sentiment_activity_level data);
                  strategy := Some "sentiment" |}]
            else []
          else []
      end
  end.

(** [SentimentStrategy.analyze], given the feed that [get_social_feed]
    answered. *)
Definition analyze (feed : Feed) (markets : list Market) : list Rec :=
  match markets with
  | [] => []
  | _ =>
      if String.eqb (status feed) "error" then []
      else match insights feed with
           | None => []
           | Some found => flat_map (candidate (series_sentiment found)) markets
           end
  end.

End model.
End Sentiment.

Section sentiment_facts.
Import Py SocialFeed Sentiment.
Variable bullish_rationale bearish_rationale : Q → string → string.

Lemma series_in_target (market_id series_name : string) :
  series_in market_id = Some series_name →
  MarketFilter.is_target_market market_id = true.
Proof.
  intros H.
  apply (series_of_target {| id := market_id; title := ""; yes_bid := 0; yes_ask := None;
                             no_ask := 0; volume_24h := 0 |} series_name H).
Qed.

(** What the sentiment loop can append for a market. *)
Lemma candidate_shape (sentiments : list (string * SentimentData)) (market : Market)
    (rec : Rec) :
  rec ∈ candidate bullish_rationale bearish_rationale sentiments market →
  candidate bullish_rationale bearish_rationale sentiments market = [rec]
  ∧ market_id rec = id market
  ∧ strategy rec = Some "sentiment"
  ∧ contracts rec = 1
  ∧ (confidence rec = "High" ∨ confidence rec = "Medium")
  ∧ ∃ series_name data,
      series_in (id market) = Some series_name
      ∧ lookup_series series_name sentiments = Some data
      ∧ sentiment_confidence data ≠ "low"
      ∧ (confidence rec = "High" ↔ sentiment_confidence data = "high")
      ∧ ((action rec = "YES" ∧ (60 <= buy_percentage data)%Q
          ∧ (sentiment data = "bullish" ∨ sentiment data = "slightly_bullish"))
         ∨ (action rec = "NO" ∧ (60 <= sell_percentage data)%Q
            ∧ (sentiment data = "bearish" ∨ sentiment data = "slightly_bearish"))).
Proof.
  unfold candidate.
  destruct (series_in (id market)) as [series_name|] eqn:Hseries; [|by intros ?%elem_of_nil].
  destruct (lookup_series series_name sentiments) as [data|] eqn:Hdata;
    [|by intros ?%elem_of_nil].
  destruct (String.eqb_spec (sentiment_confidence data) "low") as [|Hlow];
    [by intros ?%elem_of_nil|]. cbn [negb].
  assert (Hgrade : (grade data = "High" ∨ grade data = "Medium")
                   ∧ (grade data = "High" ↔ sentiment_confidence data = "high")).
  { unfold grade. destruct (String.eqb_spec (sentiment_confidence data) "high"); split;
      try (by left); try (by right); split; done. }
  destruct ((String.eqb (sentiment data) "bullish"
             || String.eqb (sentiment data) "slightly_bullish")
            && Qle_bool 60 (buy_percentage data)) eqn:Hbull.
  { intros Hin. apply list_elem_of_singleton in Hin as ->. cbn.
    apply andb_true_iff in Hbull as [Hkind Hpct]. apply Qle_bool_iff in Hpct.
    apply orb_true_iff in Hkind.
    split; [done|]. split; [done|]. split; [done|]. split; [done|].
    split; [apply Hgrade|]. exists series_name, data.
    split; [done|]. split; [done|]. split; [done|]. split; [apply Hgrade|].
    left. split; [done|]. split; [done|].
    destruct Hkind as [H|H]; apply String.eqb_eq in H; auto. }
  destruct ((String.eqb (sentiment data) "bearish"
             || String.eqb (sentiment data) "slightly_bearish")
            && Qle_bool 60 (sell_percentage data)) eqn:Hbear;
    [|by intros ?%elem_of_nil].
  intros Hin. apply list_elem_of_singleton in Hin as ->. cbn.
  apply andb_true_iff in Hbear as [Hkind Hpct]. apply Qle_bool_iff in Hpct.
  apply orb_true_iff in Hkind.
  split; [done|]. split; [done|]. split; [done|]. split; [done|].
  split; [apply Hgrade|]. exists series_name, data.
  split; [done|]. split; [done|]. split; [done|]. split; [apply Hgrade|].
  right. split; [done|]. split; [done|].
  destruct Hkind as [H|H]; apply String.eqb_eq in H; auto.
Qed.

Lemma candidates_ids (sentiments : list (string * SentimentData)) (markets : list Market) :
  market_id <$> flat_map (candidate bullish_rationale bearish_rationale sentiments) markets
  `sublist_of` id <$> markets.
Proof.
  induction markets as [|market markets IH]; [done|].
  cbn [flat_map]. rewrite fmap_app, fmap_cons.
  destruct (candidate bullish_rationale bearish_rationale sentiments market)
    as [|rec rest] eqn:Hc.
  - by apply sublist_cons.
  - destruct (candidate_shape sentiments market rec) as (Hone & Hid & _).
    { rewrite Hc. apply list_elem_of_here. }
    rewrite Hc in Hone. injection Hone as ->. cbn. rewrite Hid. by apply sublist_skip.
Qed.

(** X21. The sentiment strategy, for any feed: it answers nothing when the
    feed reports an error or has no insights; otherwise it gives at most one
    entry per market, in the order of the markets, each tagged "sentiment",
    for one contract on a target market whose series has a sentiment of
    other than low confidence, with confidence High exactly when the
    sentiment's confidence is high and Medium otherwise, so never Low; it
    says YES on a bullish series bought at 60 percent or more and NO on a
    bearish one sold at 60 percent or more; and two entries for markets of
    one series take the same side. *)
Theorem sentiment_entries_follow_the_series (feed : Feed) (markets : list Market) :
  let result := analyze bullish_rationale bearish_rationale feed markets in
  (status feed = "error" ∨ insights feed = None → result = [])
  ∧ market_id <$> result `sublist_of` id <$> markets
  ∧ Forall (fun rec =>
              strategy rec = Some "sentiment" ∧ contracts rec = 1
              ∧ (confidence rec = "High" ∨ confidence rec = "Medium")
              ∧ MarketFilter.is_target_market (market_id rec) = true
              ∧ ∃ found series_name data,
                  insights feed = Some found
                  ∧ series_in (market_id rec) = Some series_name
                  ∧ lookup_series series_name (series_sentiment found) = Some data
                  ∧ sentiment_confidence data ≠ "low"
                  ∧ (confidence rec = "High" ↔ sentiment_confidence data = "high")
                  ∧ ((action rec = "YES" ∧ (60 <= buy_percentage data)%Q
                      ∧ (sentiment data = "bullish" ∨ sentiment data = "slightly_bullish"))
                     ∨ (action rec = "NO" ∧ (60 <= sell_percentage data)%Q
                        ∧ (sentiment data = "bearish"
                           ∨ sentiment data = "slightly_bearish")))) result
  ∧ (∀ a b, a ∈ result → b ∈ result →
       series_in (market_id a) = series_in (market_id b) → action a = action b).
Proof.
  intros result.
  assert (Hentries : ∀ rec, rec ∈ result →
    ∃ found market, insights feed = Some found ∧ market ∈ markets
      ∧ rec ∈ candidate bullish_rationale bearish_rationale (series_sentiment found) market).
  { unfold result, analyze. intros rec.
    destruct markets as [|m ms]; [by intros ?%elem_of_nil|].
    destruct (String.eqb (status feed) "error"); [by intros ?%elem_of_nil|].
    destruct (insights feed) as [found|]; [|by intros ?%elem_of_nil].
    intros Hin. apply list_elem_of_In, in_flat_map in Hin as (market & Hm & Hrec).
    exists found, market. split; [done|]. split; by apply list_elem_of_In. }
  assert (Hshape : ∀ rec, rec ∈ result →
    strategy rec = Some "sentiment" ∧ contracts rec = 1
    ∧ (confidence rec = "High" ∨ confidence rec = "Medium")
    ∧ MarketFilter.is_target_market (market_id rec) = true
    ∧ ∃ found series_name data,
        insights feed = Some found
        ∧ series_in (market_id rec) = Some series_name
        ∧ lookup_series series_name (series_sentiment found) = Some data
        ∧ sentiment_confidence data ≠ "low"
        ∧ (confidence rec = "High" ↔ sentiment_confidence data = "high")
        ∧ ((action rec = "YES" ∧ (60 <= buy_percentage data)%Q
            ∧ (sentiment data = "bullish" ∨ sentiment data = "slightly_bullish"))
           ∨ (action rec = "NO" ∧ (60 <= sell_percentage data)%Q
              ∧ (sentiment data = "bearish" ∨ sentiment data = "slightly_bearish")))).
  { intros rec Hrec. destruct (Hentries rec Hrec) as (found & market & Hfound & _ & Hc).
    destruct (candidate_shape _ _ _ Hc)
      as (_ & Hid & Htag & Hone & Hconf & series_name & data & Hs & Hd & Hlow & Hhigh & Hside).
    rewrite Hid. split; [done|]. split; [done|]. split; [done|].
    split; [by apply (series_in_target _ series_name)|].
    by exists found, series_name, data. }
  split; [|split; [|split]].
  - unfold result, analyze. intros [Herr|Hnone]; destruct markets as [|m ms]; try done.
    + by rewrite Herr.
    + rewrite Hnone. by destruct (String.eqb (status feed) "error").
  - unfold result, analyze. destruct markets as [|m ms]; [done|].
    destruct (String.eqb (status feed) "error"); [apply sublist_nil_l|].
    destruct (insights feed) as [found|]; [|apply sublist_nil_l].
    apply candidates_ids.
  - apply List.Forall_forall. intros rec Hrec. apply Hshape. by apply list_elem_of_In.
  - intros a b Ha Hb Hsame.
    destruct (Hshape a Ha) as (_ & _ & _ & _ & fa & sa & da & Hfa & Hsa & Hda & _ & _ & Hside_a).
    destruct (Hshape b Hb) as (_ & _ & _ & _ & fb & sb & db & Hfb & Hsb & Hdb & _ & _ & Hside_b).
    assert (fb = fa) as -> by congruence.
    assert (sb = sa) as -> by congruence.
    assert (db = da) as -> by congruence.
    destruct Hside_a as [(-> & _ & Hka)|(-> & _ & Hka)],
             Hside_b as [(-> & _ & Hkb)|(-> & _ & Hkb)]; try done;
      destruct Hka as [Hka|Hka], Hkb as [Hkb|Hkb]; congruence.
Qed.

End sentiment_facts.

(** The number of trades among activities. *)
Definition trades_in (feed_activities : list SocialFeed.Activity) : Z :=
  Py.len (List.filter (fun activity => String.eqb (SocialFeed.type activity) "trade")
            feed_activities).

Section simulated_feed.
Import Py SocialFeed Sentiment.
Variable bullish_rationale bearish_rationale : Q → string → string.
Variable cache_ttl : Q.
Variable failure_message : string → string.

Lemma count_activity_trades (activity : Activity) (counts : Counts) :
  yes_trades (count_activity activity counts) + no_trades (count_activity activity counts)
  ≤ yes_trades counts + no_trades counts
    + (if String.eqb (type activity) "trade" then 1 else 0).
Proof.
  unfold count_activity. cbn.
  destruct (String.eqb (type activity) "trade"); cbn; [|lia].
  destruct (is_action activity "YES"); cbn; [lia|].
  destruct (is_action activity "NO"); lia.
Qed.

Lemma count_under_trades (series_name : string) (activity : Activity)
    (d : list (string * Counts)) (bound : Z) :
  0 ≤ bound →
  Forall (fun entry => yes_trades (snd entry) + no_trades (snd entry) ≤ bound) d →
  Forall (fun entry => yes_trades (snd entry) + no_trades (snd entry)
                       ≤ bound + (if String.eqb (type activity) "trade" then 1 else 0))
    (count_under series_name activity d).
Proof.
  intros Hbound. induction d as [|[k counts] d IH]; intros Hd; cbn [count_under].
  - apply Forall_singleton. cbn [snd].
    pose proof (count_activity_trades activity no_counts) as H. cbn in H |- *.
    destruct (String.eqb (type activity) "trade"); lia.
  - apply Forall_cons in Hd as [Hhead Hd]. cbn [snd] in Hhead.
    assert (Hweak : Forall (fun entry => yes_trades (snd entry) + no_trades (snd entry)
                       ≤ bound + (if String.eqb (type activity) "trade" then 1 else 0)) d).
    { eapply Forall_impl; [exact Hd|]. intros entry H. cbn in H.
      destruct (String.eqb (type activity) "trade"); lia. }
    destruct (String.eqb k series_name).
    + apply Forall_cons. split; [|exact Hweak]. cbn [snd].
      pose proof (count_activity_trades activity counts) as H. lia.
    + apply Forall_cons. split; [|by apply IH]. cbn [snd].
      destruct (String.eqb (type activity) "trade"); lia.
Qed.

(** No series counts more YES and NO trades than the feed holds trades. *)
Lemma series_trades_bounded (feed_activities : list Activity) :
  Forall (fun entry => yes_trades (snd entry) + no_trades (snd entry)
                       ≤ trades_in feed_activities)
    (series_activity_count feed_activities).
Proof.
  unfold series_activity_count.
  assert (Hgen : ∀ (d : list (string * Counts)) (bound : Z),
    0 ≤ bound →
    Forall (fun entry => yes_trades (snd entry) + no_trades (snd entry) ≤ bound) d →
    Forall (fun entry => yes_trades (snd entry) + no_trades (snd entry)
                         ≤ bound + trades_in feed_activities)
      (fold_left (fun d activity =>
                    match series_in (activity_market_id activity) with
                    | Some series_name => count_under series_name activity d
                    | None => d
                    end) feed_activities d)).
  { induction feed_activities as [|activity rest IH]; intros d bound Hbound Hd.
    - cbn. eapply Forall_impl; [exact Hd|]. intros entry H. cbn in H.
      unfold trades_in, len. cbn. lia.
    - cbn [fold_left].
      set (step := if String.eqb (type activity) "trade" then 1 else 0).
      assert (Hstep : 0 ≤ step) by (unfold step; destruct (String.eqb _ _); lia).
      assert (Hcount : trades_in (activity :: rest) = step + trades_in rest).
      { unfold trades_in, len, step. cbn [List.filter].
        destruct (String.eqb (type activity) "trade"); cbn [length]; lia. }
      rewrite Hcount.
      replace (bound + (step + trades_in rest)) with (bound + step + trades_in rest)
        by lia.
      apply IH; [lia|].
      destruct (series_in (activity_market_id activity)) as [series_name|].
      + by apply count_under_trades.
      + eapply Forall_impl; [exact Hd|]. intros entry H. cbn in H. lia. }
  apply (Hgen [] 0); [done|constructor].
Qed.

(** The simulated feed holds three trades, whatever the markets. *)
Lemma simulated_trades (markets : list Market) :
  trades_in (_generate_simulated_activities markets) ≤ 3.
Proof.
  destruct markets as [|first rest]; [done|].
  unfold trades_in, _generate_simulated_activities. by vm_compute.
Qed.

(** A feed analysed from simulated activities. *)
Definition simulated_feed (analyzed_at : Q) (feed_markets : list Market) : Feed :=
  _analyze_feed_data analyzed_at (_generate_simulated_activities feed_markets).

Lemma simulated_feed_is_unsure (analyzed_at : Q) (feed_markets : list Market) :
  ∃ found, insights (simulated_feed analyzed_at feed_markets) = Some found
           ∧ Forall (fun entry => sentiment_confidence (snd entry) = "low")
               (series_sentiment found).
Proof.
  unfold simulated_feed, _analyze_feed_data.
  pose proof (series_trades_bounded (_generate_simulated_activities feed_markets)) as Hb.
  pose proof (simulated_trades feed_markets) as H3.
  destruct (_generate_simulated_activities feed_markets) as [|activity rest] eqn:E.
  - eexists. split; [reflexivity|]. constructor.
  - rewrite <- E in *. eexists. split; [reflexivity|]. cbn [series_sentiment].
    apply Forall_fmap. eapply Forall_impl; [exact Hb|].
    intros [name counts] H. cbn in H |- *. unfold sentiment_of.
    destruct (0 <? yes_trades counts + no_trades counts); [|done]. cbn.
    destruct (Z.leb_spec 10 (yes_trades counts + no_trades counts)); [lia|].
    destruct (Z.leb_spec 5 (yes_trades counts + no_trades counts)); [lia|done].
Qed.

Lemma unsure_feed_is_ignored (feed : Feed) (found : Insights) (markets : list Market) :
  insights feed = Some found →
  Forall (fun entry => sentiment_confidence (snd entry) = "low") (series_sentiment found) →
  analyze bullish_rationale bearish_rationale feed markets = [].
Proof.
  intros Hfound Hlow. unfold analyze. destruct markets as [|m ms]; [done|].
  destruct (String.eqb (status feed) "error"); [done|]. rewrite Hfound.
  generalize (m :: ms). intros l. induction l as [|market l IH]; [done|].
  cbn [flat_map]. rewrite IH, app_nil_r. unfold candidate.
  destruct (series_in (id market)) as [series_name|]; [|done].
  destruct (lookup_series series_name (series_sentiment found)) as [data|] eqn:Hdata; [|done].
  unfold lookup_series in Hdata.
  destruct (List.find _ (series_sentiment found)) as [entry|] eqn:Hfind; [|done].
  injection Hdata as <-. apply List.find_some in Hfind as [Hin _].
  rewrite List.Forall_forall in Hlow. by rewrite (Hlow entry Hin).
Qed.

(** The states of the feed cache that the code can reach: nothing cached,
    or a feed analysed from simulated activities. *)
Definition reachable (st : FeedState) : Prop :=
  cached_feed_data st = None
  ∨ ∃ analyzed_at feed_markets,
      cached_feed_data st = Some (simulated_feed analyzed_at feed_markets).

Lemma fetched_is_simulated (fetched : Exc (list Market)) (feed_activities : list Activity) :
  _fetch_social_feed fetched = Ok feed_activities →
  ∃ feed_markets, feed_activities = _generate_simulated_activities feed_markets.
Proof.
  unfold _fetch_social_feed. destruct fetched as [[|m ms]|e]; intros [= <-].
  - by exists [].
  - by exists (m :: ms).
Qed.

(** What [get_social_feed] answers from a reachable state: the error feed
    or a feed analysed from simulated activities. *)
Lemma answered_feed (st : FeedState) (current_time analyzed_at : Q)
    (fetched : Exc (list Market)) (force_refresh : bool) :
  reachable st →
  let answer := get_social_feed cache_ttl failure_message current_time analyzed_at
                  fetched force_refresh st in
  (status (fst answer) = "error"
   ∨ ∃ at_time feed_markets, fst answer = simulated_feed at_time feed_markets)
  ∧ reachable (snd answer).
Proof.
  intros Hst answer. unfold answer, get_social_feed.
  destruct Hst as [Hnone|(at0 & ms0 & Hsome)].
  - rewrite Hnone.
    destruct (_fetch_social_feed fetched) as [feed_activities|e] eqn:Hfetch.
    + destruct (fetched_is_simulated _ _ Hfetch) as (feed_markets & ->).
      split; [right; by exists analyzed_at, feed_markets|].
      right. by exists analyzed_at, feed_markets.
    + split; [by left|by left].
  - rewrite Hsome.
    destruct (force_refresh || Qltb cache_ttl (current_time - last_fetch_time st)).
    + destruct (_fetch_social_feed fetched) as [feed_activities|e] eqn:Hfetch.
      * destruct (fetched_is_simulated _ _ Hfetch) as (feed_markets & ->).
        split; [right; by exists analyzed_at, feed_markets|].
        right. by exists analyzed_at, feed_markets.
      * split; [right; by exists at0, ms0|]. right. by exists at0, ms0.
    + split; [right; by exists at0, ms0|]. right. by exists at0, ms0.
Qed.

Lemma simulated_feed_is_ignored (at_time : Q) (feed_markets markets : list Market) :
  analyze bullish_rationale bearish_rationale (simulated_feed at_time feed_markets) markets
  = [].
Proof.
  destruct (simulated_feed_is_unsure at_time feed_markets) as (found & Hfound & Hlow).
  by apply (unsure_feed_is_ignored _ found).
Qed.

Lemma failed_feed_is_ignored (feed : Feed) (markets : list Market) :
  status feed = "error" → analyze bullish_rationale bearish_rationale feed markets = [].
Proof. intros H. unfold analyze. rewrite H. by destruct markets. Qed.

(** X22. The sentiment strategy is silent on the feed the code builds.
    The simulated feed holds three trades in all, so every series is left
    with fewer than five trades and a sentiment of low confidence, which the
    strategy skips. From any reachable state of the feed cache, whatever the
    broker returns or raises, the feed answered gives no recommendation for
    any market list, and the cache stays in a reachable state. *)
Theorem sentiment_strategy_is_silent_on_simulated_feed (st : FeedState)
    (current_time analyzed_at : Q) (fetched : Exc (list Market)) (force_refresh : bool)
    (markets : list Market) :
  reachable st →
  let answer := get_social_feed cache_ttl failure_message current_time analyzed_at
                  fetched force_refresh st in
  analyze bullish_rationale bearish_rationale (fst answer) markets = []
  ∧ reachable (snd answer).
Proof.
  intros Hst answer.
  destruct (answered_feed st current_time analyzed_at fetched force_refresh Hst)
    as [Hfeed Hnext].
  fold answer in Hfeed, Hnext. split; [|exact Hnext].
  destruct Hfeed as [Herror|(at_time & feed_markets & Hsim)].
  - by apply failed_feed_is_ignored.
  - rewrite Hsim. apply simulated_feed_is_ignored.
Qed.

End simulated_feed.

Section spread_facts.
Import Py.

Lemma max_cases (a b : Q) : (max a b = a ∨ max a b = b) ∧ (a <= max a b)%Q ∧ (b <= max a b)%Q.
Proof.
  unfold max. destruct (Qltb a b) eqn:E.
  - apply Qltb_lt in E. split; [by right|]. split; [by apply Qlt_le_weak|apply Qle_refl].
  - split; [by left|]. split; [apply Qle_refl|].
    apply Qnot_lt_le. intros H. apply Qltb_lt in H. congruence.
Qed.

Lemma min_cases (a b : Q) : (min a b = a ∨ min a b = b) ∧ (min a b <= a)%Q ∧ (min a b <= b)%Q.
Proof.
  unfold min. destruct (Qltb b a) eqn:E.
  - apply Qltb_lt in E. split; [by right|]. split; [by apply Qlt_le_weak|apply Qle_refl].
  - split; [by left|]. split; [apply Qle_refl|].
    apply Qnot_lt_le. intros H. apply Qltb_lt in H. congruence.
Qed.

Lemma foldr_max_spec (x : Q) (rest : list Q) :
  foldr max x rest ∈ x :: rest ∧ Forall (fun y => (y <= foldr max x rest)%Q) (x :: rest).
Proof.
  induction rest as [|a rest [IHin IHall]]; cbn [foldr].
  - split; [apply list_elem_of_here|]. apply Forall_singleton, Qle_refl.
  - destruct (max_cases a (foldr max x rest)) as ([Hc|Hc] & Ha & Hm).
    + split.
      { rewrite Hc. apply list_elem_of_further, list_elem_of_here. }
      apply Forall_cons in IHall as [Hx Hrest].
      apply Forall_cons. split; [by apply Qle_trans with (2 := Hm)|].
      apply Forall_cons. split; [done|].
      eapply Forall_impl; [exact Hrest|]. intros y Hy. by apply Qle_trans with (2 := Hm).
    + split.
      { rewrite Hc. apply elem_of_cons in IHin as [->|Hin];
          [apply list_elem_of_here|by do 2 apply list_elem_of_further]. }
      apply Forall_cons in IHall as [Hx Hrest].
      apply Forall_cons. split; [by apply Qle_trans with (2 := Hm)|].
      apply Forall_cons. split; [done|].
      eapply Forall_impl; [exact Hrest|]. intros y Hy. by apply Qle_trans with (2 := Hm).
Qed.

Lemma foldr_min_spec (x : Q) (rest : list Q) :
  foldr min x rest ∈ x :: rest ∧ Forall (fun y => (foldr min x rest <= y)%Q) (x :: rest).
Proof.
  induction rest as [|a rest [IHin IHall]]; cbn [foldr].
  - split; [apply list_elem_of_here|]. apply Forall_singleton, Qle_refl.
  - destruct (min_cases a (foldr min x rest)) as ([Hc|Hc] & Ha & Hm).
    + split.
      { rewrite Hc. apply list_elem_of_further, list_elem_of_here. }
      apply Forall_cons in IHall as [Hx Hrest].
      apply Forall_cons. split; [by apply Qle_trans with (1 := Hm)|].
      apply Forall_cons. split; [done|].
      eapply Forall_impl; [exact Hrest|]. intros y Hy. by apply Qle_trans with (1 := Hm).
    + split.
      { rewrite Hc. apply elem_of_cons in IHin as [->|Hin];
          [apply list_elem_of_here|by do 2 apply list_elem_of_further]. }
      apply Forall_cons in IHall as [Hx Hrest].
      apply Forall_cons. split; [by apply Qle_trans with (1 := Hm)|].
      apply Forall_cons. split; [done|].
      eapply Forall_impl; [exact Hrest|]. intros y Hy. by apply Qle_trans with (1 := Hm).
Qed.

Lemma spread_within (xs : list Q) (lo hi : Q) :
  (2 ≤ length xs)%nat → Forall (fun x => (lo <= x <= hi)%Q) xs → (spread xs <= hi - lo)%Q.
Proof.
  intros Hlen Hall. destruct xs as [|x rest]; [cbn in Hlen; lia|]. cbn [spread].
  destruct (foldr_max_spec x rest) as [Hmax _].
  destruct (foldr_min_spec x rest) as [Hmin _].
  rewrite List.Forall_forall in Hall.
  destruct (Hall _ (proj1 (list_elem_of_In _ _) Hmax)) as [_ Hhi].
  destruct (Hall _ (proj1 (list_elem_of_In _ _) Hmin)) as [Hlo _].
  unfold Qminus. apply Qplus_le_compat; [done|]. by apply Qopp_le_compat.
Qed.

Lemma spread_positive (xs : list Q) (x y : Q) :
  x ∈ xs → y ∈ xs → (x < y)%Q → (0 < spread xs)%Q.
Proof.
  intros Hx Hy Hlt. destruct xs as [|z rest]; [by apply elem_of_nil in Hx|]. cbn [spread].
  destruct (foldr_max_spec z rest) as [_ Hmax].
  destruct (foldr_min_spec z rest) as [_ Hmin].
  rewrite List.Forall_forall in Hmax, Hmin.
  apply list_elem_of_In in Hx, Hy.
  pose proof (Hmin x Hx) as Hlow. pose proof (Hmax y Hy) as Hhigh.
  rewrite <- (Qplus_opp_r (foldr min z rest)). unfold Qminus.
  apply Qplus_lt_l.
  apply Qle_lt_trans with (1 := Hlow). by apply Qlt_le_trans with (1 := Hlt).
Qed.

End spread_facts.

Section manager_on_simulated_data.
Import Py.
Variable py_float : string → option Q.
Variable range_rationale index_rationale_low index_rationale_high : Z → Z → string.
Variable stdev : list Q → Q.
Variable above_rationale below_rationale : Z → Q → string.
Variable bullish_rationale bearish_rationale : Q → string → string.
Variable cache_ttl : Q.
Variable failure_message : string → string.
(** The scorers as the manager sees them: functions from the markets to a
    list. *)
Variable volatility_analyze sentiment_analyze : list Market → list Rec.

Local Abbreviation manager :=
  (Strategies.get_recommendations py_float range_rationale index_rationale_low
     index_rationale_high volatility_analyze sentiment_analyze).

(** X23. With the manager's volatility and sentiment scorers being the
    modelled ones (the volatility strategy called without history, the
    sentiment strategy reading the feed from a reachable cache state), and
    the standard deviation bounded as a sample standard deviation is, the
    strategies "volatility" and "sentiment" return nothing and "combined"
    returns exactly what "arbitrage" returns, for every market list, count
    and risk level. *)
Theorem combined_strategy_is_arbitrage_only (st : SocialFeed.FeedState)
    (current_time analyzed_at : Q) (fetched : Exc (list Market)) (force_refresh : bool)
    (markets : list Market) (max_recommendations : Z) (risk_level : string) :
  (∀ (xs : list Q) (lo hi : Q),
     (2 ≤ length xs)%nat → Forall (fun x => (lo <= x <= hi)%Q) xs →
     (stdev xs <= hi - lo)%Q) →
  (∀ (xs : list Q) (x y : Q), x ∈ xs → y ∈ xs → (x < y)%Q → (0 < stdev xs)%Q) →
  reachable st →
  (∀ ms, Volatility.analyze stdev above_rationale below_rationale ms None
         = Ok (volatility_analyze ms)) →
  (∀ ms, sentiment_analyze ms
         = Sentiment.analyze bullish_rationale bearish_rationale
             (fst (SocialFeed.get_social_feed cache_ttl failure_message current_time
                     analyzed_at fetched force_refresh st)) ms) →
  manager "volatility" markets max_recommendations risk_level = []
  ∧ manager "sentiment" markets max_recommendations risk_level = []
  ∧ manager "combined" markets max_recommendations risk_level
    = manager "arbitrage" markets max_recommendations risk_level.
Proof.
  intros Hwithin Hpositive Hst Hvol Hsent.
  assert (Hv : ∀ ms, volatility_analyze ms = []).
  { intros ms. specialize (Hvol ms). revert Hvol. unfold Volatility.analyze.
    destruct ms as [|m ms]; [congruence|].
    rewrite (calm_data_gives_nothing stdev above_rationale below_rationale
               Hwithin Hpositive). congruence. }
  assert (Hs : ∀ ms, sentiment_analyze ms = []).
  { intros ms. rewrite Hsent.
    destruct (answered_feed cache_ttl failure_message st current_time analyzed_at fetched
                force_refresh Hst) as [[Herror|(at_time & feed_markets & Hsim)] _].
    - by apply failed_feed_is_ignored.
    - rewrite Hsim. apply simulated_feed_is_ignored. }
  assert (Hempty : Py.slice_to
            (Strategies._sort_by_confidence (Strategies._filter_by_risk_level [] risk_level))
            max_recommendations = []).
  { unfold Strategies._filter_by_risk_level.
    destruct (String.eqb risk_level "high"), (String.eqb risk_level "medium"),
      (String.eqb risk_level "low"); cbn; unfold slice_to;
      destruct (0 <=? max_recommendations); by rewrite take_nil. }
  unfold Strategies.get_recommendations. destruct markets as [|m ms]; [done|].
  cbn [String.eqb Ascii.eqb Bool.eqb andb]. 
  rewrite Hv, Hs, app_nil_r. done.
Qed.

End manager_on_simulated_data.

(** ** Instances *)

Definition one_index_market : Market := simple_market "KXINXU-25APR02H1200-T5600" 50 1000.
Definition no_price_text (cents : Z) (average : Q) : string := "".
Definition no_share_text (share : Q) (level : string) : string := "".
Definition plain_message (e : string) : string := e.

Lemma momentum_rule_in_cents_witness :
  RuleBased.generate_recommendations no_rationale no_rationale [one_index_market]
    "momentum" 5 "medium" = [].
Proof.
  apply (momentum_rule_in_cents no_rationale no_rationale [one_index_market] 5 "medium").
  intros m Hm. apply list_elem_of_singleton in Hm as ->.
  unfold ask_cents. simpl. lia.
Defined.

Lemma mean_reversion_rule_in_cents_witness :
  RuleBased.generate_recommendations no_rationale no_rationale [one_index_market]
    "mean-reversion" 5 "medium" = [].
Proof.
  apply (mean_reversion_rule_in_cents no_rationale no_rationale [one_index_market] 5 "medium").
  intros m Hm. apply list_elem_of_singleton in Hm as ->.
  unfold ask_cents. simpl. lia.
Defined.

Lemma hybrid_prefers_momentum_witness :
  Forall (fun r => strategy r = Some "momentum" ∨ strategy r = Some "mean-reversion")
    (Hybrid._generate_hybrid_strategy_recommendations no_rationale no_rationale false
       no_openai
       [simple_market "KXINXU-25APR02H1200-T5600" 90 1000;
        simple_market "KXINXU-25APR02H1200-T5700" 10 900] 2 "medium").
Proof.
  apply List.Forall_forall. intros r Hr. apply list_elem_of_In in Hr.
  destruct (hybrid_prefers_momentum no_rationale no_rationale no_openai
              [simple_market "KXINXU-25APR02H1200-T5600" 90 1000;
               simple_market "KXINXU-25APR02H1200-T5700" 10 900] 2 "medium")
    as (_ & _ & H).
  destruct (H r Hr) as [(c & _ & ->)|(c & _ & -> & _)]; [left|right]; reflexivity.
Defined.

Definition two_strikes : list Market :=
  [ range_market "KXBTC-25APR0212-B84000" 30 60;
    range_market "KXBTC-25APR0212-B84500" 30 60 ].

Lemma manager_result_is_ordered_and_drawn_witness :
  NoDup (market_id <$>
           Strategies.get_recommendations float_of_digits no_text no_text no_text
             no_scorer no_scorer "arbitrage" two_strikes 5 "medium").
Proof.
  apply (manager_result_is_ordered_and_drawn float_of_digits no_text no_text no_text
           no_scorer no_scorer "arbitrage" two_strikes 5 "medium").
  vm_compute. apply NoDup_cons. split; [|apply NoDup_singleton].
  intros H. apply list_elem_of_singleton in H. discriminate H.
Defined.

Lemma arbitrage_result_shape_witness :
  Strategies.arbitrage_analyze float_of_digits no_text no_text no_text
    [range_market "KXBTC-25APR0212-B84000" 30 60] = [].
Proof.
  apply (arbitrage_result_shape float_of_digits no_text no_text no_text
           [range_market "KXBTC-25APR0212-B84000" 30 60]).
  simpl. lia.
Defined.

Definition yolo_session : Yolo.State :=
  {| Yolo.session_strategy := "momentum"; Yolo.risk_level := "medium";
     Yolo.max_spend_per_trade := 10; Yolo.max_trades_per_hour := 3;
     Yolo.max_total_spend := 50; Yolo.trade_history := [];
     Yolo.total_spent := 0; Yolo.trades_this_hour := 0 |}.


Definition filled_order (rec : Rec) : Py.Exc (option (string * string)) :=
  Py.Ok (Some ("order-1", "2025-04-02T12:00:00")).

Lemma yolo_selection_is_safe_witness :
  Yolo._get_recommendations yolo_session (Py.Raise "ConnectionError") = [].
Proof.
  destruct (yolo_selection_is_safe yolo_session (Py.Raise "ConnectionError"))
    as (_ & _ & _ & H).
  apply (H "ConnectionError"). reflexivity.
Defined.


Lemma tracker_page_is_newest_first_witness :
  Py.len (TrackerQueries.get_recommendations None (Some "closed") 2 0 two_wins_one_loss) ≤ 2.
Proof.
  destruct (tracker_page_is_newest_first None (Some "closed") 2 0 two_wins_one_loss)
    as (H & _).
  - lia.
  - lia.
  - exact H.
Defined.

Lemma timeframe_report_reads_one_page_witness :
  TrackerQueries.report_win_count
    (TrackerQueries.get_performance_by_timeframe 0 0 0 300 (Some "momentum") "all"
       two_wins_one_loss)
  = Tracker.win_count
      (Tracker.metrics "momentum" 300 (flat_map snd (Tracker.recommendations two_wins_one_loss))).
Proof.
  destruct (timeframe_report_reads_one_page 0 0 0 300 (Some "momentum") "all"
              two_wins_one_loss) as (_ & _ & H).
  destruct (H "momentum" (flat_map snd (Tracker.recommendations two_wins_one_loss)))
    as (_ & Hwins & _).
  - reflexivity.
  - vm_compute. reflexivity.
  - vm_compute. lia.
  - reflexivity.
  - exact Hwins.
Defined.

Lemma update_changes_the_first_match_only_witness :
  fst (Tracker.update_recommendation_status 400 "rec_b" "expired" None None
         two_wins_one_loss) = true.
Proof.
  destruct (update_changes_the_first_match_only 400 "rec_b" "expired" None None
              two_wins_one_loss) as (H & _).
  - change (ledger_ids two_wins_one_loss) with ["rec_a"; "rec_b"; "rec_c"].
    apply list_elem_of_further, list_elem_of_here.
  - exact H.
Defined.

Lemma update_refreshes_one_aggregate_witness :
  ∃ found,
    is_Some (Tracker.performance
               (snd (Tracker.update_recommendation_status 400 "rec_b" "expired" None None
                       two_wins_one_loss)) !! found).
Proof.
  destruct (update_refreshes_one_aggregate 400 "rec_b" "expired" None None
              two_wins_one_loss) as (found & recs & recs' & _ & _ & _ & H & _).
  - change (fst <$> Tracker.recommendations two_wins_one_loss) with ["momentum"].
    apply NoDup_singleton.
  - change (ledger_ids two_wins_one_loss) with ["rec_a"; "rec_b"; "rec_c"].
    apply list_elem_of_further, list_elem_of_here.
  - exists found. rewrite H, lookup_insert_eq. by eexists.
Defined.

Lemma aggregate_is_bounded_witness :
  (Tracker.accuracy
     (Tracker.metrics "momentum" 300
        (flat_map snd (Tracker.recommendations two_wins_one_loss))) <= 100)%Q.
Proof.
  apply (aggregate_is_bounded "momentum" 300
           (flat_map snd (Tracker.recommendations two_wins_one_loss))).
  vm_compute.
  repeat (apply Forall_cons; split; [intros _; reflexivity|]). apply Forall_nil_2.
Defined.

Definition no_keys : Tracker.Recommendation :=
  {| Tracker.rec_id := None; Tracker.rec_market_id := None; Tracker.rec_strategy := None;
     Tracker.rec_action := None; Tracker.rec_probability := None;
     Tracker.rec_target_exit := None; Tracker.rec_stop_loss := None;
     Tracker.rec_confidence := None; Tracker.other_keys := false |}.

Lemma record_appends_one_open_record_witness :
  snd (Tracker.record_recommendation fixed_id 100 no_keys two_wins_one_loss)
  = two_wins_one_loss.
Proof.
  apply (record_appends_one_open_record fixed_id 100 no_keys two_wins_one_loss).
  reflexivity.
Defined.

Definition generated_empty : Enhanced.Result :=
  {| Enhanced.recommendations := []; Enhanced.timestamp := 1000;
     Enhanced.source := "arbitrage"; Enhanced.result_strategy := "arbitrage";
     Enhanced.result_risk_level := "medium"; Enhanced.cached := false;
     Enhanced.message := None |}.

Lemma enhanced_serves_what_it_cached_witness :
  fst (Enhanced.get_recommendations false true true 300%Q
         no_openai no_openai no_openai quiet_manager
         (snd (Enhanced.get_recommendations false true true 300%Q
                 no_openai no_openai no_openai quiet_manager
                 ∅ 1000%Q (Py.Ok [one_index_market]) "arbitrage" 5 "medium" false))
         1060%Q (Py.Raise "ConnectionError") "arbitrage" 3 "medium" false)
  = Py.Ok {| Enhanced.recommendations := []; Enhanced.timestamp := 1000;
             Enhanced.source := "arbitrage"; Enhanced.result_strategy := "arbitrage";
             Enhanced.result_risk_level := "medium"; Enhanced.cached := true;
             Enhanced.message := None |}.
Proof.
  rewrite (enhanced_serves_what_it_cached false true true 300%Q
             no_openai no_openai no_openai quiet_manager
             ∅ 1000%Q 1060%Q (Py.Ok [one_index_market]) (Py.Raise "ConnectionError")
             "arbitrage" 5 3 "medium" false generated_empty).
  - reflexivity.
  - reflexivity.
  - reflexivity.
  - reflexivity.
  - reflexivity.
  - unfold Qle. simpl. lia.
Defined.

Lemma enhanced_request_writes_its_own_file_witness :
  snd (Enhanced.get_recommendations false true false 300%Q
         no_openai no_openai no_openai quiet_manager
         ∅ 1000%Q (Py.Ok [one_index_market]) "arbitrage" 5 "medium" false) = ∅.
Proof.
  apply (enhanced_request_writes_its_own_file false true false 300%Q
           no_openai no_openai no_openai quiet_manager
           ∅ 1000%Q (Py.Ok [one_index_market]) "arbitrage" 5 "medium" false).
  reflexivity.
Defined.

Lemma simulated_history_is_a_five_cent_band_witness :
  is_Some (Volatility._generate_simulated_historical_data [one_index_market]
             !! id one_index_market).
Proof.
  apply (simulated_history_is_a_five_cent_band [one_index_market]).
  apply list_elem_of_here.
Defined.

Lemma volatility_strategy_is_silent_on_simulated_data_witness :
  Volatility.analyze spread no_price_text no_price_text [one_index_market] None
  = Py.Ok [].
Proof.
  apply (volatility_strategy_is_silent_on_simulated_data spread no_price_text
           no_price_text spread_within spread_positive [one_index_market]).
Defined.

Definition failed_feed : SocialFeed.Feed :=
  {| SocialFeed.status := "error"; SocialFeed.message := Some "ConnectionError";
     SocialFeed.timestamp := 1000; SocialFeed.activities := [];
     SocialFeed.insights := None |}.

Lemma sentiment_entries_follow_the_series_witness :
  Sentiment.analyze no_share_text no_share_text failed_feed [one_index_market] = [].
Proof.
  apply (sentiment_entries_follow_the_series no_share_text no_share_text failed_feed
           [one_index_market]).
  left. reflexivity.
Defined.

Lemma sentiment_strategy_is_silent_on_simulated_feed_witness :
  Sentiment.analyze no_share_text no_share_text
    (fst (SocialFeed.get_social_feed 900 plain_message 1000 1000
            (Py.Ok [one_index_market]) false SocialFeed.initial_state))
    [one_index_market] = [].
Proof.
  apply (sentiment_strategy_is_silent_on_simulated_feed no_share_text no_share_text
           900%Q plain_message SocialFeed.initial_state 1000%Q 1000%Q
           (Py.Ok [one_index_market]) false [one_index_market]).
  left. reflexivity.
Defined.

Definition feed_scorer (ms : list Market) : list Rec :=
  Sentiment.analyze no_share_text no_share_text
    (fst (SocialFeed.get_social_feed 900 plain_message 1000 1000
            (Py.Ok [one_index_market]) false SocialFeed.initial_state)) ms.

Lemma combined_strategy_is_arbitrage_only_witness :
  Strategies.get_recommendations float_of_digits no_text no_text no_text
    no_scorer feed_scorer "combined" three_strikes 5 "medium"
  = Strategies.get_recommendations float_of_digits no_text no_text no_text
      no_scorer feed_scorer "arbitrage" three_strikes 5 "medium".
Proof.
  apply (combined_strategy_is_arbitrage_only float_of_digits no_text no_text no_text
           spread no_price_text no_price_text no_share_text no_share_text 900%Q
           plain_message no_scorer feed_scorer SocialFeed.initial_state 1000%Q 1000%Q
           (Py.Ok [one_index_market]) false three_strikes 5 "medium").
  - exact spread_within.
  - exact spread_positive.
  - left. reflexivity.
  - intros ms. unfold Volatility.analyze. destruct ms as [|m ms]; [reflexivity|].
    apply (calm_data_gives_nothing spread no_price_text no_price_text
             spread_within spread_positive).
  - intros ms. reflexivity.
Defined.

(** The total cap is tested on the rounded total. With a total cap of 0.4,
    trades of 0.05 and 0.35 leave the float total just below 0.4, so a third
    trade of 0.4 is made: three trades and a total of 0.8. *)
Example rounded_total_lets_a_third_trade_through :
  let session :=
    {| Yolo.session_strategy := "arbitrage"; Yolo.risk_level := "medium";
       Yolo.max_spend_per_trade := Float.literal (4 # 10); Yolo.max_trades_per_hour := 5;
       Yolo.max_total_spend := Float.literal (4 # 10); Yolo.trade_history := [];
       Yolo.total_spent := 0; Yolo.trades_this_hour := 0 |} in
  let answer :=
    Py.Ok {| Enhanced.recommendations :=
               [priced "KXBTC-25APR0212-B84000" (Float.literal (5 # 100));
                priced "KXBTC-25APR0212-B84500" (Float.literal (35 # 100));
                priced "KXBTC-25APR0212-B85000" (Float.literal (4 # 10))];
             Enhanced.timestamp := 1000; Enhanced.source := "arbitrage";
             Enhanced.result_strategy := "arbitrage";
             Enhanced.result_risk_level := "medium";
             Enhanced.cached := false; Enhanced.message := None |} in
  let after :=
    Yolo.trade_cycle filled_order [] (Yolo._get_recommendations session answer) session in
  Yolo.trades_this_hour after = 3
  ∧ Yolo.total_spent after = Float.literal (8 # 10)
  ∧ (Float.add (Float.literal (5 # 100)) (Float.literal (35 # 100))
     < Float.literal (4 # 10))%Q.
Proof. vm_compute. split; [reflexivity|]. split; reflexivity. Qed.
